(** * jupytutor_server: the conversation pipeline of [src/clients/openai.js]

    A shallow embedding of the attachment classifier ([processFile]), the
    image-detection helpers, the message assembler, the outbound stripping,
    the streaming loop and the transcript compactor ([processChatHistory]),
    followed by the properties established about them.

    Conventions of the embedding.
    - A JavaScript string is the sequence of its code units; code units are
      the 8-bit characters of [string] (the texts handled here are ASCII or
      Latin-1).
    - A [Buffer] is a [list byte].
    - A JavaScript object is a record of the fields the code reads or writes;
      a field that may be missing is an [option] ([None] is [undefined]).
    - Code that may throw returns a [Result]; code that also writes to the
      HTTP response or calls the provider runs in the monad [M].
    - Objects are values: [promptTutor] assigns to no field of an object it
      was given; it pushes onto arrays it created ([messages],
      [messageContent], [fullOutput]) and builds new objects by spread and
      rest, so no store of shared objects is needed. *)

From Stdlib Require Import List String Ascii Bool Arith NArith Lia.
From Stdlib Require Import Strings.Byte.
From Stdlib Require Import ZArith Numbers.DecimalString.
Import ListNotations.
Local Open Scope string_scope.
Local Open Scope list_scope.
Local Open Scope nat_scope.

(* ------------------------------------------------------------------ *)
(** ** Host-language primitives *)

Module JS.

(** Truthiness of a string: every string but the empty one. *)
Definition truthy (s : string) : bool :=
  match s with
  | EmptyString => false
  | String _ _ => true
  end.

(** [a || b] on values that are a string or [undefined]. *)
Definition or_else (a b : option string) : option string :=
  match a with
  | Some s => if truthy s then a else b
  | None => b
  end.

(** [a || ""]. *)
Definition or_empty (a : option string) : string :=
  match a with
  | Some s => s
  | None => ""
  end.

(** A value inside a template literal: [undefined] prints as its name. *)
Definition display (a : option string) : string :=
  match a with
  | Some s => s
  | None => "undefined"
  end.

(** WhiteSpace and LineTerminator code units below 256: TAB, LF, VT, FF,
    CR, SP and NBSP. *)
Definition isWhiteSpace (c : ascii) : bool :=
  let n := nat_of_ascii c in
  ((9 <=? n) && (n <=? 13)) || (n =? 32) || (n =? 160).

Fixpoint trimStart (s : string) : string :=
  match s with
  | EmptyString => EmptyString
  | String c rest => if isWhiteSpace c then trimStart rest else s
  end.

Fixpoint trimEnd (s : string) : string :=
  match s with
  | EmptyString => EmptyString
  | String c rest =>
      match trimEnd rest with
      | EmptyString => if isWhiteSpace c then EmptyString else String c EmptyString
      | kept => String c kept
      end
  end.

(** [String.prototype.trim]. *)
Definition trim (s : string) : string := trimEnd (trimStart s).

Definition map_string (f : ascii -> ascii) : string -> string :=
  fix go (s : string) : string :=
    match s with
    | EmptyString => EmptyString
    | String c rest => String (f c) (go rest)
    end.

(** Lower-casing of one code unit below 256: A-Z, and the Latin-1 capitals
    U+00C0..U+00DE except the multiplication sign U+00D7. *)
Definition lower_char (c : ascii) : ascii :=
  let n := nat_of_ascii c in
  if ((65 <=? n) && (n <=? 90))
     || ((192 <=? n) && (n <=? 222) && negb (n =? 215))
  then ascii_of_nat (n + 32) else c.

Definition toLowerCase : string -> string := map_string lower_char.

(** Upper-casing of one code unit; the code applies it to the ten listed
    text extensions only, all of them ASCII. *)
Definition upper_char (c : ascii) : ascii :=
  let n := nat_of_ascii c in
  if (97 <=? n) && (n <=? 122) then ascii_of_nat (n - 32) else c.

Definition toUpperCase : string -> string := map_string upper_char.

(** [s.substring(1)]. *)
Definition substring1 (s : string) : string :=
  match s with
  | EmptyString => EmptyString
  | String _ rest => rest
  end.

(** [list.includes(s)] on an array of strings. *)
Definition includes (l : list string) (s : string) : bool :=
  existsb (String.eqb s) l.

End JS.

(* ------------------------------------------------------------------ *)
(** ** [path.extname] (Node, POSIX flavour)

    The scan runs from the last character to the first and stops at the
    first separator that follows a path component. *)

Module Path.

Record Scan := {
  startDot : option nat;
  startPart : nat;
  endPos : option nat;
  matchedSlash : bool;
  (* 0: nothing seen before the dot; 1: another dot; 2 stands for -1 *)
  preDotState : nat
}.

Definition scan0 : Scan :=
  {| startDot := None; startPart := 0; endPos := None;
     matchedSlash := true; preDotState := 0 |}.

Definition is_slash (c : ascii) : bool := Ascii.eqb c "/"%char.
Definition is_dot (c : ascii) : bool := Ascii.eqb c "."%char.

Definition isNone {A} (o : option A) : bool :=
  match o with None => true | Some _ => false end.

(** One iteration of the loop body at index [i]; [inl] is [break]. *)
Definition scan_step (code : ascii) (i : nat) (st : Scan) : Scan + Scan :=
  if is_slash code then
    if negb (matchedSlash st)
    then inl {| startDot := startDot st; startPart := i + 1;
                endPos := endPos st; matchedSlash := matchedSlash st;
                preDotState := preDotState st |}
    else inr st
  else
    let st1 :=
      if isNone (endPos st)
      then {| startDot := startDot st; startPart := startPart st;
              endPos := Some (i + 1); matchedSlash := false;
              preDotState := preDotState st |}
      else st in
    if is_dot code then
      if isNone (startDot st1)
      then inr {| startDot := Some i; startPart := startPart st1;
                  endPos := endPos st1; matchedSlash := matchedSlash st1;
                  preDotState := preDotState st1 |}
      else inr {| startDot := startDot st1; startPart := startPart st1;
                  endPos := endPos st1; matchedSlash := matchedSlash st1;
                  preDotState := 1 |}
    else
      if isNone (startDot st1) then inr st1
      else inr {| startDot := startDot st1; startPart := startPart st1;
                  endPos := endPos st1; matchedSlash := matchedSlash st1;
                  preDotState := 2 |}.

(** [for (let i = path.length - 1; i >= 0; --i)], with [n = i + 1]. *)
Fixpoint scan (path : string) (n : nat) (st : Scan) : Scan :=
  match n with
  | 0 => st
  | S i =>
      match String.get i path with
      | None => st
      | Some code =>
          match scan_step code i st with
          | inl stopped => stopped
          | inr next => scan path i next
          end
      end
  end.

Definition extname (path : string) : string :=
  let st := scan path (String.length path) scan0 in
  match startDot st, endPos st with
  | Some sd, Some e =>
      if (preDotState st =? 0)
         || ((preDotState st =? 1) && (sd =? e - 1) && (sd =? startPart st + 1))
      then ""
      else String.substring sd (e - sd) path
  | _, _ => ""
  end.

End Path.

(* ------------------------------------------------------------------ *)
(** ** Exceptions *)

Inductive JsError : Type :=
| ReferenceError (identifier : string)   (* "<identifier> is not defined" *)
| TypeError (message : string)
| HttpError (code : string)              (* e.g. ERR_HTTP_HEADERS_SENT *)
| ProviderError (message : string).

Inductive Result (A : Type) : Type :=
| Ok (a : A)
| Throw (e : JsError).
Arguments Ok {A} a.
Arguments Throw {A} e.

Definition rbind {A B} (c : Result A) (k : A -> Result B) : Result B :=
  match c with
  | Ok a => k a
  | Throw e => Throw e
  end.

Declare Scope result_scope.
Delimit Scope result_scope with result.
Notation "x <- c ;; k" := (rbind c (fun x => k))
  (at level 61, c at next level, right associativity) : result_scope.

(** [array.map(f)] with a callback that may throw: the first exception
    leaves the loop. *)
Fixpoint mapR {A B} (f : A -> Result B) (l : list A) : Result (list B) :=
  match l with
  | [] => Ok []
  | a :: rest =>
      rbind (f a) (fun b => rbind (mapR f rest) (fun bs => Ok (b :: bs)))
  end.

(** [array.some(f)] with a callback that may throw: elements are visited in
    order, and the visit stops at the first [true] or the first exception. *)
Fixpoint someR {A} (f : A -> Result bool) (l : list A) : Result bool :=
  match l with
  | [] => Ok false
  | a :: rest =>
      rbind (f a) (fun hit => if hit then Ok true else someR f rest)
  end.

(* ------------------------------------------------------------------ *)
(** ** Lexical scopes

    The names bound at a program point, innermost first.  Reading a name that
    no enclosing scope binds (and that is no global of the runtime) throws a
    [ReferenceError]. *)

Module Scope.

(** Imports and top-level [const]s of [openai.js]. *)
Definition module_level : list string :=
  [ "dotenv"; "OpenAI"; "AzureOpenAI"; "fs"; "path"; "MODEL_CHOICE";
    "GPT_5_MINI_URL"; "client"; "hasImagesInMessages"; "processFile";
    "graderInstructions"; "freeResponseInstructions"; "successInstructions";
    "processChatHistory"; "promptTutor" ].

(** Body of [processFile]: its parameter and its [const]s. *)
Definition of_processFile : list string :=
  [ "file"; "fileExtension"; "isImageByContent"; "detectedMimeType" ]
    ++ module_level.

(** Body of [promptTutor], at the point where [hasImages] is computed. *)
Definition of_promptTutor : list string :=
  [ "chatHistory"; "newMessage"; "files"; "cellType"; "res"; "stream";
    "messages"; "messageContent"; "userMessage"; "lastMessage";
    "lastUserText"; "newMessageText"; "hasImages"; "model"; "instructions";
    "response" ] ++ module_level.

(** Body of the callback given to [files.some] inside [promptTutor]. *)
Definition of_some_callback : list string :=
  [ "f"; "ext" ] ++ of_promptTutor.

Definition resolve (scope : list string) (identifier : string) : Result unit :=
  if JS.includes scope identifier then Ok tt
  else Throw (ReferenceError identifier).

End Scope.

(* ------------------------------------------------------------------ *)
(** ** Data model *)

(** One element of a message's [content] array. *)
Record ContentItem := {
  item_type : string;
  item_text : option string;
  item_image_url : option string;
  item_noShow : option bool
}.

Inductive Content : Type :=
| Str (s : string)
| Arr (items : list ContentItem).

(** A message of the conversation: [type], [role], [content], [noShow]. *)
Record Message := {
  msg_type : option string;
  role : option string;
  content : option Content;
  noShow : option bool
}.

(** An uploaded file as the upload middleware hands it over. *)
Record File := {
  originalname : option string;
  name : option string;
  buffer : option (list byte)
}.

Definition has_type (s : string) (t : option string) : bool :=
  match t with
  | Some x => String.eqb x s
  | None => false
  end.

(* ------------------------------------------------------------------ *)
(** ** Image detection in messages (lines 40-54) *)

Definition hasImagesInMessages (messages : list Message) : bool :=
  existsb
    (fun message =>
       match content message with
       | None => false
       | Some (Str _) => false
       | Some (Arr items) =>
           existsb (fun item => String.eqb (item_type item) "image_url") items
       end)
    messages.

(* ------------------------------------------------------------------ *)
(** ** Attachment classifier (lines 57-189) *)

Definition image_extensions : list string :=
  [ ".jpg"; ".jpeg"; ".png"; ".gif"; ".bmp"; ".webp" ].

Definition text_extensions : list string :=
  [ ".txt"; ".md"; ".json"; ".xml"; ".html"; ".css"; ".js"; ".ts"; ".jsx";
    ".tsx" ].

(** [buffer[i] === b]; reading past the end gives [undefined]. *)
Definition byte_is (buf : list byte) (i : nat) (b : byte) : bool :=
  match nth_error buf i with
  | Some x => Byte.eqb x b
  | None => false
  end.

(** The magic-byte sniffer, a [const] local to [processFile]. *)
Definition isImageByContent (buffer : option (list byte)) : option string :=
  match buffer with
  | None => None
  | Some buf =>
      if List.length buf <? 4 then None
      else if byte_is buf 0 x89 && byte_is buf 1 x50 && byte_is buf 2 x4e
              && byte_is buf 3 x47
      then Some "image/png"
      else if byte_is buf 0 xff && byte_is buf 1 xd8 && byte_is buf 2 xff
      then Some "image/jpeg"
      else if byte_is buf 0 x47 && byte_is buf 1 x49 && byte_is buf 2 x46
              && byte_is buf 3 x38
      then Some "image/gif"
      else if byte_is buf 0 x42 && byte_is buf 1 x4d
      then Some "image/bmp"
      else if (12 <=? List.length buf)
              && byte_is buf 0 x52 && byte_is buf 1 x49 && byte_is buf 2 x46
              && byte_is buf 3 x46 && byte_is buf 8 x57 && byte_is buf 9 x45
              && byte_is buf 10 x42 && byte_is buf 11 x50
      then Some "image/webp"
      else None
  end.

(** A call [isImageByContent(buffer)] written at a point whose scope is
    [scope]. *)
Definition call_isImageByContent (scope : list string)
    (buffer : option (list byte)) : Result (option string) :=
  rbind (Scope.resolve scope "isImageByContent")
        (fun _ => Ok (isImageByContent buffer)).

Definition file_extension (f : File) : string :=
  JS.toLowerCase
    (Path.extname (JS.or_empty (JS.or_else (originalname f) (name f)))).

Definition text_item (text : string) (flag : option bool) : ContentItem :=
  {| item_type := "input_text"; item_text := Some text;
     item_image_url := None; item_noShow := flag |}.

Definition image_item (url : string) : ContentItem :=
  {| item_type := "input_image"; item_text := None;
     item_image_url := Some url; item_noShow := Some true |}.

Definition newline2 : string :=
  String (ascii_of_nat 10) (String (ascii_of_nat 10) EmptyString).

(* ------------------------------------------------------------------ *)
(** ** Provider and HTTP response *)

(** The argument of [client.responses.create]. *)
Record Request := {
  req_model : string;
  req_input : list Message;
  req_instructions : string;
  req_stream : bool
}.

(** One event of the provider's stream. *)
Record Event := {
  ev_type : string;
  ev_delta : option string
}.

(** What the provider call resolves to: an object with an [output] array, or
    an asynchronous sequence of events (here: the events it delivers). *)
Inductive Response : Type :=
| SyncResponse (output : list Message)
| StreamResponse (events : list Event).

(** The value [promptTutor] returns. *)
Record FinalResponse := {
  response : list Message;
  newChatHistory : list Message;
  promptSuggestions : list string
}.

(** What is sent on the HTTP response; [JSON.stringify] and the [data: ]
    framing are left implicit. *)
Inductive Chunk : Type :=
| MessageDelta (content : string)          (* type "message_delta", role "assistant" *)
| FinalChunk (data : FinalResponse)         (* type "final_response" *)
| ErrorChunk (error : string)               (* type "error" *)
| DoneChunk                                 (* data: [DONE] *)
| JsonBody (data : FinalResponse).          (* res.json(...) *)

Record Res := {
  headers : list (string * string);
  chunks : list Chunk;
  ended : bool
}.

(** Headers go out with the first write. *)
Definition headersSent (r : Res) : bool :=
  match chunks r with
  | [] => false
  | _ :: _ => true
  end.

(** The mutable surroundings of one call: the [res] object ([None] when the
    caller passed [null]) and the provider calls made so far. *)
Record World := {
  res : option Res;
  calls : list Request
}.

(** Computations that may throw and that act on the [World]; the world
    reached when an exception is thrown is kept for the handler. *)
Definition M (A : Type) : Type := World -> Result A * World.

Definition ret {A} (a : A) : M A := fun w => (Ok a, w).

Definition throw {A} (e : JsError) : M A := fun w => (Throw e, w).

Definition bind {A B} (c : M A) (k : A -> M B) : M B :=
  fun w =>
    match c w with
    | (Ok a, w') => k a w'
    | (Throw e, w') => (Throw e, w')
    end.

Definition lift {A} (r : Result A) : M A := fun w => (r, w).

Declare Scope m_scope.
Delimit Scope m_scope with M.
Notation "x <~ c ;; k" := (bind c (fun x => k))
  (at level 61, c at next level, right associativity) : m_scope.
Notation "c ;;; k" := (bind c (fun _ => k))
  (at level 61, right associativity) : m_scope.

Definition null_TypeError (method : string) : JsError :=
  TypeError ("Cannot read properties of null (reading '" ++ method ++ "')").

Definition with_res (method : string) (f : Res -> Res) : M unit :=
  fun w =>
    match res w with
    | Some r => (Ok tt, {| res := Some (f r); calls := calls w |})
    | None => (Throw (null_TypeError method), w)
    end.

(** [res.setHeader] refuses to run once the headers are out. *)
Definition res_setHeader (key value : string) : M unit :=
  fun w =>
    match res w with
    | Some r =>
        if headersSent r then (Throw (HttpError "ERR_HTTP_HEADERS_SENT"), w)
        else with_res "setHeader"
               (fun r => {| headers := headers r ++ [(key, value)];
                            chunks := chunks r; ended := ended r |}) w
    | None => (Throw (null_TypeError "setHeader"), w)
    end.

Definition res_write (c : Chunk) : M unit :=
  with_res "write"
    (fun r => {| headers := headers r; chunks := chunks r ++ [c];
                 ended := ended r |}).

Definition res_end : M unit :=
  with_res "end"
    (fun r => {| headers := headers r; chunks := chunks r; ended := true |}).

(** [res.json] sets the content type first: like [res.setHeader] it refuses
    to run once the headers are out; otherwise it sends the body and ends
    the response. *)
Definition res_json (data : FinalResponse) : M unit :=
  fun w =>
    match res w with
    | Some r =>
        if headersSent r then (Throw (HttpError "ERR_HTTP_HEADERS_SENT"), w)
        else with_res "json"
               (fun r => {| headers := headers r;
                            chunks := chunks r ++ [JsonBody data];
                            ended := true |}) w
    | None => (Throw (null_TypeError "json"), w)
    end.

(** Truthiness of [res]. *)
Definition res_given : M bool :=
  fun w => (Ok (negb (Path.isNone (res w))), w).

(** [error.message || "Internal server error"]. *)
Definition error_message (e : JsError) : string :=
  let message :=
    match e with
    | ReferenceError x => (x ++ " is not defined")%string
    | TypeError m => m
    | HttpError _ => "Cannot set headers after they are sent to the client"
    | ProviderError m => m
    end in
  if JS.truthy message then message else "Internal server error".

Section Pipeline.

(** [Buffer.prototype.toString] for the two encodings in use. *)
Variable base64 : list byte -> string.
Variable utf8 : list byte -> string.

(** [file.buffer.toString(...)]: a method call on [undefined] throws. *)
Definition buffer_toString (decode : list byte -> string)
    (buffer : option (list byte)) : Result string :=
  match buffer with
  | Some buf => Ok (decode buf)
  | None => Throw (TypeError "Cannot read properties of undefined (reading 'toString')")
  end.

Definition processFile (file : option File) : Result (option ContentItem) :=
  match file with
  | None => Ok None
  | Some file =>
      let fileExtension := file_extension file in
      let shown := JS.display (JS.or_else (originalname file) (name file)) in
      if JS.includes image_extensions fileExtension then
        let mimetype := ("image/" ++ JS.substring1 fileExtension)%string in
        (data <- buffer_toString base64 (buffer file) ;;
         Ok (Some (image_item ("data:" ++ mimetype ++ ";base64," ++ data)%string)))%result
      else
        (detectedMimeType <- call_isImageByContent Scope.of_processFile (buffer file) ;;
         match detectedMimeType with
         | Some mime =>
             data <- buffer_toString base64 (buffer file) ;;
             Ok (Some (image_item ("data:" ++ mime ++ ";base64," ++ data)%string))
         | None =>
             if String.eqb fileExtension ".py" then
               body <- buffer_toString utf8 (buffer file) ;;
               Ok (Some (text_item
                 ("Python Code File (" ++ shown ++ "):" ++ newline2 ++ body)%string
                 (Some true)))
             else if String.eqb fileExtension ".csv" then
               body <- buffer_toString utf8 (buffer file) ;;
               Ok (Some (text_item
                 ("CSV Data File (" ++ shown ++ "):" ++ newline2 ++ body)%string
                 (Some true)))
             else if JS.includes text_extensions fileExtension then
               body <- buffer_toString utf8 (buffer file) ;;
               Ok (Some (text_item
                 (JS.substring1 (JS.toUpperCase fileExtension) ++ " File ("
                    ++ shown ++ "):" ++ newline2 ++ body)%string
                 (Some true)))
             else
               Ok (Some (text_item
                 ("Unsupported File Type (" ++ fileExtension ++ ") - " ++ shown
                    ++ ":" ++ newline2
                    ++ "[File content could not be processed. Please convert to a supported format.]")%string
                 (Some true)))
         end)%result
  end.

(* ---------------------------------------------------------------- *)
(** ** Transcript compactor (lines 208-222) *)

Definition is_not_image (sub : ContentItem) : bool :=
  negb (String.eqb (item_type sub) "input_image").

(** [content.filter(...)[0]?.text || content] on an array [content]. *)
Definition display_content (items : list ContentItem) : Content :=
  match filter is_not_image items with
  | first :: _ =>
      match item_text first with
      | Some t => if JS.truthy t then Str t else Arr items
      | None => Arr items
      end
  | [] => Arr items
  end.

(** The callback of [messages.map] in [processChatHistory]. *)
Definition compact_message (message : Message) : Result Message :=
  if has_type "reasoning" (msg_type message) then
    Ok {| msg_type := msg_type message; role := role message;
          content := content message; noShow := Some true |}
  else
    match content message with
    | Some (Str s) =>
        Ok {| msg_type := msg_type message; role := role message;
              content := Some (Str s); noShow := noShow message |}
    | Some (Arr items) =>
        Ok {| msg_type := msg_type message; role := role message;
              content := Some (display_content items);
              noShow := noShow message |}
    | None =>
        Throw (TypeError "Cannot read properties of undefined (reading 'filter')")
    end.

Definition processChatHistory (messages : list Message)
    : Result (list Message) :=
  mapR compact_message messages.

(* ---------------------------------------------------------------- *)
(** ** Message assembler (lines 251-306 of [promptTutor]) *)

(** The loop over [files]: every non-null result is pushed, in order. *)
Fixpoint process_files (files : list (option File))
    : Result (list ContentItem) :=
  match files with
  | [] => Ok []
  | file :: rest =>
      (processedFile <- processFile file ;;
       pushed <- process_files rest ;;
       Ok match processedFile with
          | Some item => item :: pushed
          | None => pushed
          end)%result
  end.

(** The block pushed for [newMessage], when it is truthy. *)
Definition new_text_items (newMessage : option string) : list ContentItem :=
  match newMessage with
  | Some text => if JS.truthy text then [text_item text None] else []
  | None => []
  end.

Definition user_message (messageContent : list ContentItem) : Message :=
  {| msg_type := None; role := Some "user";
     content := Some (Arr messageContent); noShow := None |}.

(** [userMessage], lines 260-283. *)
Definition build_userMessage (newMessage : option string)
    (files : list (option File)) : Result Message :=
  (attached <- process_files files ;;
   Ok (user_message (attached ++ new_text_items newMessage)))%result.

(** [messages[messages.length - 1]]. *)
Definition last_message (messages : list Message) : option Message :=
  nth_error messages (List.length messages - 1).

Definition is_input_text (sub : ContentItem) : bool :=
  String.eqb (item_type sub) "input_text".

(** [lastUserText], lines 287-295; [None] is [null]. *)
Definition lastUserText (messages : list Message) : option string :=
  match last_message messages with
  | Some lastMessage =>
      if has_type "user" (role lastMessage) then
        Some match content lastMessage with
             | Some (Arr items) =>
                 JS.or_empty
                   (match find is_input_text items with
                    | Some sub => item_text sub
                    | None => None
                    end)
             | Some (Str s) => s
             | None => ""
             end
      else None
  | None => None
  end.

(** [typeof newMessage === "string" ? newMessage : ""]. *)
Definition newMessageText (newMessage : option string) : string :=
  JS.or_empty newMessage.

(** The condition under which [userMessage] is not pushed, lines 298-304. *)
Definition already_present (messages : list Message)
    (newMessage : option string) : bool :=
  match lastUserText messages with
  | Some last =>
      JS.truthy last && JS.truthy (newMessageText newMessage)
      && String.eqb (JS.trim last) (JS.trim (newMessageText newMessage))
  | None => false
  end.

(** The array [messages] as it stands after line 306. *)
Definition assemble (chatHistory : list Message) (newMessage : option string)
    (files : list (option File)) : Result (list Message) :=
  (userMessage <- build_userMessage newMessage files ;;
   Ok (if already_present chatHistory newMessage
       then chatHistory
       else chatHistory ++ [userMessage]))%result.

(* ---------------------------------------------------------------- *)
(** ** Image detection over the turn (lines 309-324) *)

(** The callback of [files.some]. *)
Definition file_is_image (f : option File) : Result bool :=
  match f with
  | None =>
      Throw (TypeError "Cannot read properties of null (reading 'originalname')")
  | Some f =>
      let ext := file_extension f in
      if JS.includes image_extensions ext then Ok true
      else
        (detected <- call_isImageByContent Scope.of_some_callback (buffer f) ;;
         Ok (negb (Path.isNone detected)))%result
  end.

Definition hasImages (files : list (option File)) (messages : list Message)
    : Result bool :=
  (among_files <- someR file_is_image files ;;
   Ok (among_files || hasImagesInMessages messages))%result.

(* ---------------------------------------------------------------- *)
(** ** Outbound stripping (lines 346-360) *)

Definition strip_item (item : ContentItem) : ContentItem :=
  {| item_type := item_type item; item_text := item_text item;
     item_image_url := item_image_url item; item_noShow := None |}.

Definition strip_message (m : Message) : Message :=
  {| msg_type := msg_type m; role := role m;
     content := match content m with
                | Some (Arr items) => Some (Arr (map strip_item items))
                | Some (Str s) => Some (Str s)
                | None => None
                end;
     noShow := None |}.

(* ---------------------------------------------------------------- *)
(** ** The provider call and the streaming loop (lines 326-417) *)

Variable graderInstructions freeResponseInstructions successInstructions : string.

(** The provider: what [client.responses.create] answers to a request. *)
Variable provider : Request -> Result Response.

Definition client_responses_create (request : Request) : M Response :=
  fun w =>
    (provider request, {| res := res w; calls := calls w ++ [request] |}).

Definition select_instructions (cellType : option string) : string :=
  if has_type "grader" cellType then graderInstructions
  else if has_type "free_response" cellType then freeResponseInstructions
  else successInstructions.

(** The three accumulators of the loop. *)
Record Loop := {
  fullOutput : list Message;
  currentMessage : string;
  currentReasoning : string
}.

Definition loop0 : Loop :=
  {| fullOutput := []; currentMessage := ""; currentReasoning := "" |}.

Definition assistant_message (text : string) : Message :=
  {| msg_type := Some "message"; role := Some "assistant";
     content := Some (Str text); noShow := None |}.

Definition reasoning_message (text : string) : Message :=
  {| msg_type := Some "reasoning"; role := None;
     content := Some (Str text); noShow := None |}.

(** [for await (const event of response)], lines 371-417. *)
Fixpoint stream_loop (events : list Event) (st : Loop) : M Loop :=
  match events with
  | [] => ret st
  | event :: rest =>
      if String.eqb (ev_type event) "response.output_text.delta" then
        let delta := JS.or_empty (ev_delta event) in
        (res_write (MessageDelta delta) ;;;
         stream_loop rest
           {| fullOutput := fullOutput st;
              currentMessage := (currentMessage st ++ delta)%string;
              currentReasoning := currentReasoning st |})%M
      else if String.eqb (ev_type event) "response.output_text.done" then
        stream_loop rest
          (if JS.truthy (currentMessage st)
           then {| fullOutput :=
                     fullOutput st ++ [assistant_message (currentMessage st)];
                   currentMessage := currentMessage st;
                   currentReasoning := currentReasoning st |}
           else st)
      else if String.eqb (ev_type event) "response.reasoning.delta" then
        stream_loop rest st
      else if String.eqb (ev_type event) "response.reasoning.done" then
        stream_loop rest
          (if JS.truthy (currentReasoning st)
           then {| fullOutput :=
                     fullOutput st ++ [reasoning_message (currentReasoning st)];
                   currentMessage := currentMessage st;
                   currentReasoning := currentReasoning st |}
           else st)
      else if String.eqb (ev_type event) "response.done" then
        ret st
      else
        stream_loop rest st
  end.

(* ---------------------------------------------------------------- *)
(** ** [promptTutor] (lines 242-477) *)

Definition streaming_headers : M unit :=
  (res_setHeader "Content-Type" "text/plain" ;;;
   res_setHeader "Transfer-Encoding" "chunked" ;;;
   res_setHeader "Cache-Control" "no-cache" ;;;
   res_setHeader "Connection" "keep-alive")%M.

Definition make_request (messages : list Message) (cellType : option string)
    (stream : bool) : Request :=
  {| req_model := "gpt-5-mini";
     req_input := map strip_message messages;
     req_instructions := select_instructions cellType;
     req_stream := stream |}.

Definition final_response (output messages : list Message)
    : Result FinalResponse :=
  (history <- processChatHistory messages ;;
   Ok {| response := output; newChatHistory := history;
         promptSuggestions := [] |})%result.

(** Lines 365-458: what is done with the provider's answer. *)
Definition handle_response (messages : list Message) (streaming : bool)
    (given : bool) (response : Response) : M FinalResponse :=
  (if streaming && given then
     match response with
     | StreamResponse events =>
         st <~ stream_loop events loop0 ;;
         finalResponse <~
           lift (final_response (fullOutput st) (messages ++ fullOutput st)) ;;
         res_write (FinalChunk finalResponse) ;;;
         res_write DoneChunk ;;;
         res_end ;;;
         ret finalResponse
     | SyncResponse _ => throw (TypeError "response is not async iterable")
     end
   else
     match response with
     | SyncResponse output =>
         finalResponse <~ lift (final_response output (messages ++ output)) ;;
         (if given then res_json finalResponse else ret tt) ;;;
         ret finalResponse
     | StreamResponse _ =>
         throw (TypeError "response.output is not iterable")
     end)%M.

(** The [try] block. *)
Definition promptTutor_try (chatHistory : list Message)
    (newMessage : option string) (files : list (option File))
    (cellType : option string) (stream : bool) : M FinalResponse :=
  (messages <~ lift (assemble chatHistory newMessage files) ;;
   _hasImages <~ lift (hasImages files messages) ;;
   given <~ res_given ;;
   (if stream && given then streaming_headers else ret tt) ;;;
   response <~ client_responses_create (make_request messages cellType stream) ;;
   handle_response messages stream given response)%M.

(** The [catch] block: an error frame when streaming and nothing was sent
    yet, then the exception is thrown again. *)
Definition promptTutor_catch (stream : bool) (error : JsError)
    : M FinalResponse :=
  fun w =>
    match res w with
    | Some r =>
        if stream && negb (headersSent r) then
          (res_write (ErrorChunk (error_message error)) ;;;
           res_write DoneChunk ;;;
           res_end ;;;
           throw error)%M w
        else (Throw error, w)
    | None => (Throw error, w)
    end.

Definition promptTutor (chatHistory : list Message)
    (newMessage : option string) (files : list (option File))
    (cellType : option string) (stream : bool) : M FinalResponse :=
  fun w =>
    match promptTutor_try chatHistory newMessage files cellType stream w with
    | (Ok finalResponse, w') => (Ok finalResponse, w')
    | (Throw error, w') => promptTutor_catch stream error w'
    end.

End Pipeline.

(* ------------------------------------------------------------------ *)
(** ** Reading of the specification

    The conditions the specification words, as predicates over the data
    model, to state the properties and to compare with the code. *)

(** [items] has a first text block, and [t] is its [text] field. *)
Definition first_text (items : list ContentItem) (t : option string) : Prop :=
  exists before block after,
    items = before ++ block :: after
    /\ Forall (fun x => item_type x <> "input_text") before
    /\ item_type block = "input_text"
    /\ item_text block = t.

Definition no_text_block (items : list ContentItem) : Prop :=
  Forall (fun x => item_type x <> "input_text") items.

(** [block] is the first block of [items] that is no image block: every
    block before it has the type [input_image]. *)
Definition first_kept (items : list ContentItem) (block : ContentItem) : Prop :=
  exists before after,
    items = before ++ block :: after
    /\ Forall (fun x => item_type x = "input_image") before
    /\ item_type block <> "input_image".

Definition only_images (items : list ContentItem) : Prop :=
  Forall (fun x => item_type x = "input_image") items.

(** The two variants of a content block in the data model. *)
Definition is_block (x : ContentItem) : Prop :=
  item_type x = "input_text" \/ item_type x = "input_image".





(** The compaction rule as the specification words it: the first text
    block's text when a text block exists, the content unchanged otherwise. *)
Definition spec_display_content (items : list ContentItem) : Content :=
  match find is_input_text items with
  | Some block => Str (JS.or_empty (item_text block))
  | None => Arr items
  end.

(** The image predicate as the specification words it: some message's
    content is a sequence containing an [input_image] block. *)
Definition spec_hasImagesInMessages (messages : list Message) : bool :=
  existsb
    (fun message =>
       match content message with
       | Some (Arr items) =>
           existsb (fun item => String.eqb (item_type item) "input_image") items
       | _ => false
       end)
    messages.

(** An image by extension or by magic bytes. *)
Definition is_image_file (f : File) : bool :=
  JS.includes image_extensions (file_extension f)
  || negb (Path.isNone (isImageByContent (buffer f))).

(** The type tag the classifier owes each entry of the file list. *)
Definition expected_tags (file : option File) : list string :=
  match file with
  | None => []
  | Some f => [if is_image_file f then "input_image" else "input_text"]
  end.

(** An extension the classifier has no rule for. *)
Definition unsupported_extension (ext : string) : Prop :=
  JS.includes image_extensions ext = false
  /\ ext <> ".py" /\ ext <> ".csv"
  /\ JS.includes text_extensions ext = false.

(** The placeholder returned for an unsupported file. *)
Definition placeholder (f : File) : ContentItem :=
  text_item
    ("Unsupported File Type (" ++ file_extension f ++ ") - "
       ++ JS.display (JS.or_else (originalname f) (name f)) ++ ":" ++ newline2
       ++ "[File content could not be processed. Please convert to a supported format.]")%string
    (Some true).

(** An entry of the file list as the interface describes it: [null], or a
    file object that carries its bytes. *)
Definition carries_buffer (file : option File) : Prop :=
  match file with
  | None => True
  | Some f => buffer f <> None
  end.

(** No [noShow] field on the message nor on any of its content items. *)
Definition flag_free (m : Message) : Prop :=
  noShow m = None
  /\ match content m with
     | Some (Arr items) => Forall (fun item => item_noShow item = None) items
     | _ => True
     end.

(** Two content items that agree on every field but [noShow]. *)
Definition same_item_but_flag (a b : ContentItem) : Prop :=
  item_type a = item_type b
  /\ item_text a = item_text b
  /\ item_image_url a = item_image_url b.

(** Two messages that agree on everything but the [noShow] fields, of the
    message and of its content items: same type, same role, same content
    shape, and the items pairwise the same but for the flag. *)
Definition same_but_flags (m m' : Message) : Prop :=
  msg_type m = msg_type m'
  /\ role m = role m'
  /\ match content m, content m' with
     | None, None => True
     | Some (Str s), Some (Str s') => s = s'
     | Some (Arr items), Some (Arr items') =>
         Forall2 same_item_but_flag items items'
     | _, _ => False
     end.

(** A message the compactor can process: it reads [content.filter] on every
    message that is not a reasoning item and whose content is no string. *)
Definition compactable (m : Message) : Prop :=
  has_type "reasoning" (msg_type m) = true \/ content m <> None.

(** A computation that makes no provider call. *)
Definition keeps_calls {A} (c : M A) : Prop :=
  forall w, calls (snd (c w)) = calls w.


(* ------------------------------------------------------------------ *)
(** ** Concrete collaborators and inputs for the examples *)

Module Sample.

Definition alphabet : string :=
  "ABCDEFGHIJKLMNOPQRSTUVWXYZabcdefghijklmnopqrstuvwxyz0123456789+/".

Definition digit (n : nat) : ascii :=
  match String.get n alphabet with
  | Some c => c
  | None => "="%char
  end.

Definition code (b : byte) : nat := nat_of_ascii (ascii_of_byte b).

(** Base64 with padding. *)
Fixpoint base64 (bytes : list byte) : string :=
  match bytes with
  | [] => ""
  | [a] =>
      String (digit (code a / 4))
        (String (digit (code a mod 4 * 16)) "==")
  | [a; b] =>
      String (digit (code a / 4))
        (String (digit (code a mod 4 * 16 + code b / 16))
           (String (digit (code b mod 16 * 4)) "="))
  | a :: b :: c :: rest =>
      String (digit (code a / 4))
        (String (digit (code a mod 4 * 16 + code b / 16))
           (String (digit (code b mod 16 * 4 + code c / 64))
              (String (digit (code c mod 64)) (base64 rest))))
  end.

(** One character per byte: UTF-8 decoding of ASCII input. *)
Definition utf8 (bytes : list byte) : string := string_of_list_byte bytes.

Definition upload (filename : string) (bytes : list byte) : option File :=
  Some {| originalname := Some filename; name := None;
          buffer := Some bytes |}.

Definition png_signature : list byte := [x89; x50; x4e; x47; x0d; x0a; x1a; x0a].

Definition a_png : option File := upload "a.png" png_signature.
Definition b_csv : option File := upload "b.csv" [x78; x2c; x79].
Definition x_exe : option File := upload "x.exe" png_signature.
Definition tool_exe : option File := upload "tool.exe" [x4d; x5a; x90; x00].

Definition event (type : string) (delta : option string) : Event :=
  {| ev_type := type; ev_delta := delta |}.

(** [delta "A", text.done, delta "B", text.done, response.done]. *)
Definition two_messages : list Event :=
  [ event "response.output_text.delta" (Some "A");
    event "response.output_text.done" None;
    event "response.output_text.delta" (Some "B");
    event "response.output_text.done" None;
    event "response.done" None ].

Definition answer : Message :=
  {| msg_type := Some "message"; role := Some "assistant";
     content := Some (Arr [ {| item_type := "output_text";
                               item_text := Some "4";
                               item_image_url := None;
                               item_noShow := None |} ]);
     noShow := None |}.

(** A provider that streams [two_messages] when asked to stream and
    answers with one message otherwise. *)
Definition provider (request : Request) : Result Response :=
  if req_stream request then Ok (StreamResponse two_messages)
  else Ok (SyncResponse [answer]).

Definition fresh_res : Res := {| headers := []; chunks := []; ended := false |}.

Definition world : World := {| res := Some fresh_res; calls := [] |}.

Definition user_text (text : string) : Message :=
  {| msg_type := None; role := Some "user"; content := Some (Str text);
     noShow := None |}.

Definition run := promptTutor base64 utf8 "grader" "free" "success" provider.

End Sample.

(* ------------------------------------------------------------------ *)
(** ** The streaming loop and the response, read as a whole *)

(** The deltas the loop receives before it leaves at [response.done]. *)
Fixpoint streamed_deltas (events : list Event) : list string :=
  match events with
  | [] => []
  | event :: rest =>
      if String.eqb (ev_type event) "response.done" then []
      else if String.eqb (ev_type event) "response.output_text.delta"
           then JS.or_empty (ev_delta event) :: streamed_deltas rest
           else streamed_deltas rest
  end.

(** All the texts of a list, one after the other. *)
Definition joined (texts : list string) : string :=
  fold_right String.append "" texts.

(** [t] is a prefix of [s]. *)
Definition is_prefix (t s : string) : Prop :=
  exists rest, s = (t ++ rest)%string.

(** [r] after the chunks [cs] were written. *)
Definition written (r : Res) (cs : list Chunk) : Res :=
  {| headers := headers r; chunks := chunks r ++ cs; ended := ended r |}.

(** The four headers of a streamed answer. *)
Definition stream_headers : list (string * string) :=
  [ ("Content-Type", "text/plain"); ("Transfer-Encoding", "chunked");
    ("Cache-Control", "no-cache"); ("Connection", "keep-alive") ].

(** [r] once the streaming headers are set. *)
Definition with_stream_headers (r : Res) : Res :=
  {| headers := headers r ++ stream_headers; chunks := chunks r;
     ended := ended r |}.

(** An entry of the file list that is [null] or an image with its bytes. *)
Definition image_upload (file : option File) : Prop :=
  match file with
  | None => True
  | Some f => buffer f <> None /\ is_image_file f = true
  end.

(** The user message as the compactor returns it when it shows [text]. *)
Definition shown_user_message (text : string) : Message :=
  {| msg_type := None; role := Some "user"; content := Some (Str text);
     noShow := None |}.

(** The file names an upload may carry: [originalname || name || ""]. *)
Definition file_name (f : File) : string :=
  JS.or_empty (JS.or_else (originalname f) (name f)).

(* ------------------------------------------------------------------ *)
(** ** The interaction store (second part of the client sources)

    The schema validator, the store wrapper, the pseudonymous identifier and
    [logResponse].  The database container, the HMAC primitive, the clock,
    the environment and the constant [MODEL_CHOICE] are parameters. *)

Module Cosmos.

(** A JavaScript value as far as the store inspects it.  Numbers are the
    integers that occur here (timestamps). *)
#[local] Set Warnings "-register-all".
Inductive Value : Type :=
| VUndefined
| VNull
| VBool (b : bool)
| VNumber (n : Z)
| VString (s : string)
| VArray (items : list Value)
| VObject (fields : list (string * Value)).

Definition typeof (v : Value) : string :=
  match v with
  | VUndefined => "undefined"
  | VNull => "object"
  | VBool _ => "boolean"
  | VNumber _ => "number"
  | VString _ => "string"
  | VArray _ => "object"
  | VObject _ => "object"
  end.

(** [value === null ? "null" : Array.isArray(value) ? "array" : typeof value]. *)
Definition jsType (v : Value) : string :=
  match v with
  | VNull => "null"
  | VArray _ => "array"
  | _ => typeof v
  end.

(** Truthiness of a value. *)
Definition truthy (v : Value) : bool :=
  match v with
  | VUndefined => false
  | VNull => false
  | VBool b => b
  | VNumber n => negb (Z.eqb n 0)
  | VString s => JS.truthy s
  | VArray _ => true
  | VObject _ => true
  end.

Definition is_undefined (v : Value) : bool :=
  match v with
  | VUndefined => true
  | _ => false
  end.

(** An object: its own properties, in insertion order. *)
Definition Object := list (string * Value).

(** [data[field]]. *)
Fixpoint get (data : Object) (field : string) : Value :=
  match data with
  | [] => VUndefined
  | (key, value) :: rest => if String.eqb key field then value else get rest field
  end.

(** The [type] of a schema rule: one type name or an array of them. *)
Inductive TypeRule : Type :=
| OneType (name : string)
| AnyOf (names : list string).

Record Rules := {
  rule_type : TypeRule;
  itemType : option string;
  required : bool
}.

(** A schema: [Object.entries] of the schema object. *)
Definition Schema := list (string * Rules).

Definition JUPYTUTOR_INTERACTION_SCHEMA : Schema :=
  [ ("id", {| rule_type := OneType "string"; itemType := None; required := true |});
    ("model_used", {| rule_type := OneType "string"; itemType := None; required := true |});
    ("course_id", {| rule_type := OneType "string"; itemType := None; required := true |});
    ("assignment_id", {| rule_type := OneType "string"; itemType := None; required := true |});
    ("context_without_textbook",
       {| rule_type := AnyOf ["string"; "array"]; itemType := Some "object";
          required := true |});
    ("student_request", {| rule_type := OneType "string"; itemType := None; required := true |});
    ("response_with_textbook",
       {| rule_type := AnyOf ["string"; "null"]; itemType := None; required := false |});
    ("response_without_textbook",
       {| rule_type := AnyOf ["string"; "null"]; itemType := None; required := false |});
    ("timestamp", {| rule_type := OneType "number"; itemType := None; required := true |});
    ("student_id", {| rule_type := OneType "string"; itemType := None; required := true |}) ].

(** [JUPYTUTOR_INTERACTION_KEYS.pk]. *)
Definition partition_key : string := "student_id".

(** What the store code throws or is rejected with. *)
Inductive Failure : Type :=
| SchemaFailure (message : string) (details : list string)
| PlainFailure (message : string)
| TypeFailure (message : string)
| ContainerFailure (message : string).

Inductive Attempt (A : Type) : Type :=
| Done (a : A)
| Failed (e : Failure).
Arguments Done {A} a.
Arguments Failed {A} e.

(** A number inside a template literal: an array index, a timestamp. *)
Definition decimal (n : nat) : string := NilEmpty.string_of_uint (Nat.to_uint n).
Definition decimal_N (n : N) : string := NilEmpty.string_of_uint (N.to_uint n).

(** [Array.isArray(rules.type) ? rules.type : [rules.type]]. *)
Definition allowedTypes (rules : Rules) : list string :=
  match rule_type rules with
  | OneType name => [name]
  | AnyOf names => names
  end.

Definition missing_message (field : string) : string :=
  ("Missing required field '" ++ field ++ "'")%string.

Definition type_message (field jsType : string) (allowed : list string) : string :=
  ("Field '" ++ field ++ "' has type '" ++ jsType ++ "', expected one of "
     ++ String.concat ", " allowed)%string.

Definition item_message (field : string) (idx : nat) (found expected : string)
    : string :=
  ("Field '" ++ field ++ "'[" ++ decimal idx ++ "] has type '" ++ found
     ++ "', expected '" ++ expected ++ "'")%string.

(** The loop over [value.entries()], from index [idx] on. *)
Fixpoint item_errors (field expected : string) (idx : nat) (items : list Value)
    : list string :=
  match items with
  | [] => []
  | item :: rest =>
      (if String.eqb (typeof item) expected then []
       else [item_message field idx (typeof item) expected])
        ++ item_errors field expected (S idx) rest
  end.

(** The errors one schema entry adds. *)
Definition field_errors (allowPartial : bool) (data : Object)
    (entry : string * Rules) : list string :=
  let (field, rules) := entry in
  let value := get data field in
  if is_undefined value then
    if required rules && negb allowPartial then [missing_message field] else []
  else
    (if JS.includes (allowedTypes rules) (jsType value) then []
     else [type_message field (jsType value) (allowedTypes rules)])
      ++ match value, itemType rules with
         | VArray items, Some expected =>
             if JS.truthy expected then item_errors field expected 0 items else []
         | _, _ => []
         end.

Definition validation_errors (schema : Schema) (data : Object)
    (allowPartial : bool) : list string :=
  flat_map (field_errors allowPartial data) schema.

Definition validateAgainstSchema (schema : Schema) (data : Object)
    (allowPartial : bool) : Attempt unit :=
  match validation_errors schema data allowPartial with
  | [] => Done tt
  | errors =>
      Failed (SchemaFailure
                ("Schema validation failed: " ++ String.concat "; " errors)%string
                errors)
  end.

(** The requests the store sent to its container: item and partition key. *)
Definition Requests := list (Object * Value).

Section Store.

(** The store's schema and partition key (constructor arguments). *)
Variable schema : Schema.
Variable pk : string.

(** [container.items.upsert]: the resource stored, or a rejection. *)
Variable container_upsert : Object -> Value -> Attempt Value.

(** [JupytutorInteractionStore.upsert]. *)
Definition upsert (interaction : Object) (sent : Requests)
    : Attempt Value * Requests :=
  if negb (truthy (get interaction pk)) then
    (Failed (PlainFailure
               ("Partition key field '" ++ pk ++ "' must be present on interaction")%string),
     sent)
  else
    match validateAgainstSchema schema interaction false with
    | Failed e => (Failed e, sent)
    | Done _ =>
        (container_upsert interaction (get interaction pk),
         sent ++ [(interaction, get interaction pk)])
    end.

End Store.

Section Logging.

(** [crypto.createHmac("sha256", key).update(text).digest("hex")]. *)
Variable hmac_sha256_hex : string -> string -> string.

(** [process.env.HMAC_KEY], [MODEL_CHOICE] and [Date.now()]. *)
Variable HMAC : option string.
Variable MODEL_CHOICE : string.
Variable now : N.

Variable container_upsert : Object -> Value -> Attempt Value.

Definition generatePseudoID (rawIdentifier : string) (secretKey : option string)
    : Attempt string :=
  match secretKey with
  | Some key =>
      if JS.truthy key && negb (String.length key <? 32)
      then Done (hmac_sha256_hex key (JS.toLowerCase (JS.trim rawIdentifier)))
      else Failed (PlainFailure "Secret key must be at least 32 characters long.")
  | None => Failed (PlainFailure "Secret key must be at least 32 characters long.")
  end.

(** [messages.slice(0, messages.length - 2)]. *)
Definition context_of (messages : list Value) : list Value :=
  firstn (List.length messages - 2) messages.

(** The record [logResponse] builds. *)
Definition interaction_of (student_id : string) (userMessage response : Value)
    (messages : list Value) : Object :=
  [ ("id", VString ("data8" ++ "" ++ "--" ++ decimal_N now)%string);
    ("student_id", VString student_id);
    ("course_id", VString "data8");
    ("assignment_id", VString "");
    ("timestamp", VNumber (Z.of_N now));
    ("student_request", userMessage);
    ("response_with_textbook", response);
    ("model_used", VString MODEL_CHOICE);
    ("context_without_textbook", VArray (context_of messages)) ].

(** [student_id]: "UNIDENTIFIED" unless a user name was sent. *)
Definition student_id_of (username : option string) : Attempt string :=
  match username with
  | Some user => if JS.truthy user then generatePseudoID user HMAC
                 else Done "UNIDENTIFIED"
  | None => Done "UNIDENTIFIED"
  end.

(** What [logResponse] leaves behind: the requests sent to the container and
    the failures printed by its [catch] handler. *)
Record Logged := {
  requests : Requests;
  upload_failures : list Failure
}.

(** [logResponse]: a failure of the pseudonym is thrown to the caller; a
    failure of the upsert is printed. *)
Definition logResponse (username : option string) (userMessage response : Value)
    (messages : list Value) (before : Logged) : Attempt unit * Logged :=
  match student_id_of username with
  | Failed e => (Failed e, before)
  | Done student_id =>
      let interaction := interaction_of student_id userMessage response messages in
      match upsert JUPYTUTOR_INTERACTION_SCHEMA partition_key container_upsert
              interaction (requests before) with
      | (Done _, sent) =>
          (Done tt, {| requests := sent; upload_failures := upload_failures before |})
      | (Failed e, sent) =>
          (Done tt, {| requests := sent;
                       upload_failures := upload_failures before ++ [e] |})
      end
  end.

End Logging.

(** A schema entry is satisfied by [data]: the field is absent and may be,
    or it is present with an allowed type and, for an array under a rule
    with an item type, items of that type. *)
Definition field_accepts (allowPartial : bool) (data : Object)
    (entry : string * Rules) : Prop :=
  let (field, rules) := entry in
  match get data field with
  | VUndefined => required rules = false \/ allowPartial = true
  | value =>
      In (jsType value) (allowedTypes rules)
      /\ forall items expected,
           value = VArray items -> itemType rules = Some expected ->
           expected <> "" ->
           Forall (fun item => typeof item = expected) items
  end.

(** What the shipped schema accepts of a logged turn: the request is a
    string, the response a string, [null] or absent, and the context holds
    objects only. *)
Definition loggable (userMessage response : Value) (context : list Value)
    : Prop :=
  (exists text, userMessage = VString text)
  /\ (response = VUndefined \/ response = VNull
      \/ exists text, response = VString text)
  /\ Forall (fun item => typeof item = "object") context.

End Cosmos.

(** The first character, if any, is no white space. *)
Definition starts_clean (s : string) : Prop :=
  match s with
  | EmptyString => True
  | String c _ => JS.isWhiteSpace c = false
  end.

(* ------------------------------------------------------------------ *)
(** ** The route [POST /interaction/stream] (routers/student.js)

    The request body is read field by field; [JSON.parse] is a parameter
    that decodes a string into the messages the pipeline reads. *)

Module Router.

(** [req.body.chatHistory] as the route distinguishes it. *)
Inductive HistoryField : Type :=
| HistoryFalsy                          (* absent, null, 0, false *)
| HistoryArray (messages : list Message)
| HistoryString (text : string)
| HistoryOther.                         (* any other truthy value *)

(** What [JSON.parse] makes of a string. *)
Inductive Parsed : Type :=
| ParsedArray (messages : list Message)
| ParsedOther                           (* valid JSON, not an array *)
| ParseFailure.                         (* [JSON.parse] throws *)

Record Body := {
  body_chatHistory : HistoryField;
  body_newMessage : option string;
  body_cellType : option string;
  body_stream : Cosmos.Value;
  body_username : option string
}.

(** What the route itself sends with [res.status(...).json(...)]. *)
Inductive Reply : Type :=
| NoReply
| Reply400 (error : string)
| Reply500 (error : string).

(** The state a request leaves behind. *)
Record Served := {
  reply : Reply;
  world : World;
  logged : Cosmos.Logged
}.

(** [req.body.stream !== false && req.body.stream !== "false"]. *)
Definition enableStreaming (stream : Cosmos.Value) : bool :=
  match stream with
  | Cosmos.VBool false => false
  | Cosmos.VString text => negb (String.eqb text "false")
  | _ => true
  end.

(** A message as a JavaScript object. *)
Definition optional {A} (key : string) (to_value : A -> Cosmos.Value)
    (field : option A) : Cosmos.Object :=
  match field with
  | Some a => [(key, to_value a)]
  | None => []
  end.

Definition item_value (item : ContentItem) : Cosmos.Value :=
  Cosmos.VObject
    ([("type", Cosmos.VString (item_type item))]
       ++ optional "text" Cosmos.VString (item_text item)
       ++ optional "image_url" Cosmos.VString (item_image_url item)
       ++ optional "noShow" Cosmos.VBool (item_noShow item)).

(** [message.content] as a value. *)
Definition content_value (c : option Content) : Cosmos.Value :=
  match c with
  | None => Cosmos.VUndefined
  | Some (Str text) => Cosmos.VString text
  | Some (Arr items) => Cosmos.VArray (map item_value items)
  end.

Definition message_value (m : Message) : Cosmos.Value :=
  Cosmos.VObject
    (optional "type" Cosmos.VString (msg_type m)
       ++ optional "role" Cosmos.VString (role m)
       ++ match content m with
          | None => []
          | Some _ => [("content", content_value (content m))]
          end
       ++ optional "noShow" Cosmos.VBool (noShow m)).

(** [req.body.newMessage] as a value. *)
Definition text_value (text : option string) : Cosmos.Value :=
  match text with
  | Some t => Cosmos.VString t
  | None => Cosmos.VUndefined
  end.

(** [error.message || "Internal server error"] for what the store throws. *)
Definition failure_message (e : Cosmos.Failure) : string :=
  let message :=
    match e with
    | Cosmos.SchemaFailure m _ => m
    | Cosmos.PlainFailure m => m
    | Cosmos.TypeFailure m => m
    | Cosmos.ContainerFailure m => m
    end in
  if JS.truthy message then message else "Internal server error".

Section Route.

Variable JSON_parse : string -> Parsed.

Variable base64 : list byte -> string.
Variable utf8 : list byte -> string.
Variable graderInstructions freeResponseInstructions successInstructions : string.
Variable provider : Request -> Result Response.
Variable hmac_sha256_hex : string -> string -> string.
Variable HMAC : option string.
Variable MODEL_CHOICE : string.
Variable now : N.
Variable container_upsert : Cosmos.Object -> Cosmos.Value -> Cosmos.Attempt Cosmos.Value.

(** Lines 11-37: the history, or the message of the 400 reply. *)
Definition read_chatHistory (field : HistoryField) : string + list Message :=
  match field with
  | HistoryFalsy => inr []
  | HistoryArray messages => inr messages
  | HistoryString text =>
      if JS.truthy text then
        match JSON_parse text with
        | ParsedArray messages => inr messages
        | ParsedOther => inl "Invalid chatHistory format. Expected an array."
        | ParseFailure =>
            inl "Invalid chatHistory format. Expected valid JSON string representing an array."
        end
      else inr []
  | HistoryOther => inl "Invalid chatHistory format. Expected an array or JSON string."
  end.

(** The [catch] block of the route: a 500 reply unless something was sent. *)
Definition route_catch (message : string) (w : World) (l : Cosmos.Logged)
    : Served :=
  {| reply := match res w with
              | Some r => if headersSent r then NoReply else Reply500 message
              | None => Reply500 message
              end;
     world := w;
     logged := l |}.

(** The handler, on a response object [r]. *)
Definition interaction_stream (body : Body)
    (files : option (list (option File))) (r : Res) (l : Cosmos.Logged)
    : Served :=
  let w := {| res := Some r; calls := [] |} in
  match read_chatHistory (body_chatHistory body) with
  | inl error => {| reply := Reply400 error; world := w; logged := l |}
  | inr chatHistory =>
      match promptTutor base64 utf8 graderInstructions freeResponseInstructions
              successInstructions provider chatHistory (body_newMessage body)
              (match files with Some fs => fs | None => [] end)
              (body_cellType body) (enableStreaming (body_stream body)) w with
      | (Throw e, w') => route_catch (error_message e) w' l
      | (Ok result, w') =>
          match response result with
          | [] =>
              route_catch "Cannot read properties of undefined (reading 'content')"
                w' l
          | first :: _ =>
              match Cosmos.logResponse hmac_sha256_hex HMAC MODEL_CHOICE now
                      container_upsert (body_username body)
                      (text_value (body_newMessage body))
                      (content_value (content first))
                      (map message_value (chatHistory ++ response result)) l with
              | (Cosmos.Done _, l') =>
                  {| reply := NoReply; world := w'; logged := l' |}
              | (Cosmos.Failed e, l') => route_catch (failure_message e) w' l'
              end
          end
      end
  end.

End Route.

End Router.

(* ------------------------------------------------------------------ *)
(** ** More concrete collaborators and inputs for the examples *)

Module Fixture.

(** A provider that is out of service. *)
Definition failing_provider (request : Request) : Result Response :=
  Throw (ProviderError "429 Too Many Requests").

Definition run_failing :=
  promptTutor Sample.base64 Sample.utf8 "grader" "free" "success" failing_provider.

(** A user message that lost its content on the way. *)
Definition broken_message : Message :=
  {| msg_type := None; role := Some "user"; content := None; noShow := None |}.

(** A stand-in for the keyed hash: injective in the text for a given key. *)
Definition hmac (key text : string) : string := ("hmac:" ++ text)%string.

Definition long_key : string := "0123456789abcdef0123456789abcdef".

(** A decoder that knows one history: the empty array. *)
Definition parse (text : string) : Router.Parsed :=
  if String.eqb text "[]" then Router.ParsedArray []
  else if String.eqb text "{}" then Router.ParsedOther
  else Router.ParseFailure.

(** A container that stores what it is given. *)
Definition container (item : Cosmos.Object) (key : Cosmos.Value)
    : Cosmos.Attempt Cosmos.Value :=
  Cosmos.Done (Cosmos.VObject item).

Definition nothing_logged : Cosmos.Logged :=
  {| Cosmos.requests := []; Cosmos.upload_failures := [] |}.

Definition body (text : option string) (stream : Cosmos.Value) : Router.Body :=
  {| Router.body_chatHistory := Router.HistoryFalsy;
     Router.body_newMessage := text;
     Router.body_cellType := Some "grader";
     Router.body_stream := stream;
     Router.body_username := None |}.

Definition route (provider : Request -> Result Response) :=
  Router.interaction_stream parse Sample.base64 Sample.utf8 "grader" "free"
    "success" provider hmac (Some long_key) "gpt-5-mini" 1700000000000%N
    container.

Definition log :=
  Cosmos.logResponse hmac (Some long_key) "gpt-5-mini" 1700000000000%N container.

(** An interaction record without its [student_id]. *)
Definition record_without_student : Cosmos.Object :=
  [ ("id", Cosmos.VString "data8--1700000000000");
    ("course_id", Cosmos.VString "data8");
    ("assignment_id", Cosmos.VString "");
    ("timestamp", Cosmos.VNumber 1700000000000%Z);
    ("student_request", Cosmos.VString "What is 2+2?");
    ("response_with_textbook", Cosmos.VString "4");
    ("model_used", Cosmos.VString "gpt-5-mini");
    ("context_without_textbook", Cosmos.VArray []) ].

End Fixture.

(* ------------------------------------------------------------------ *)
(** * Properties *)

(** ** Sanity checks of the primitives *)

Example extname_png : Path.extname "a.png" = ".png".
Proof. reflexivity. Qed.
Example extname_tar_gz : Path.extname "dir.d/archive.tar.gz" = ".gz".
Proof. reflexivity. Qed.
Example extname_dotfile : Path.extname ".bashrc" = "".
Proof. reflexivity. Qed.
Example extname_none : Path.extname "photo" = "".
Proof. reflexivity. Qed.
Example extname_dotdot : Path.extname ".." = "".
Proof. reflexivity. Qed.
Example extname_trailing_dot : Path.extname "a." = ".".
Proof. reflexivity. Qed.
Example extname_trailing_slash : Path.extname "a.txt//" = ".txt".
Proof. reflexivity. Qed.
Example trim_both : JS.trim "  What is 2+2? " = "What is 2+2?".
Proof. reflexivity. Qed.
Example lower_ext : JS.toLowerCase ".PNG" = ".png".
Proof. reflexivity. Qed.
Example base64_Man : Sample.base64 [x4d; x61; x6e] = "TWFu".
Proof. reflexivity. Qed.
Example base64_padding : Sample.base64 [x4d; x61] = "TWE=".
Proof. reflexivity. Qed.

(** The sniffer is bound in the body of [processFile] and nowhere else. *)
Example sniffer_bound_in_processFile :
  Scope.resolve Scope.of_processFile "isImageByContent" = Ok tt.
Proof. reflexivity. Qed.
Example sniffer_unbound_in_promptTutor :
  Scope.resolve Scope.of_some_callback "isImageByContent"
  = Throw (ReferenceError "isImageByContent").
Proof. reflexivity. Qed.

(** The spec's magic-byte example: a file named [photo] starting with the
    PNG signature is an image of type [image/png]. *)
Example photo_is_png :
  processFile Sample.base64 Sample.utf8 (Sample.upload "photo" [x89; x50; x4e; x47])
  = Ok (Some (image_item "data:image/png;base64,iVBORw==")).
Proof. reflexivity. Qed.

(** ** Generic lemmas *)

Lemma truthy_true_iff (s : string) : JS.truthy s = true <-> s <> "".
Proof.
  destruct s; simpl; split; intro H; congruence.
Qed.

Lemma truthy_false_iff (s : string) : JS.truthy s = false <-> s = "".
Proof.
  destruct s; simpl; split; intro H; congruence.
Qed.


Lemma find_no_text (items : list ContentItem) :
  find is_input_text items = None <-> no_text_block items.
Proof.
  unfold no_text_block. induction items as [|x rest IH]; simpl.
  - split; auto.
  - destruct (is_input_text x) eqn:Hx; unfold is_input_text in Hx.
    + split; [discriminate|]. intros H. inversion H; subst.
      apply String.eqb_eq in Hx. contradiction.
    + rewrite IH. apply String.eqb_neq in Hx. split.
      * intros; constructor; auto.
      * intros H; now inversion H.
Qed.




Lemma mapR_fixed {A} (f : A -> Result A) (l l' : list A) :
  (forall a b, f a = Ok b -> f b = Ok b) ->
  mapR f l = Ok l' -> mapR f l' = Ok l'.
Proof.
  intros Hf. revert l'. induction l as [|a rest IH]; simpl; intros l'.
  - intros [= <-]. reflexivity.
  - destruct (f a) as [b|] eqn:Ha; simpl; [|discriminate].
    destruct (mapR f rest) as [bs|] eqn:Hrest; simpl; [|discriminate].
    intros [= <-]. simpl. rewrite (Hf _ _ Ha). simpl.
    rewrite (IH _ eq_refl). reflexivity.
Qed.

Lemma mapR_total {A B} (f : A -> Result B) (l : list A) :
  Forall (fun a => exists b, f a = Ok b) l -> exists bs, mapR f l = Ok bs.
Proof.
  induction 1 as [|a rest [b Hb] _ [bs Hbs]]; simpl.
  - eauto.
  - rewrite Hb; simpl. rewrite Hbs; simpl. eauto.
Qed.

Lemma mapR_nth {A B} (f : A -> Result B) (l : list A) (bs : list B) :
  mapR f l = Ok bs ->
  forall i a, nth_error l i = Some a ->
  exists b, nth_error bs i = Some b /\ f a = Ok b.
Proof.
  revert bs. induction l as [|x rest IH]; simpl; intros bs.
  - intros _ [|i] a; discriminate.
  - destruct (f x) as [y|] eqn:Hx; simpl; [|discriminate].
    destruct (mapR f rest) as [ys|] eqn:Hrest; simpl; [|discriminate].
    intros [= <-] [|i] a; simpl.
    + intros [= <-]. eauto.
    + intros Hi. exact (IH _ eq_refl _ _ Hi).
Qed.


(** ** The classifier, case by case *)

Section Properties.

Variable base64 : list byte -> string.
Variable utf8 : list byte -> string.

Lemma call_in_processFile (bytes : option (list byte)) :
  call_isImageByContent Scope.of_processFile bytes = Ok (isImageByContent bytes).
Proof. reflexivity. Qed.

Lemma call_in_promptTutor (bytes : option (list byte)) :
  call_isImageByContent Scope.of_some_callback bytes
  = Throw (ReferenceError "isImageByContent").
Proof. reflexivity. Qed.

Lemma processFile_by_extension (f : File) (bytes : list byte) :
  buffer f = Some bytes ->
  JS.includes image_extensions (file_extension f) = true ->
  processFile base64 utf8 (Some f)
  = Ok (Some (image_item
               ("data:image/" ++ JS.substring1 (file_extension f) ++ ";base64,"
                  ++ base64 bytes)%string)).
Proof.
  intros Hbuf Hext. unfold processFile. rewrite Hext, Hbuf. reflexivity.
Qed.

Lemma processFile_by_content (f : File) (bytes : list byte) (mime : string) :
  buffer f = Some bytes ->
  JS.includes image_extensions (file_extension f) = false ->
  isImageByContent (Some bytes) = Some mime ->
  processFile base64 utf8 (Some f)
  = Ok (Some (image_item ("data:" ++ mime ++ ";base64," ++ base64 bytes)%string)).
Proof.
  intros Hbuf Hext Hsniff. unfold processFile.
  rewrite Hext, call_in_processFile, Hbuf, Hsniff. reflexivity.
Qed.

Lemma processFile_text (f : File) (bytes : list byte) :
  buffer f = Some bytes ->
  JS.includes image_extensions (file_extension f) = false ->
  isImageByContent (Some bytes) = None ->
  exists text, processFile base64 utf8 (Some f) = Ok (Some (text_item text (Some true))).
Proof.
  intros Hbuf Hext Hsniff. unfold processFile.
  rewrite Hext, call_in_processFile, Hbuf, Hsniff. cbn [rbind buffer_toString].
  destruct (String.eqb (file_extension f) ".py"); [simpl; eauto|].
  destruct (String.eqb (file_extension f) ".csv"); [simpl; eauto|].
  destruct (JS.includes text_extensions (file_extension f)); simpl; eauto.
Qed.

Lemma processFile_unsupported (f : File) :
  unsupported_extension (file_extension f) ->
  isImageByContent (buffer f) = None ->
  processFile base64 utf8 (Some f) = Ok (Some (placeholder f)).
Proof.
  intros (Himg & Hpy & Hcsv & Htxt) Hsniff. unfold processFile.
  rewrite Himg, call_in_processFile, Hsniff. cbn [rbind].
  apply String.eqb_neq in Hpy, Hcsv. rewrite Hpy, Hcsv, Htxt. reflexivity.
Qed.

(** Every file that carries its bytes is classified into one block, tagged
    as an image exactly when its extension or its first bytes say so, and
    flagged [noShow]. *)
Lemma processFile_block (f : File) :
  buffer f <> None ->
  exists block,
    processFile base64 utf8 (Some f) = Ok (Some block)
    /\ item_type block = (if is_image_file f then "input_image" else "input_text")
    /\ item_noShow block = Some true.
Proof.
  intros Hbuf. destruct (buffer f) as [bytes|] eqn:Eb; [|congruence].
  unfold is_image_file.
  destruct (JS.includes image_extensions (file_extension f)) eqn:Hext.
  - rewrite (processFile_by_extension f bytes Eb Hext). simpl. eauto.
  - rewrite Eb. destruct (isImageByContent (Some bytes)) as [mime|] eqn:Hsniff.
    + rewrite (processFile_by_content f bytes mime Eb Hext Hsniff). simpl. eauto.
    + destruct (processFile_text f bytes Eb Hext Hsniff) as [text ->].
      simpl. eauto.
Qed.

Lemma process_files_blocks (files : list (option File)) :
  Forall carries_buffer files ->
  exists attached,
    process_files base64 utf8 files = Ok attached
    /\ map item_type attached = flat_map expected_tags files
    /\ Forall (fun block => item_noShow block = Some true) attached
    /\ attached
       = flat_map (fun file => match processFile base64 utf8 file with
                               | Ok (Some block) => [block]
                               | _ => []
                               end) files.
Proof.
  induction 1 as [|file rest Hfile _ (attached & Hrest & Htags & Hflags & Heq)].
  - exists []. simpl. auto.
  - destruct file as [f|].
    + destruct (processFile_block f Hfile) as (block & Hb & Htag & Hflag).
      exists (block :: attached). cbn [process_files flat_map expected_tags].
      rewrite Hb, Hrest. simpl. rewrite Htags, Htag, <- Heq. auto.
    + exists attached. cbn [process_files flat_map expected_tags processFile].
      rewrite Hrest. simpl. rewrite <- Heq. auto.
Qed.

(** ** C7: the candidate user message *)

(** C7. For every file list (entries [null] or carrying their bytes) and
    non-empty new text, the candidate user message is a user message whose
    content is the blocks the classifier returns for the files, in file
    order, followed last by an [input_text] block with the new text and no
    [noShow] field; every attachment block has [noShow: true] and the type
    tag its file calls for ([input_image] for an image by extension or magic
    bytes, [input_text] otherwise). *)
Theorem candidate_message_layout (files : list (option File)) (newText : string) :
  newText <> "" ->
  Forall carries_buffer files ->
  exists attached,
    build_userMessage base64 utf8 (Some newText) files
    = Ok {| msg_type := None;
            role := Some "user";
            content :=
              Some (Arr (attached
                         ++ [ {| item_type := "input_text";
                                 item_text := Some newText;
                                 item_image_url := None;
                                 item_noShow := None |} ]));
            noShow := None |}
    /\ attached
       = flat_map (fun file => match processFile base64 utf8 file with
                               | Ok (Some block) => [block]
                               | _ => []
                               end) files
    /\ map item_type attached = flat_map expected_tags files
    /\ Forall (fun block => item_noShow block = Some true) attached.
Proof.
  intros Htext Hfiles.
  destruct (process_files_blocks files Hfiles) as (attached & Hrun & Htags & Hflags & Heq).
  exists attached. unfold build_userMessage. rewrite Hrun. simpl.
  apply truthy_true_iff in Htext. rewrite Htext. repeat split; auto.
Qed.

(** ** C9: totality of the classifier *)

(** C9 (amended). For every input that is [null] or a file carrying its
    bytes, [processFile] throws nothing; [null] yields [null]; a file never
    yields [null]; a file with an unsupported extension yields the
    placeholder text block when its first bytes match no image signature,
    and an image block when they do. *)
Theorem processFile_total (file : option File) :
  carries_buffer file ->
  exists result,
    processFile base64 utf8 file = Ok result
    /\ match file with
       | None => result = None
       | Some f =>
           exists block,
             result = Some block
             /\ (unsupported_extension (file_extension f) ->
                 match isImageByContent (buffer f) with
                 | None => block = placeholder f
                 | Some _ => item_type block = "input_image"
                 end)
       end.
Proof.
  destruct file as [f|]; simpl; intros Hbuf.
  - destruct (processFile_block f Hbuf) as (block & Hrun & Htag & _).
    exists (Some block). split; [exact Hrun|]. exists block. split; [reflexivity|].
    intros Hunsupported.
    destruct (isImageByContent (buffer f)) as [mime|] eqn:Hsniff.
    + unfold is_image_file in Htag. rewrite Hsniff in Htag.
      destruct Hunsupported as (Himg & _). rewrite Himg in Htag. exact Htag.
    + rewrite (processFile_unsupported f Hunsupported Hsniff) in Hrun.
      congruence.
  - exists None. auto.
Qed.

End Properties.

(** ** C5 and C6: the transcript compactor *)

Lemma first_kept_is_first_text (items : list ContentItem) :
  Forall is_block items ->
  hd_error (filter is_not_image items) = find is_input_text items.
Proof.
  induction 1 as [|x rest [Hx|Hx] _ IH]; simpl; auto;
    unfold is_not_image, is_input_text; rewrite Hx; simpl; auto.
Qed.

Lemma display_content_head (items : list ContentItem) :
  display_content items
  = match hd_error (filter is_not_image items) with
    | Some first =>
        if JS.truthy (JS.or_empty (item_text first))
        then Str (JS.or_empty (item_text first)) else Arr items
    | None => Arr items
    end.
Proof.
  unfold display_content. destruct (filter is_not_image items) as [|first rest]; simpl; auto.
  destruct (item_text first) as [t|]; reflexivity.
Qed.

Lemma display_content_cases (items : list ContentItem) :
  (exists t, display_content items = Str t /\ t <> "")
  \/ display_content items = Arr items.
Proof.
  rewrite display_content_head.
  destruct (hd_error (filter is_not_image items)) as [first|]; auto.
  destruct (JS.truthy (JS.or_empty (item_text first))) eqn:Ht; auto.
  left. eexists. split; [reflexivity|]. now apply truthy_true_iff.
Qed.

Lemma compact_message_fixed (m m' : Message) :
  compact_message m = Ok m' -> compact_message m' = Ok m'.
Proof.
  unfold compact_message.
  destruct (has_type "reasoning" (msg_type m)) eqn:Hkind.
  - intros [= <-]. simpl. rewrite Hkind. reflexivity.
  - destruct (content m) as [[s|items]|] eqn:Hc; [| |discriminate].
    + intros [= <-]. simpl. rewrite Hkind. reflexivity.
    + intros [= <-]. simpl. rewrite Hkind.
      destruct (display_content_cases items) as [(t & -> & _)| Hsame].
      * reflexivity.
      * rewrite Hsame, Hsame. reflexivity.
Qed.

Lemma compact_message_total (m : Message) :
  compactable m -> exists m', compact_message m = Ok m'.
Proof.
  unfold compactable, compact_message. intros [Hkind|Hc].
  - rewrite Hkind. eauto.
  - destruct (has_type "reasoning" (msg_type m)); [eauto|].
    destruct (content m) as [[s|items]|]; [eauto|eauto|congruence].
Qed.

(** C6. Compaction is idempotent: on every conversation the compactor can
    process (each message is a reasoning item or has a content), it returns a
    conversation that a second compaction returns unchanged. *)
Theorem compaction_idempotent (c : list Message) :
  Forall compactable c ->
  exists c',
    processChatHistory c = Ok c' /\ processChatHistory c' = Ok c'.
Proof.
  intros Hc. unfold processChatHistory.
  destruct (mapR_total compact_message c) as [c' Hrun].
  - eapply Forall_impl; [|exact Hc]. apply compact_message_total.
  - exists c'. split; [exact Hrun|].
    eapply mapR_fixed; [apply compact_message_fixed|exact Hrun].
Qed.

Lemma first_kept_head (items : list ContentItem) (block : ContentItem) :
  hd_error (filter is_not_image items) = Some block -> first_kept items block.
Proof.
  induction items as [|x rest IH]; simpl; [discriminate|].
  destruct (is_not_image x) eqn:Hx; unfold is_not_image in Hx.
  - simpl. intros [= <-]. exists [], rest. repeat split; auto.
    apply negb_true_iff in Hx. now apply String.eqb_neq.
  - intros H. destruct (IH H) as (before & after & -> & Hbefore & Hblock).
    exists (x :: before), after. repeat split; auto. constructor; auto.
    apply negb_false_iff in Hx. now apply String.eqb_eq.
Qed.

Lemma only_images_head (items : list ContentItem) :
  hd_error (filter is_not_image items) = None -> only_images items.
Proof.
  unfold only_images. induction items as [|x rest IH]; simpl; [constructor|].
  destruct (is_not_image x) eqn:Hx; unfold is_not_image in Hx; [discriminate|].
  intros H. constructor; auto.
  apply negb_false_iff in Hx. now apply String.eqb_eq.
Qed.

(** In a content made of text and image blocks, the first block that is no
    image is the first text block. *)
Lemma first_kept_text_block (items : list ContentItem) (block : ContentItem) :
  Forall is_block items -> first_kept items block ->
  item_type block = "input_text" /\ first_text items (item_text block).
Proof.
  intros Hblocks (before & after & -> & Hbefore & Hblock).
  assert (Htype : item_type block = "input_text").
  { apply Forall_app in Hblocks as [_ Hrest]. inversion Hrest as [|? ? [H|H] _].
    - exact H.
    - contradiction. }
  split; [exact Htype|].
  exists before, block, after. repeat split; auto.
  eapply Forall_impl; [|exact Hbefore]. intros x Hx. rewrite Hx. discriminate.
Qed.

(** C5 (amended). A reasoning item is returned with its content as it was
    and [noShow: true].  For every other message: a plain string content is
    left untouched; a block sequence is rewritten to a single string, the
    text of its first block that is no image block (its first text block),
    whenever that text is present and non-empty -- the image blocks and all
    later blocks are discarded -- and is kept unchanged when every block is
    an image or when that first block's text is empty or missing.  The
    other fields of the message are kept. *)
Theorem compaction_rewrite_rule (m : Message) :
  (has_type "reasoning" (msg_type m) = true ->
   compact_message m
   = Ok {| msg_type := msg_type m; role := role m; content := content m;
           noShow := Some true |})
  /\ (has_type "reasoning" (msg_type m) = false ->
      (forall s, content m = Some (Str s) -> compact_message m = Ok m)
      /\ (forall items,
            content m = Some (Arr items) ->
            exists shown,
              compact_message m
              = Ok {| msg_type := msg_type m; role := role m;
                      content := Some shown; noShow := noShow m |}
              /\ ((exists block t,
                     first_kept items block /\ item_text block = Some t
                     /\ t <> "" /\ shown = Str t)
                  \/ ((only_images items
                       \/ exists block,
                            first_kept items block
                            /\ (item_text block = None
                                \/ item_text block = Some ""))
                      /\ shown = Arr items)))).
Proof.
  split.
  - intros Hkind. unfold compact_message. now rewrite Hkind.
  - intros Hkind. split.
    + intros s Hc. unfold compact_message. rewrite Hkind, Hc.
      destruct m; simpl in *; subst; reflexivity.
    + intros items Hc. unfold compact_message. rewrite Hkind, Hc.
      eexists. split; [reflexivity|].
      rewrite display_content_head.
      destruct (hd_error (filter is_not_image items)) as [block|] eqn:Hhead.
      * pose proof (first_kept_head items block Hhead) as Hfirst.
        destruct (item_text block) as [t|] eqn:Ht; simpl.
        -- destruct (JS.truthy t) eqn:Htruthy.
           ++ left. exists block, t. repeat split; auto.
              now apply truthy_true_iff.
           ++ right. apply truthy_false_iff in Htruthy. subst t.
              split; [|reflexivity]. right. exists block. auto.
        -- right. split; [|reflexivity]. right. exists block. auto.
      * right. split; [|reflexivity]. left. now apply only_images_head.
Qed.

(** ** C1: the streaming loop *)

Lemma res_write_some (c : Chunk) (w : World) (r : Res) :
  res w = Some r ->
  res_write c w
  = (Ok tt, {| res := Some {| headers := headers r; chunks := chunks r ++ [c];
                              ended := ended r |};
               calls := calls w |}).
Proof. intros H. unfold res_write, with_res. rewrite H. reflexivity. Qed.

(** C1 (what the code does). The message buffer is never cleared: when the
    provider sends the deltas [a] and [b], each followed by a text-done
    event, the second materialized message carries [a ++ b], not [b]. *)
Theorem stream_buffer_carries_over (a b : string) (w : World) (r : Res) :
  res w = Some r ->
  a <> "" ->
  fst (stream_loop
         [ Sample.event "response.output_text.delta" (Some a);
           Sample.event "response.output_text.done" None;
           Sample.event "response.output_text.delta" (Some b);
           Sample.event "response.output_text.done" None;
           Sample.event "response.done" None ] loop0 w)
  = Ok {| fullOutput := [assistant_message a; assistant_message (a ++ b)];
          currentMessage := (a ++ b)%string;
          currentReasoning := "" |}.
Proof.
  intros Hres Ha. apply truthy_true_iff in Ha.
  cbn [stream_loop Sample.event ev_type ev_delta String.eqb Ascii.eqb Bool.eqb
       JS.or_empty loop0 fullOutput currentMessage currentReasoning
       String.append].
  unfold bind. rewrite (res_write_some _ w r Hres).
  cbn [stream_loop ev_type ev_delta String.eqb Ascii.eqb Bool.eqb
       fullOutput currentMessage currentReasoning].
  rewrite Ha.
  cbn [stream_loop ev_type ev_delta String.eqb Ascii.eqb Bool.eqb JS.or_empty
       fullOutput currentMessage currentReasoning].
  unfold bind. erewrite res_write_some by reflexivity.
  cbn [stream_loop ev_type ev_delta String.eqb Ascii.eqb Bool.eqb
       fullOutput currentMessage currentReasoning].
  assert (Hab : JS.truthy (a ++ b) = true) by (destruct a; [discriminate|reflexivity]).
  rewrite Hab. reflexivity.
Qed.

(** ** C4 and C10: the duplicate-submit guard *)


Section Assembler.

Variable base64 : list byte -> string.
Variable utf8 : list byte -> string.



Lemma assemble_keeps_history (history : list Message) (newText : option string)
    (files : list (option File)) (messages : list Message) :
  assemble base64 utf8 history newText files = Ok messages ->
  firstn (List.length history) messages = history.
Proof.
  unfold assemble. destruct (build_userMessage base64 utf8 newText files) as [um|];
    simpl; [|discriminate].
  destruct (already_present history newText); intros [= <-].
  - apply firstn_all.
  - rewrite firstn_app, Nat.sub_diag, firstn_all. simpl. apply app_nil_r.
Qed.

End Assembler.

(** ** C2: image detection in messages *)

Lemma hasImagesInMessages_iff (messages : list Message) :
  hasImagesInMessages messages = true
  <-> exists m items item,
        In m messages /\ content m = Some (Arr items)
        /\ In item items /\ item_type item = "image_url".
Proof.
  unfold hasImagesInMessages. rewrite existsb_exists. split.
  - intros (m & Hm & H). destruct (content m) as [[s|items]|] eqn:Hc; try discriminate.
    apply existsb_exists in H as (item & Hitem & Htype).
    apply String.eqb_eq in Htype. exists m, items, item. auto.
  - intros (m & items & item & Hm & Hc & Hitem & Htype).
    exists m. split; [exact Hm|]. rewrite Hc. apply existsb_exists.
    exists item. split; [exact Hitem|]. now apply String.eqb_eq.
Qed.

(** C2 (what the code does). [hasImagesInMessages] looks for the tag
    [image_url], which the classifier never produces: a message whose
    content holds a block the classifier returned -- an [input_image] block
    included -- does not make it true, and with no new file the whole
    image-detection expression is false. *)
Theorem classified_image_not_detected (base64 utf8 : list byte -> string)
    (file : option File) (block : ContentItem) :
  processFile base64 utf8 file = Ok (Some block) ->
  hasImagesInMessages [user_message [block]] = false
  /\ hasImages [] [user_message [block]] = Ok false.
Proof.
  intros Hrun.
  assert (Htag : item_type block = "input_image" \/ item_type block = "input_text").
  { destruct file as [f|]; [|discriminate]. unfold processFile in Hrun.
    destruct (JS.includes image_extensions (file_extension f)).
    - destruct (buffer f); [|discriminate]. injection Hrun as <-. auto.
    - rewrite call_in_processFile in Hrun. cbn [rbind] in Hrun.
      destruct (isImageByContent (buffer f)).
      + destruct (buffer f); [|discriminate]. injection Hrun as <-. auto.
      + destruct (String.eqb (file_extension f) ".py");
          [destruct (buffer f); [|discriminate]; injection Hrun as <-; auto|].
        destruct (String.eqb (file_extension f) ".csv");
          [destruct (buffer f); [|discriminate]; injection Hrun as <-; auto|].
        destruct (JS.includes text_extensions (file_extension f));
          [destruct (buffer f); [|discriminate]; injection Hrun as <-; auto|].
        injection Hrun as <-. auto. }
  assert (Hmiss : hasImagesInMessages [user_message [block]] = false).
  { unfold hasImagesInMessages. simpl. destruct Htag as [-> | ->]; reflexivity. }
  split; [exact Hmiss|]. unfold hasImages. cbn [someR rbind orb]. now rewrite Hmiss.
Qed.

(** ** The effects of a call: what reaches the provider *)

Lemma keeps_ret {A} (a : A) : keeps_calls (ret a).
Proof. intros w. reflexivity. Qed.

Lemma keeps_throw {A} (e : JsError) : keeps_calls (@throw A e).
Proof. intros w. reflexivity. Qed.

Lemma keeps_lift {A} (r : Result A) : keeps_calls (lift r).
Proof. intros w. reflexivity. Qed.

Lemma keeps_bind {A B} (c : M A) (k : A -> M B) :
  keeps_calls c -> (forall a, keeps_calls (k a)) -> keeps_calls (bind c k).
Proof.
  intros Hc Hk w. unfold bind. specialize (Hc w).
  destruct (c w) as [[a|e] w']; simpl in *; [rewrite Hk|]; exact Hc.
Qed.

Lemma keeps_with_res (method : string) (f : Res -> Res) :
  keeps_calls (with_res method f).
Proof. intros w. unfold with_res. destruct (res w); reflexivity. Qed.

Lemma keeps_res_setHeader (key value : string) :
  keeps_calls (res_setHeader key value).
Proof.
  intros w. unfold res_setHeader. destruct (res w) as [r|] eqn:Hr; [|reflexivity].
  destruct (headersSent r); [reflexivity|]. apply keeps_with_res.
Qed.

Lemma keeps_res_json (data : FinalResponse) : keeps_calls (res_json data).
Proof.
  intros w. unfold res_json. destruct (res w) as [r|] eqn:Hr; [|reflexivity].
  destruct (headersSent r); [reflexivity|]. apply keeps_with_res.
Qed.

Lemma keeps_res_given : keeps_calls res_given.
Proof. intros w. reflexivity. Qed.

Create HintDb calls.
#[local] Hint Resolve keeps_ret keeps_throw keeps_lift keeps_res_given
  keeps_res_setHeader : calls.
#[local] Hint Extern 1 (keeps_calls (res_write _)) => apply keeps_with_res : calls.
#[local] Hint Extern 1 (keeps_calls res_end) => apply keeps_with_res : calls.
#[local] Hint Resolve keeps_res_json : calls.
#[local] Hint Extern 2 (keeps_calls (bind _ _)) => apply keeps_bind; [|intros ?] : calls.

Lemma keeps_stream_loop (events : list Event) :
  forall st, keeps_calls (stream_loop events st).
Proof.
  induction events as [|event rest IH]; intros st; cbn [stream_loop].
  - auto with calls.
  - repeat match goal with
           | |- keeps_calls (if ?b then _ else _) => destruct b
           end; auto with calls.
Qed.
#[local] Hint Resolve keeps_stream_loop : calls.

Lemma keeps_streaming_headers : keeps_calls streaming_headers.
Proof. unfold streaming_headers. auto 10 with calls. Qed.
#[local] Hint Resolve keeps_streaming_headers : calls.

Lemma keeps_handle_response (messages : list Message) (streaming given : bool)
    (response : Response) :
  keeps_calls (handle_response messages streaming given response).
Proof.
  unfold handle_response.
  destruct (streaming && given), response, given; auto 12 with calls.
Qed.

Lemma keeps_promptTutor_catch (stream : bool) (error : JsError) :
  keeps_calls (promptTutor_catch stream error).
Proof.
  intros w. unfold promptTutor_catch. destruct (res w) as [r|] eqn:Hr; [|reflexivity].
  destruct (stream && negb (headersSent r)); [|reflexivity].
  assert (H : keeps_calls (res_write (ErrorChunk (error_message error)) ;;;
                           res_write DoneChunk ;;; res_end ;;; @throw FinalResponse error)%M)
    by auto 10 with calls.
  apply H.
Qed.

Lemma promptTutor_catch_throws (stream : bool) (error : JsError) (w : World) :
  fst (promptTutor_catch stream error w) = Throw error.
Proof.
  unfold promptTutor_catch. destruct (res w) as [r|] eqn:Hr; [|reflexivity].
  destruct (stream && negb (headersSent r)); [|reflexivity].
  unfold bind, res_write, res_end, with_res, throw. rewrite Hr. reflexivity.
Qed.

Lemma bind_ok {A B} (c : M A) (k : A -> M B) (w w' : World) (b : B) :
  bind c k w = (Ok b, w') ->
  exists a w1, c w = (Ok a, w1) /\ k a w1 = (Ok b, w').
Proof.
  unfold bind. destruct (c w) as [[a|e] w1]; [eauto|discriminate].
Qed.

Lemma final_response_ok (output messages : list Message) (fr : FinalResponse) :
  final_response output messages = Ok fr ->
  response fr = output /\ processChatHistory messages = Ok (newChatHistory fr).
Proof.
  unfold final_response. destruct (processChatHistory messages) as [history|];
    simpl; [|discriminate].
  intros [= <-]. auto.
Qed.

(** A response handled without exception is the compaction of the retained
    messages followed by the output. *)
Lemma handle_response_ok (messages : list Message) (streaming given : bool)
    (response0 : Response) (w w' : World) (fr : FinalResponse) :
  handle_response messages streaming given response0 w = (Ok fr, w') ->
  processChatHistory (messages ++ response fr) = Ok (newChatHistory fr).
Proof.
  unfold handle_response.
  destruct (streaming && given), response0 as [output|events];
    try (unfold throw; discriminate).
  - intros H. apply bind_ok in H as (st & w1 & _ & H).
    apply bind_ok in H as (fr1 & w2 & Hfinal & H).
    unfold lift in Hfinal. injection Hfinal as Hfinal _.
    apply bind_ok in H as (? & w3 & _ & H).
    apply bind_ok in H as (? & w4 & _ & H).
    apply bind_ok in H as (? & w5 & _ & H).
    unfold ret in H. injection H as <- _.
    apply final_response_ok in Hfinal as [-> Hhist]. exact Hhist.
  - intros H. apply bind_ok in H as (fr1 & w1 & Hfinal & H).
    unfold lift in Hfinal. injection Hfinal as Hfinal _.
    apply bind_ok in H as (? & w2 & _ & H).
    unfold ret in H. injection H as <- _.
    apply final_response_ok in Hfinal as [-> Hhist]. exact Hhist.
Qed.

Section Turn.

Variable base64 : list byte -> string.
Variable utf8 : list byte -> string.
Variable graderInstructions freeResponseInstructions successInstructions : string.
Variable provider : Request -> Result Response.

Local Abbreviation tutor :=
  (promptTutor base64 utf8 graderInstructions freeResponseInstructions
     successInstructions provider).
Local Abbreviation request :=
  (make_request graderInstructions freeResponseInstructions successInstructions).

(** The [try] block, step by step. *)
Lemma promptTutor_try_steps (history : list Message) (newText : option string)
    (files : list (option File)) (cellType : option string) (stream : bool)
    (w : World) :
  promptTutor_try base64 utf8 graderInstructions freeResponseInstructions
    successInstructions provider history newText files cellType stream w
  = match assemble base64 utf8 history newText files with
    | Throw e => (Throw e, w)
    | Ok messages =>
        match hasImages files messages with
        | Throw e => (Throw e, w)
        | Ok _ =>
            let given := negb (Path.isNone (res w)) in
            match (if stream && given then streaming_headers else ret tt) w with
            | (Throw e, w1) => (Throw e, w1)
            | (Ok _, w1) =>
                let sent := {| res := res w1;
                               calls := calls w1 ++ [request messages cellType stream] |} in
                match provider (request messages cellType stream) with
                | Throw e => (Throw e, sent)
                | Ok answer => handle_response messages stream given answer sent
                end
            end
        end
    end.
Proof.
  unfold promptTutor_try, bind at 1, lift.
  destruct (assemble base64 utf8 history newText files) as [messages|e]; [|reflexivity].
  unfold bind at 1. destruct (hasImages files messages) as [b|e]; [|reflexivity].
  unfold bind at 1, res_given. unfold bind at 1.
  destruct ((if stream && negb (Path.isNone (res w)) then streaming_headers else ret tt) w)
    as [[u|e] w1]; [|reflexivity].
  unfold bind, client_responses_create. reflexivity.
Qed.

(** An exception raised while the turn is assembled or while the images are
    looked for goes straight to the [catch] block. *)
Lemma promptTutor_early_throw (history : list Message) (newText : option string)
    (files : list (option File)) (cellType : option string) (stream : bool)
    (w : World) (error : JsError) :
  (assemble base64 utf8 history newText files = Throw error
   \/ exists messages,
        assemble base64 utf8 history newText files = Ok messages
        /\ hasImages files messages = Throw error) ->
  tutor history newText files cellType stream w
  = promptTutor_catch stream error w.
Proof.
  intros H. unfold tutor, promptTutor. rewrite promptTutor_try_steps.
  destruct H as [-> | (messages & -> & ->)]; reflexivity.
Qed.


(** Whatever happens, the provider is called at most once, and then with the
    stripped copy of the assembled messages. *)
Lemma promptTutor_calls (history : list Message) (newText : option string)
    (files : list (option File)) (cellType : option string) (stream : bool)
    (w : World) :
  calls (snd (tutor history newText files cellType stream w)) = calls w
  \/ exists messages,
       assemble base64 utf8 history newText files = Ok messages
       /\ calls (snd (tutor history newText files cellType stream w))
          = calls w ++ [request messages cellType stream].
Proof.
  unfold tutor, promptTutor. rewrite promptTutor_try_steps.
  destruct (assemble base64 utf8 history newText files) as [messages|e] eqn:Hasm;
    [|left; apply keeps_promptTutor_catch].
  destruct (hasImages files messages) as [b|e] eqn:Himg;
    [|left; apply keeps_promptTutor_catch].
  cbv zeta. set (given := negb (Path.isNone (res w))).
  assert (Hhead : keeps_calls (if stream && given then streaming_headers else ret tt))
    by (destruct (stream && given); auto with calls).
  specialize (Hhead w).
  destruct ((if stream && given then streaming_headers else ret tt) w)
    as [[u|e] w1]; simpl in Hhead.
  - right. exists messages. split; [reflexivity|]. rewrite <- Hhead.
    destruct (provider (request messages cellType stream)) as [answer|e].
    + pose proof (keeps_handle_response messages stream given answer
                    {| res := res w1;
                       calls := calls w1 ++ [request messages cellType stream] |})
        as Hkeep.
      destruct (handle_response messages stream given answer _) as [[fr|e] w2];
        simpl in Hkeep; [exact Hkeep|].
      now rewrite keeps_promptTutor_catch.
    + now rewrite keeps_promptTutor_catch.
  - left. now rewrite keeps_promptTutor_catch.
Qed.


(** A call that returns has compacted the retained messages, flags
    included, followed by the output. *)
Lemma promptTutor_returns (history : list Message) (newText : option string)
    (files : list (option File)) (cellType : option string) (stream : bool)
    (w : World) (fr : FinalResponse) :
  fst (tutor history newText files cellType stream w) = Ok fr ->
  exists messages,
    assemble base64 utf8 history newText files = Ok messages
    /\ processChatHistory (messages ++ response fr) = Ok (newChatHistory fr).
Proof.
  unfold tutor, promptTutor.
  destruct (promptTutor_try _ _ _ _ _ _ _ _ _ _ _ w) as [[fr'|e] w'] eqn:Htry;
    [|rewrite promptTutor_catch_throws; discriminate].
  simpl. intros [= ->]. rewrite promptTutor_try_steps in Htry.
  destruct (assemble base64 utf8 history newText files) as [messages|e];
    [|discriminate].
  destruct (hasImages files messages) as [found|e]; [|discriminate].
  cbv zeta in Htry.
  destruct ((if stream && _ then streaming_headers else ret tt) w)
    as [[u|e] w1]; [|discriminate].
  destruct (provider (request messages cellType stream)) as [answer|e];
    [|discriminate].
  exists messages. split; [reflexivity|].
  exact (handle_response_ok _ _ _ _ _ _ _ Htry).
Qed.

(** ** C3: the sniffer is out of scope in [promptTutor] *)

(** C3 (amended). For every call whose first file has an extension outside
    the image set, and whose files all classify, computing [hasImages] reads
    [isImageByContent] outside [processFile], where it is bound: the call
    runs the [catch] block on the untouched world and throws a
    [ReferenceError]; the provider is not called; when streaming on a
    response that has sent nothing, an error frame and the terminal marker
    are written. *)
Theorem sniffer_out_of_scope (history : list Message) (newText : option string)
    (f : File) (rest : list (option File)) (cellType : option string)
    (stream : bool) (w : World) (attached : list ContentItem) :
  JS.includes image_extensions (file_extension f) = false ->
  process_files base64 utf8 (Some f :: rest) = Ok attached ->
  tutor history newText (Some f :: rest) cellType stream w
  = promptTutor_catch stream (ReferenceError "isImageByContent") w
  /\ fst (tutor history newText (Some f :: rest) cellType stream w)
     = Throw (ReferenceError "isImageByContent")
  /\ calls (snd (tutor history newText (Some f :: rest) cellType stream w))
     = calls w
  /\ (forall r, res w = Some r -> chunks r = [] -> stream = true ->
      option_map chunks
        (res (snd (tutor history newText (Some f :: rest) cellType stream w)))
      = Some [ErrorChunk "isImageByContent is not defined"; DoneChunk]).
Proof.
  intros Hext Hfiles.
  assert (Hrun : tutor history newText (Some f :: rest) cellType stream w
                 = promptTutor_catch stream (ReferenceError "isImageByContent") w).
  { apply promptTutor_early_throw. right.
    unfold assemble, build_userMessage. rewrite Hfiles. cbn [rbind].
    eexists. split; [reflexivity|].
    unfold hasImages. cbn [someR file_is_image]. rewrite Hext.
    rewrite call_in_promptTutor. reflexivity. }
  rewrite Hrun. split; [reflexivity|]. split; [apply promptTutor_catch_throws|].
  split; [apply keeps_promptTutor_catch|].
  intros r Hr Hchunks ->. unfold promptTutor_catch, headersSent.
  rewrite Hr, Hchunks. cbn [andb negb].
  unfold bind, res_write, res_end, with_res, throw. rewrite Hr. simpl.
  now rewrite Hchunks.
Qed.

(** ** C8: stripping is outbound only *)

Lemma strip_message_flag_free (m : Message) : flag_free (strip_message m).
Proof.
  unfold flag_free, strip_message. simpl. split; [reflexivity|].
  destruct (content m) as [[s|items]|]; auto.
  induction items; simpl; constructor; auto.
Qed.

Lemma compact_message_noShow (m m' : Message) :
  compact_message m = Ok m' ->
  noShow m' = if has_type "reasoning" (msg_type m) then Some true else noShow m.
Proof.
  unfold compact_message. destruct (has_type "reasoning" (msg_type m)).
  - intros [= <-]. reflexivity.
  - destruct (content m) as [[s|items]|]; [| |discriminate];
      intros [= <-]; reflexivity.
Qed.

Lemma strip_message_same_but_flags (m : Message) :
  same_but_flags m (strip_message m).
Proof.
  unfold same_but_flags, strip_message. simpl. repeat split.
  destruct (content m) as [[s|items]|]; auto.
  induction items; simpl; constructor; auto. repeat split.
Qed.

(** What compaction does to one message: type and role are kept; a
    reasoning item keeps its content and is flagged; any other message
    keeps its flag, and its content is kept or, for a block sequence,
    replaced by a non-empty string. *)
Lemma compact_message_frame (m m' : Message) :
  compact_message m = Ok m' ->
  msg_type m' = msg_type m
  /\ role m' = role m
  /\ (has_type "reasoning" (msg_type m) = true ->
      noShow m' = Some true /\ content m' = content m)
  /\ (has_type "reasoning" (msg_type m) = false ->
      noShow m' = noShow m
      /\ (content m' = content m
          \/ exists items t,
               content m = Some (Arr items)
               /\ content m' = Some (Str t) /\ t <> "")).
Proof.
  unfold compact_message. destruct (has_type "reasoning" (msg_type m)).
  - intros [= <-]. simpl.
    split; [reflexivity|]. split; [reflexivity|]. split; [auto|discriminate].
  - destruct (content m) as [[s|items]|] eqn:Hc; [| |discriminate];
      intros [= <-]; simpl;
      (split; [reflexivity|]; split; [reflexivity|]; split; [discriminate|]);
      intros _; (split; [reflexivity|]).
    + now left.
    + destruct (display_content_cases items) as [(t & Ht & Hne)|Hkeep].
      * right. exists items, t. rewrite Ht. auto.
      * left. now rewrite Hkeep.
Qed.

(** C8 (amended). The input handed to the provider is the assembled
    conversation with every [noShow] field removed and nothing else
    changed: no [noShow] on any message nor on any content item.  The
    messages retained are the assembled ones, the history in front exactly
    as received.  The history returned is not those messages but their
    compaction, followed by the compacted output: at each position the type
    and the role are kept; a reasoning item keeps its content and is
    returned with [noShow: true], whatever its flag was; any other message
    keeps its own [noShow], and its content is kept or, for a block
    sequence, replaced by a string, together with which the flags of its
    blocks are gone. *)
Theorem stripping_is_outbound_only (history : list Message)
    (newText : option string) (files : list (option File))
    (cellType : option string) (stream : bool) (w : World) :
  (calls (snd (tutor history newText files cellType stream w)) = calls w
   \/ exists messages,
        assemble base64 utf8 history newText files = Ok messages
        /\ calls (snd (tutor history newText files cellType stream w))
           = calls w ++ [request messages cellType stream])
  /\ (forall messages,
        req_input (request messages cellType stream) = map strip_message messages
        /\ Forall flag_free (req_input (request messages cellType stream))
        /\ Forall2 same_but_flags messages
             (req_input (request messages cellType stream)))
  /\ (forall fr,
        fst (tutor history newText files cellType stream w) = Ok fr ->
        exists messages,
          assemble base64 utf8 history newText files = Ok messages
          /\ firstn (List.length history) messages = history
          /\ processChatHistory (messages ++ response fr) = Ok (newChatHistory fr)
          /\ forall i m,
               nth_error messages i = Some m ->
               exists m',
                 nth_error (newChatHistory fr) i = Some m'
                 /\ msg_type m' = msg_type m
                 /\ role m' = role m
                 /\ (has_type "reasoning" (msg_type m) = true ->
                     noShow m' = Some true /\ content m' = content m)
                 /\ (has_type "reasoning" (msg_type m) = false ->
                     noShow m' = noShow m
                     /\ (content m' = content m
                         \/ exists items t,
                              content m = Some (Arr items)
                              /\ content m' = Some (Str t) /\ t <> ""))).
Proof.
  split; [apply promptTutor_calls|]. split.
  - intros messages. split; [reflexivity|]. simpl. split.
    + apply Forall_forall. intros m Hm. apply in_map_iff in Hm as (m0 & <- & _).
      apply strip_message_flag_free.
    + induction messages; simpl; constructor; auto.
      apply strip_message_same_but_flags.
  - intros fr Hfr.
    destruct (promptTutor_returns history newText files cellType stream w fr Hfr)
      as (messages & Hasm & Hhist).
    exists messages. split; [exact Hasm|].
    split; [exact (assemble_keeps_history _ _ _ _ _ _ Hasm)|].
    split; [exact Hhist|].
    intros i m Hi.
    assert (Hi' : nth_error (messages ++ response fr) i = Some m).
    { rewrite nth_error_app1; [exact Hi|]. apply nth_error_Some. congruence. }
    destruct (mapR_nth compact_message _ _ Hhist i m Hi') as (m' & Hm' & Hc).
    exists m'. split; [exact Hm'|]. now apply compact_message_frame.
Qed.

(** ** C10: the empty turn *)


End Turn.

(* ------------------------------------------------------------------ *)
(** * Instances and counterexamples *)

(** C1, at the events [delta "A", text.done, delta "B", text.done,
    response.done]: the loop returns the messages "A" and "AB". *)
Lemma stream_buffer_carries_over_AB :
  (res Sample.world = Some Sample.fresh_res /\ "A" <> "")
  /\ fst (stream_loop Sample.two_messages loop0 Sample.world)
     = Ok {| fullOutput := [assistant_message "A"; assistant_message "AB"];
             currentMessage := "AB";
             currentReasoning := "" |}.
Proof.
  split; [split; [reflexivity|discriminate]|].
  apply (stream_buffer_carries_over "A" "B" Sample.world Sample.fresh_res);
    [reflexivity|discriminate].
Defined.

(** The same through [promptTutor]: the final response lists "A" and "AB". *)
Example streamed_turn_response :
  match fst (Sample.run [] (Some "hi") [] None true Sample.world) with
  | Ok fr => response fr = [assistant_message "A"; assistant_message "AB"]
  | Throw _ => False
  end.
Proof. vm_compute. reflexivity. Qed.

(** C2, at the block the classifier returns for [a.png]: the block is an
    [input_image], and the code's predicate is false on the message that
    holds it. *)
Lemma classified_png_not_detected :
  let block := image_item "data:image/png;base64,iVBORw0KGgo=" in
  processFile Sample.base64 Sample.utf8 Sample.a_png = Ok (Some block)
  /\ spec_hasImagesInMessages [user_message [block]] = true
  /\ hasImagesInMessages [user_message [block]] = false
  /\ hasImages [] [user_message [block]] = Ok false.
Proof.
  split; [reflexivity|]. split; [reflexivity|].
  apply (classified_image_not_detected Sample.base64 Sample.utf8 Sample.a_png).
  reflexivity.
Defined.

(** C3 as stated fails: with the files [a.png, b.csv] the list holds a file
    whose extension is outside the image set, yet [files.some] stops at
    [a.png]; nothing is thrown and the provider is called. *)
Lemma image_first_hides_the_sniffer :
  let files := [Sample.a_png; Sample.b_csv] in
  let run := Sample.run [] (Some "hi") files None false Sample.world in
  (exists f, In (Some f) files
             /\ JS.includes image_extensions (file_extension f) = false)
  /\ (exists fr, fst run = Ok fr)
  /\ List.length (calls (snd run)) = 1.
Proof.
  split; [|split].
  - eexists. split; [right; left; reflexivity|reflexivity].
  - eexists. vm_compute. reflexivity.
  - vm_compute. reflexivity.
Qed.

(** C3 (amended), at the files [b.csv, a.png]. *)
Lemma sniffer_out_of_scope_csv_first :
  let run := Sample.run [] (Some "hi") [Sample.b_csv; Sample.a_png] None true
               Sample.world in
  fst run = Throw (ReferenceError "isImageByContent")
  /\ calls (snd run) = []
  /\ option_map chunks (res (snd run))
     = Some [ErrorChunk "isImageByContent is not defined"; DoneChunk].
Proof.
  destruct (sniffer_out_of_scope Sample.base64 Sample.utf8 "grader" "free"
              "success" Sample.provider [] (Some "hi")
              {| originalname := Some "b.csv"; name := None;
                 buffer := Some [x78; x2c; x79] |}
              [Sample.a_png] None true Sample.world
              [text_item ("CSV Data File (b.csv):" ++ newline2 ++ "x,y")%string (Some true);
               image_item "data:image/png;base64,iVBORw0KGgo="]
              eq_refl eq_refl)
    as (_ & Hthrow & Hcalls & Hframes).
  split; [exact Hthrow|]. split; [exact Hcalls|].
  exact (Hframes Sample.fresh_res eq_refl eq_refl eq_refl).
Defined.



(** The two sides of the guard, evaluated. *)
Example retry_not_appended :
  assemble Sample.base64 Sample.utf8 [Sample.user_text "What is 2+2?"]
    (Some "  What is 2+2? ") [Sample.b_csv]
  = Ok [Sample.user_text "What is 2+2?"].
Proof. reflexivity. Qed.

Example new_question_appended :
  assemble Sample.base64 Sample.utf8 [Sample.user_text "What is 2+2?"]
    (Some "And 3+3?") [Sample.b_csv]
  = Ok [ Sample.user_text "What is 2+2?";
         user_message
           [ text_item ("CSV Data File (b.csv):" ++ newline2 ++ "x,y")%string (Some true);
             text_item "And 3+3?" None ] ].
Proof. reflexivity. Qed.

(** C5 as stated fails: a text block exists, yet the content is not
    rewritten to the first text block's text when that text is empty (the
    image stays in the content); and a reasoning item with a block sequence
    keeps it. *)
Lemma empty_first_text_keeps_blocks :
  let items := [ image_item "data:image/png;base64,iVBORw0KGgo=";
                 text_item "" None; text_item "see the plot" None ] in
  let reasoning := {| msg_type := Some "reasoning"; role := None;
                      content := Some (Arr [text_item "plan" None]);
                      noShow := None |} in
  (Forall is_block items
   /\ first_text items (Some "")
   /\ spec_display_content items = Str ""
   /\ compact_message (user_message items) = Ok (user_message items))
  /\ (spec_display_content [text_item "plan" None] = Str "plan"
      /\ compact_message reasoning
         = Ok {| msg_type := Some "reasoning"; role := None;
                 content := Some (Arr [text_item "plan" None]);
                 noShow := Some true |}).
Proof.
  repeat split.
  - repeat constructor; (left; reflexivity) || (right; reflexivity).
  - exists [image_item "data:image/png;base64,iVBORw0KGgo="], (text_item "" None),
      [text_item "see the plot" None].
    repeat split. constructor; [discriminate|constructor].
Qed.

(** C5 (amended), at the provider's answer, an [output_text] array: the
    content becomes its text. *)
Lemma compaction_rewrite_rule_answer :
  compact_message Sample.answer
  = Ok {| msg_type := Some "message"; role := Some "assistant";
          content := Some (Str "4"); noShow := None |}.
Proof.
  destruct (compaction_rewrite_rule Sample.answer) as [_ Hrule].
  destruct (Hrule eq_refl) as [_ Hblocks].
  destruct (Hblocks _ eq_refl) as (shown & Hrun & _).
  rewrite Hrun. vm_compute in Hrun. injection Hrun as <-. reflexivity.
Defined.

(** At a user message holding an image and two texts, the content becomes
    the first text. *)
Example compaction_image_and_texts :
  compact_message
    (user_message [ image_item "data:image/png;base64,iVBORw0KGgo=";
                    text_item "see the plot" None; text_item "thanks" None ])
  = Ok (Sample.user_text "see the plot").
Proof. reflexivity. Qed.

(** C6, at a conversation with an attachment turn, a reasoning item and an
    answer. *)
Lemma compaction_idempotent_sample :
  let c := [ user_message [ image_item "data:image/png;base64,iVBORw0KGgo=";
                            text_item "see the plot" None ];
             {| msg_type := Some "reasoning"; role := None; content := None;
                noShow := None |};
             Sample.answer ] in
  Forall compactable c
  /\ exists c', processChatHistory c = Ok c' /\ processChatHistory c' = Ok c'.
Proof.
  assert (H : Forall compactable
                [ user_message [ image_item "data:image/png;base64,iVBORw0KGgo=";
                                 text_item "see the plot" None ];
                  {| msg_type := Some "reasoning"; role := None; content := None;
                     noShow := None |};
                  Sample.answer ]).
  { constructor; [right; discriminate|].
    constructor; [left; reflexivity|].
    constructor; [right; discriminate|constructor]. }
  split; [exact H|]. exact (compaction_idempotent _ H).
Defined.

(** C7, at the files [a.png, b.csv]: the image block comes first, the CSV
    text block second, the new text last. *)
Lemma candidate_message_png_csv :
  ("What does the plot show?" <> "" /\ Forall carries_buffer [Sample.a_png; Sample.b_csv])
  /\ build_userMessage Sample.base64 Sample.utf8
       (Some "What does the plot show?") [Sample.a_png; Sample.b_csv]
     = Ok {| msg_type := None;
             role := Some "user";
             content :=
               Some (Arr [ {| item_type := "input_image";
                              item_text := None;
                              item_image_url :=
                                Some "data:image/png;base64,iVBORw0KGgo=";
                              item_noShow := Some true |};
                           {| item_type := "input_text";
                              item_text :=
                                Some ("CSV Data File (b.csv):" ++ newline2
                                      ++ "x,y")%string;
                              item_image_url := None;
                              item_noShow := Some true |};
                           {| item_type := "input_text";
                              item_text := Some "What does the plot show?";
                              item_image_url := None;
                              item_noShow := None |} ]);
             noShow := None |}.
Proof.
  assert (Hfiles : Forall carries_buffer [Sample.a_png; Sample.b_csv])
    by (repeat constructor; discriminate).
  assert (Htext : "What does the plot show?" <> "") by discriminate.
  split; [split; assumption|].
  destruct (candidate_message_layout Sample.base64 Sample.utf8
              [Sample.a_png; Sample.b_csv] "What does the plot show?" Htext Hfiles)
    as (attached & Hmsg & Heq & _).
  rewrite Hmsg, Heq. reflexivity.
Defined.

(** The assembled content for [a.png, b.csv], evaluated. *)
Example candidate_message_png_csv_value :
  build_userMessage Sample.base64 Sample.utf8 (Some "What does the plot show?")
    [Sample.a_png; Sample.b_csv]
  = Ok (user_message
          [ image_item "data:image/png;base64,iVBORw0KGgo=";
            text_item ("CSV Data File (b.csv):" ++ newline2 ++ "x,y")%string (Some true);
            text_item "What does the plot show?" None ]).
Proof. reflexivity. Qed.

(** C8 as stated fails: the history holds a reasoning item with
    [noShow: false] and the new turn an image block with [noShow: true];
    the assembled messages carry both flags, and in the history returned
    the reasoning item has [noShow: true] and the new turn is a plain
    string, its block flags gone. *)
Lemma returned_history_rewrites_flags :
  let question :=
    {| msg_type := None; role := Some "user";
       content := Some (Str "What is 2+2?"); noShow := None |} in
  let thought :=
    {| msg_type := Some "reasoning"; role := None; content := None;
       noShow := Some false |} in
  let turn :=
    {| msg_type := None; role := Some "user";
       content :=
         Some (Arr [ {| item_type := "input_image"; item_text := None;
                        item_image_url :=
                          Some "data:image/png;base64,iVBORw0KGgo=";
                        item_noShow := Some true |};
                     {| item_type := "input_text";
                        item_text := Some "What does the plot show?";
                        item_image_url := None; item_noShow := None |} ]);
       noShow := None |} in
  assemble Sample.base64 Sample.utf8 [question; thought]
    (Some "What does the plot show?") [Sample.a_png]
  = Ok [question; thought; turn]
  /\ fst (Sample.run [question; thought] (Some "What does the plot show?")
            [Sample.a_png] None false Sample.world)
     = Ok {| response := [Sample.answer];
             newChatHistory :=
               [ question;
                 {| msg_type := Some "reasoning"; role := None;
                    content := None; noShow := Some true |};
                 {| msg_type := None; role := Some "user";
                    content := Some (Str "What does the plot show?");
                    noShow := None |};
                 {| msg_type := Some "message"; role := Some "assistant";
                    content := Some (Str "4"); noShow := None |} ];
             promptSuggestions := [] |}.
Proof. split; vm_compute; reflexivity. Qed.

(** C9 as stated fails: [x.exe] has an unsupported extension, its first
    bytes are the PNG signature, and the classifier returns an image block,
    not the placeholder. *)
Lemma exe_with_png_signature_is_image :
  let f := {| originalname := Some "x.exe"; name := None;
              buffer := Some Sample.png_signature |} in
  Sample.x_exe = Some f
  /\ unsupported_extension (file_extension f)
  /\ processFile Sample.base64 Sample.utf8 (Some f)
     = Ok (Some (image_item "data:image/png;base64,iVBORw0KGgo="))
  /\ image_item "data:image/png;base64,iVBORw0KGgo=" <> placeholder f.
Proof.
  split; [reflexivity|]. split; [|split; [reflexivity|discriminate]].
  repeat split; discriminate.
Qed.

(** C9 (amended), at [tool.exe], whose first bytes are "MZ". *)
Lemma processFile_total_tool_exe :
  carries_buffer Sample.tool_exe
  /\ exists result,
       processFile Sample.base64 Sample.utf8 Sample.tool_exe = Ok result
       /\ result
          = Some (text_item
                    ("Unsupported File Type (.exe) - tool.exe:" ++ newline2
                       ++ "[File content could not be processed. Please convert to a supported format.]")%string
                    (Some true)).
Proof.
  assert (Hbuf : carries_buffer Sample.tool_exe) by discriminate.
  split; [exact Hbuf|].
  destruct (processFile_total Sample.base64 Sample.utf8 Sample.tool_exe Hbuf)
    as (result & Hrun & _).
  exists result. split; [exact Hrun|].
  vm_compute in Hrun. injection Hrun as <-. reflexivity.
Defined.

(** Outside the domain of C9: a file object without [buffer] and with an
    image extension makes [processFile] throw. *)
Example processFile_without_buffer :
  processFile Sample.base64 Sample.utf8
    (Some {| originalname := Some "a.png"; name := None; buffer := None |})
  = Throw (TypeError "Cannot read properties of undefined (reading 'toString')").
Proof. reflexivity. Qed.

(** C8, on a streamed turn with an attachment: what the provider receives
    carries no flag, what is retained does. *)
Example stripped_request_sample :
  let run := Sample.run [] (Some "hi") [Sample.a_png] None true Sample.world in
  map req_input (calls (snd run))
  = [[ {| msg_type := None; role := Some "user";
          content := Some (Arr [ {| item_type := "input_image"; item_text := None;
                                    item_image_url := Some "data:image/png;base64,iVBORw0KGgo=";
                                    item_noShow := None |};
                                 text_item "hi" None ]);
          noShow := None |} ]]
  /\ assemble Sample.base64 Sample.utf8 [] (Some "hi") [Sample.a_png]
     = Ok [ user_message [ image_item "data:image/png;base64,iVBORw0KGgo=";
                           text_item "hi" None ] ].
Proof. split; vm_compute; reflexivity. Qed.


(* ------------------------------------------------------------------ *)
(** * Further properties of [openai.js] *)

(** ** The magic-byte sniffer *)

Lemma byte_is_true_iff (buf : list byte) (i : nat) (b : byte) :
  byte_is buf i b = true <-> nth_error buf i = Some b.
Proof.
  unfold byte_is. destruct (nth_error buf i) as [x|]; split; try discriminate.
  - intros H. f_equal. now apply Byte.byte_dec_bl.
  - intros [= ->]. now apply Byte.byte_dec_lb.
Qed.

Lemma firstn_from_nth {A} (pattern l : list A) :
  (forall i, i < List.length pattern -> nth_error l i = nth_error pattern i) ->
  firstn (List.length pattern) l = pattern.
Proof.
  revert l. induction pattern as [|x rest IH]; intros l H; [reflexivity|].
  destruct l as [|y l].
  - specialize (H 0 ltac:(simpl; lia)). discriminate.
  - simpl. f_equal.
    + specialize (H 0 ltac:(simpl; lia)). now injection H.
    + apply IH. intros i Hi. apply (H (S i)). simpl. lia.
Qed.

Lemma nth_from_firstn {A} (n : nat) (pattern l : list A) (i : nat) :
  firstn n l = pattern -> i < List.length pattern ->
  nth_error l i = nth_error pattern i.
Proof.
  intros <- Hi. rewrite nth_error_firstn.
  rewrite length_firstn in Hi.
  destruct (Nat.ltb_spec i n); [reflexivity|lia].
Qed.

Ltac bytes_of_condition H :=
  repeat match type of H with
         | (_ && _)%bool = true =>
             let H' := fresh "Hbyte" in
             apply andb_prop in H as [H H']
         end;
  repeat match goal with
         | Hb : byte_is _ _ _ = true |- _ => apply byte_is_true_iff in Hb
         | Hl : (_ <=? _) = true |- _ => apply Nat.leb_le in Hl
         end.

Ltac index_cases i Hi :=
  repeat (destruct i as [|i]; [simpl; assumption|]); simpl in Hi; lia.

(** X1. The sniffer answers with a type exactly when the buffer has at least
    four bytes and starts with that type's signature: [89 50 4E 47] for PNG,
    [FF D8 FF] for JPEG, [47 49 46 38] for GIF, [42 4D] for BMP, and
    [52 49 46 46] followed at offset 8 by [57 45 42 50] for WebP. *)
Theorem isImageByContent_signatures (buf : list byte) (mime : string) :
  isImageByContent (Some buf) = Some mime
  <-> 4 <= List.length buf
      /\ ((mime = "image/png" /\ firstn 4 buf = [x89; x50; x4e; x47])
          \/ (mime = "image/jpeg" /\ firstn 3 buf = [xff; xd8; xff])
          \/ (mime = "image/gif" /\ firstn 4 buf = [x47; x49; x46; x38])
          \/ (mime = "image/bmp" /\ firstn 2 buf = [x42; x4d])
          \/ (mime = "image/webp"
              /\ firstn 4 buf = [x52; x49; x46; x46]
              /\ firstn 4 (skipn 8 buf) = [x57; x45; x42; x50])).
Proof.
  split.
  - unfold isImageByContent.
    destruct (Nat.ltb_spec (List.length buf) 4) as [|Hlen]; [discriminate|].
    intros H. split; [exact Hlen|].
    destruct (_ && byte_is buf 3 x47) eqn:Hpng.
    { injection H as <-. left. split; [reflexivity|]. bytes_of_condition Hpng.
      apply (firstn_from_nth [x89; x50; x4e; x47]). intros i Hi. index_cases i Hi. }
    destruct (_ && byte_is buf 2 xff) eqn:Hjpeg.
    { injection H as <-. right; left. split; [reflexivity|]. bytes_of_condition Hjpeg.
      apply (firstn_from_nth [xff; xd8; xff]). intros i Hi. index_cases i Hi. }
    destruct (_ && byte_is buf 3 x38) eqn:Hgif.
    { injection H as <-. do 2 right; left. split; [reflexivity|].
      bytes_of_condition Hgif.
      apply (firstn_from_nth [x47; x49; x46; x38]). intros i Hi. index_cases i Hi. }
    destruct (_ && byte_is buf 1 x4d) eqn:Hbmp.
    { injection H as <-. do 3 right; left. split; [reflexivity|].
      bytes_of_condition Hbmp.
      apply (firstn_from_nth [x42; x4d]). intros i Hi. index_cases i Hi. }
    destruct (_ && byte_is buf 11 x50) eqn:Hwebp; [|discriminate].
    injection H as <-. do 4 right. split; [reflexivity|].
    bytes_of_condition Hwebp. split.
    + apply (firstn_from_nth [x52; x49; x46; x46]). intros i Hi. index_cases i Hi.
    + apply (firstn_from_nth [x57; x45; x42; x50]). intros i Hi.
      rewrite nth_error_skipn. index_cases i Hi.
  - intros [Hlen Hsig]. unfold isImageByContent.
    destruct (Nat.ltb_spec (List.length buf) 4) as [|_]; [lia|].
    unfold byte_is.
    destruct Hsig as [[-> H]|[[-> H]|[[-> H]|[[-> H]|(-> & H & H8)]]]].
    + rewrite (nth_from_firstn 4 _ buf 0 H), (nth_from_firstn 4 _ buf 1 H),
        (nth_from_firstn 4 _ buf 2 H), (nth_from_firstn 4 _ buf 3 H)
        by (simpl; lia).
      reflexivity.
    + rewrite (nth_from_firstn 3 _ buf 0 H), (nth_from_firstn 3 _ buf 1 H),
        (nth_from_firstn 3 _ buf 2 H) by (simpl; lia).
      reflexivity.
    + rewrite (nth_from_firstn 4 _ buf 0 H), (nth_from_firstn 4 _ buf 1 H),
        (nth_from_firstn 4 _ buf 2 H), (nth_from_firstn 4 _ buf 3 H)
        by (simpl; lia).
      reflexivity.
    + rewrite (nth_from_firstn 2 _ buf 0 H), (nth_from_firstn 2 _ buf 1 H)
        by (simpl; lia).
      reflexivity.
    + assert (Hlen12 : 12 <= List.length buf).
      { apply (f_equal (@List.length byte)) in H8.
        rewrite length_firstn, length_skipn in H8. cbn [List.length] in H8. lia. }
      apply Nat.leb_le in Hlen12. rewrite Hlen12.
      pose proof (nth_from_firstn 4 _ (skipn 8 buf) 0 H8) as H80.
      pose proof (nth_from_firstn 4 _ (skipn 8 buf) 1 H8) as H81.
      pose proof (nth_from_firstn 4 _ (skipn 8 buf) 2 H8) as H82.
      pose proof (nth_from_firstn 4 _ (skipn 8 buf) 3 H8) as H83.
      rewrite nth_error_skipn in H80, H81, H82, H83.
      cbn [Nat.add List.length] in H80, H81, H82, H83.
      rewrite (nth_from_firstn 4 _ buf 0 H), (nth_from_firstn 4 _ buf 1 H),
        (nth_from_firstn 4 _ buf 2 H), (nth_from_firstn 4 _ buf 3 H)
        by (simpl; lia).
      rewrite H80, H81, H82, H83 by lia. reflexivity.
Qed.

(** ** The streaming loop as a whole *)

Lemma string_append_nil_r (s : string) : (s ++ "")%string = s.
Proof. induction s as [|c s IH]; simpl; [reflexivity|now rewrite IH]. Qed.

Lemma string_append_assoc (a b c : string) :
  ((a ++ b) ++ c)%string = (a ++ (b ++ c))%string.
Proof. induction a as [|x a IH]; simpl; [reflexivity|now rewrite IH]. Qed.

Lemma is_prefix_refl (s : string) : is_prefix s s.
Proof. exists "". now rewrite string_append_nil_r. Qed.

Lemma is_prefix_append (t s extra : string) :
  is_prefix t s -> is_prefix t (s ++ extra).
Proof.
  intros [rest ->]. exists (rest ++ extra)%string. apply string_append_assoc.
Qed.

Lemma is_prefix_trans (a b c : string) :
  is_prefix a b -> is_prefix b c -> is_prefix a c.
Proof. intros [r1 ->] Hbc. destruct Hbc as [r2 ->].
  exists (r1 ++ r2)%string. apply string_append_assoc.
Qed.

Lemma written_nil (r : Res) : written r [] = r.
Proof. destruct r. unfold written. simpl. now rewrite app_nil_r. Qed.

Lemma written_written (r : Res) (cs ds : list Chunk) :
  written (written r cs) ds = written r (cs ++ ds).
Proof. unfold written. simpl. now rewrite app_assoc. Qed.

(** One run of the loop from any state whose reasoning buffer is empty: it
    does not throw, writes one frame per delta, extends the message buffer
    by the deltas, and pushes only assistant messages that hold the buffer
    as it stood. *)
Lemma stream_loop_run (events : list Event) :
  forall (st : Loop) (w : World) (r : Res),
    res w = Some r ->
    currentReasoning st = "" ->
    exists pushed,
      stream_loop events st w
      = (Ok {| fullOutput := fullOutput st ++ pushed;
               currentMessage :=
                 (currentMessage st ++ joined (streamed_deltas events))%string;
               currentReasoning := "" |},
         {| res := Some (written r (map MessageDelta (streamed_deltas events)));
            calls := calls w |})
      /\ Forall (fun m =>
                   exists t,
                     m = assistant_message t /\ t <> ""
                     /\ is_prefix (currentMessage st) t
                     /\ is_prefix t
                          (currentMessage st ++ joined (streamed_deltas events)))
           pushed.
Proof.
  induction events as [|event rest IH]; intros st w r Hres Hreason.
  - exists []. split; [|constructor].
    cbn [stream_loop streamed_deltas map joined fold_right]. unfold ret.
    rewrite written_nil, app_nil_r, string_append_nil_r, <- Hres, <- Hreason.
    destruct st, w; reflexivity.
  - cbn [stream_loop streamed_deltas].
    destruct (String.eqb (ev_type event) "response.output_text.delta") eqn:Hdelta.
    { apply String.eqb_eq in Hdelta. rewrite Hdelta. cbn [String.eqb Ascii.eqb Bool.eqb].
      unfold bind. rewrite (res_write_some _ w r Hres).
      destruct (IH {| fullOutput := fullOutput st;
                      currentMessage :=
                        (currentMessage st ++ JS.or_empty (ev_delta event))%string;
                      currentReasoning := currentReasoning st |}
                  {| res := Some (written r [MessageDelta (JS.or_empty (ev_delta event))]);
                     calls := calls w |}
                  (written r [MessageDelta (JS.or_empty (ev_delta event))])
                  eq_refl Hreason)
        as (pushed & Hrun & Hpushed).
      change {| headers := headers r;
                chunks := chunks r ++ [MessageDelta (JS.or_empty (ev_delta event))];
                ended := ended r |}
        with (written r [MessageDelta (JS.or_empty (ev_delta event))]).
      exists pushed. rewrite Hrun. cbn [fullOutput currentMessage res calls].
      split.
      - cbn [joined fold_right map]. fold (joined (streamed_deltas rest)).
        rewrite string_append_assoc, written_written. reflexivity.
      - eapply Forall_impl; [|exact Hpushed].
        cbn [currentMessage joined fold_right]. fold (joined (streamed_deltas rest)).
        intros m (t & -> & Ht & Hlow & Hhigh). exists t. repeat split; auto.
        + eapply is_prefix_trans; [|exact Hlow]. now eexists.
        + now rewrite <- string_append_assoc. }
    destruct (String.eqb (ev_type event) "response.output_text.done") eqn:Htext.
    { apply String.eqb_eq in Htext. rewrite Htext. cbn [String.eqb Ascii.eqb Bool.eqb].
      destruct (JS.truthy (currentMessage st)) eqn:Hbuffer.
      - destruct (IH {| fullOutput :=
                          fullOutput st ++ [assistant_message (currentMessage st)];
                        currentMessage := currentMessage st;
                        currentReasoning := currentReasoning st |}
                    w r Hres Hreason)
          as (pushed & Hrun & Hpushed).
        exists (assistant_message (currentMessage st) :: pushed).
        rewrite Hrun. cbn [fullOutput currentMessage]. rewrite <- app_assoc.
        split; [reflexivity|]. constructor; [|exact Hpushed].
        exists (currentMessage st). repeat split.
        + now apply truthy_true_iff.
        + apply is_prefix_refl.
        + now eexists.
      - destruct (IH st w r Hres Hreason) as (pushed & Hrun & Hpushed).
        exists pushed. split; assumption. }
    destruct (String.eqb (ev_type event) "response.reasoning.delta") eqn:Hrd.
    { apply String.eqb_eq in Hrd. rewrite Hrd. cbn [String.eqb Ascii.eqb Bool.eqb].
      exact (IH st w r Hres Hreason). }
    destruct (String.eqb (ev_type event) "response.reasoning.done") eqn:Hrdone.
    { apply String.eqb_eq in Hrdone. rewrite Hrdone, Hreason.
      cbn [String.eqb Ascii.eqb Bool.eqb JS.truthy].
      exact (IH st w r Hres Hreason). }
    destruct (String.eqb (ev_type event) "response.done") eqn:Hdone.
    { exists []. split; [|constructor].
      cbn [map joined fold_right]. unfold ret.
      rewrite written_nil, app_nil_r, string_append_nil_r, <- Hres, <- Hreason.
      destruct st, w; reflexivity. }
    exact (IH st w r Hres Hreason).
Qed.


(** X3. What the loop accumulates: the message buffer ends as the concatenation
    of all deltas, the reasoning buffer stays empty, and every output item is
    an assistant message whose text is a non-empty prefix of that
    concatenation -- never a reasoning item, and never a text cut at the
    previous [output_text.done]. *)
Theorem stream_outputs_are_cumulative (events : list Event) (w : World) (r : Res) :
  res w = Some r ->
  exists st,
    fst (stream_loop events loop0 w) = Ok st
    /\ currentMessage st = joined (streamed_deltas events)
    /\ currentReasoning st = ""
    /\ Forall (fun m =>
                 exists t,
                   m = assistant_message t /\ t <> ""
                   /\ is_prefix t (joined (streamed_deltas events)))
         (fullOutput st).
Proof.
  intros Hres.
  destruct (stream_loop_run events loop0 w r Hres eq_refl) as (pushed & Hrun & Hpushed).
  eexists. rewrite Hrun. cbn [fst fullOutput currentMessage currentReasoning loop0].
  repeat split; auto.
  eapply Forall_impl; [|exact Hpushed].
  intros m (t & -> & Ht & _ & Hprefix). exists t. auto.
Qed.

(** X4. Whatever follows [response.done] in the provider's stream is not read. *)
Theorem events_after_done_are_ignored (before after : list Event)
    (done : Event) (st : Loop) (w : World) :
  ev_type done = "response.done" ->
  stream_loop (before ++ done :: after) st w
  = stream_loop (before ++ [done]) st w.
Proof.
  intros Hdone. revert st w.
  induction before as [|event rest IH]; intros st w.
  - cbn [app stream_loop]. rewrite Hdone. reflexivity.
  - cbn [app stream_loop].
    repeat match goal with
           | |- context [if ?b then _ else _] => destruct b
           end; auto.
    unfold bind. destruct (res_write _ w) as [[u|e] w']; auto.
Qed.

(** ** Compaction: shape of the result *)

Lemma mapR_length {A B} (f : A -> Result B) (l : list A) (bs : list B) :
  mapR f l = Ok bs -> List.length bs = List.length l.
Proof.
  revert bs. induction l as [|a rest IH]; simpl; intros bs.
  - intros [= <-]. reflexivity.
  - destruct (f a) as [b|]; simpl; [|discriminate].
    destruct (mapR f rest) as [bs'|]; simpl; [|discriminate].
    intros [= <-]. simpl. f_equal. now apply IH.
Qed.

Lemma compact_message_keeps_kind (m m' : Message) :
  compact_message m = Ok m' -> role m' = role m /\ msg_type m' = msg_type m.
Proof.
  unfold compact_message. destruct (has_type "reasoning" (msg_type m)).
  - intros [= <-]. auto.
  - destruct (content m) as [[s|items]|]; [| |discriminate]; intros [= <-]; auto.
Qed.

(** X5. Compaction deletes and reorders nothing: the result has as many
    messages as the input, with the same roles and the same types, in the
    same order. *)
Theorem compaction_keeps_every_message (c c' : list Message) :
  processChatHistory c = Ok c' ->
  List.length c' = List.length c
  /\ map role c' = map role c
  /\ map msg_type c' = map msg_type c.
Proof.
  unfold processChatHistory. revert c'.
  induction c as [|m rest IH]; simpl; intros c'.
  - intros [= <-]. auto.
  - destruct (compact_message m) as [m'|] eqn:Hm; simpl; [|discriminate].
    destruct (mapR compact_message rest) as [rest'|]; simpl; [|discriminate].
    intros [= <-]. destruct (IH rest' eq_refl) as (Hlen & Hroles & Htypes).
    destruct (compact_message_keeps_kind m m' Hm) as [Hrole Htype].
    simpl. now rewrite Hlen, Hroles, Htypes, Hrole, Htype.
Qed.

Lemma processChatHistory_throws (c : list Message) (m : Message) :
  In m c ->
  has_type "reasoning" (msg_type m) = false ->
  content m = None ->
  processChatHistory c
  = Throw (TypeError "Cannot read properties of undefined (reading 'filter')").
Proof.
  intros Hin Hkind Hcontent. unfold processChatHistory.
  induction c as [|x rest IH]; [contradiction|].
  simpl. destruct Hin as [-> | Hin].
  - unfold compact_message. rewrite Hkind, Hcontent. reflexivity.
  - unfold compact_message at 1.
    destruct (has_type "reasoning" (msg_type x));
      [|destruct (content x) as [[s|items]|]]; simpl; try reflexivity;
      rewrite (IH Hin); reflexivity.
Qed.

(** X6. The compactor throws as soon as one message is no reasoning item and
    has no content: the whole history is lost to a [TypeError]. *)
Theorem compaction_fails_on_missing_content (c : list Message) (m : Message) :
  In m c ->
  has_type "reasoning" (msg_type m) = false ->
  content m = None ->
  processChatHistory c
  = Throw (TypeError "Cannot read properties of undefined (reading 'filter')").
Proof. apply processChatHistory_throws. Qed.

(** ** Stripping *)

Lemma strip_item_unique (item item' : ContentItem) :
  same_item_but_flag item item' -> item_noShow item' = None ->
  strip_item item = item'.
Proof.
  intros (Htype & Htext & Hurl) Hflag. destruct item'. simpl in *.
  unfold strip_item. congruence.
Qed.

(** X7. Stripping removes the [noShow] fields and nothing else: the stripped
    copy of a message is the one message that is free of [noShow] fields and
    agrees with it on the type, the role and the content, item by item, in
    every other field.  In particular a message is returned as it is exactly
    when it carries no flag. *)
Theorem strip_message_removes_only_flags (m : Message) :
  (forall m', strip_message m = m' <-> flag_free m' /\ same_but_flags m m')
  /\ (flag_free m <-> strip_message m = m).
Proof.
  assert (Hiff : forall m', strip_message m = m'
                            <-> flag_free m' /\ same_but_flags m m').
  { intros m'. split.
    - intros <-. split;
        [apply strip_message_flag_free|apply strip_message_same_but_flags].
    - intros [[Hflag Hitems] (Htype & Hrole & Hcontent)].
      destruct m as [t r c n], m' as [t' r' c' n']. simpl in *. subst.
      unfold strip_message. simpl. f_equal.
      destruct c as [[s|items]|], c' as [[s'|items']|]; try contradiction;
        try congruence.
      do 2 f_equal.
      induction Hcontent as [|item item' rest rest' Hsame _ IH]; simpl;
        [reflexivity|].
      inversion Hitems as [|? ? Hflag Hrest]; subst.
      rewrite (IH Hrest). f_equal. now apply strip_item_unique. }
  split; [exact Hiff|]. split.
  - intros Hfree. apply Hiff. split; [exact Hfree|].
    unfold same_but_flags. repeat split.
    destruct (content m) as [[s|items]|]; auto.
    induction items; constructor; auto. repeat split.
  - intros <-. apply strip_message_flag_free.
Qed.

(** ** Image detection is decided by the first file *)

(** X8. With at least one file, the image-detection expression depends on the
    first entry only: not on the other files, and not on the messages. *)
Theorem hasImages_reads_first_file_only (file : option File)
    (rest rest' : list (option File)) (messages messages' : list Message) :
  hasImages (file :: rest) messages = hasImages (file :: rest') messages'.
Proof.
  unfold hasImages. cbn [someR].
  destruct file as [f|]; cbn [file_is_image rbind]; [|reflexivity].
  destruct (JS.includes image_extensions (file_extension f)); [reflexivity|].
  rewrite call_in_promptTutor. reflexivity.
Qed.

(** ** A whole turn, from the call to the response *)

Lemma headers_set (w : World) (r : Res) :
  res w = Some r -> chunks r = [] ->
  streaming_headers w
  = (Ok tt, {| res := Some (with_stream_headers r); calls := calls w |}).
Proof.
  intros Hres Hfresh.
  unfold streaming_headers, bind, res_setHeader, with_res, headersSent.
  rewrite Hres, Hfresh. cbn. unfold with_stream_headers, stream_headers.
  rewrite Hfresh, <- !app_assoc. reflexivity.
Qed.

Section WholeTurn.

Variable base64 : list byte -> string.
Variable utf8 : list byte -> string.
Variable graderInstructions freeResponseInstructions successInstructions : string.
Variable provider : Request -> Result Response.

Local Abbreviation tutor :=
  (promptTutor base64 utf8 graderInstructions freeResponseInstructions
     successInstructions provider).
Local Abbreviation request :=
  (make_request graderInstructions freeResponseInstructions successInstructions).

(** A turn that assembles and passes the image detection, on a response
    that has sent nothing: the headers are set when streaming, the provider
    is called, and its answer is handled. *)
Lemma promptTutor_from_call (history : list Message) (newText : option string)
    (files : list (option File)) (cellType : option string) (stream : bool)
    (w : World) (r : Res) (messages : list Message) (found : bool) :
  res w = Some r -> chunks r = [] ->
  assemble base64 utf8 history newText files = Ok messages ->
  hasImages files messages = Ok found ->
  tutor history newText files cellType stream w
  = let sent := {| res := Some (if stream then with_stream_headers r else r);
                   calls := calls w ++ [request messages cellType stream] |} in
    match provider (request messages cellType stream) with
    | Throw e => promptTutor_catch stream e sent
    | Ok answer =>
        match handle_response messages stream true answer sent with
        | (Ok fr, w') => (Ok fr, w')
        | (Throw e, w') => promptTutor_catch stream e w'
        end
    end.
Proof.
  intros Hres Hfresh Hasm Himg. unfold promptTutor.
  rewrite (promptTutor_try_steps base64 utf8 graderInstructions
             freeResponseInstructions successInstructions provider).
  rewrite Hasm, Himg, Hres. cbn [Path.isNone negb andb].
  rewrite andb_true_r. destruct stream.
  - rewrite (headers_set w r Hres Hfresh). cbv zeta. cbn [res calls].
    destruct (provider _); reflexivity.
  - unfold ret. cbv zeta. rewrite Hres.
    destruct (provider _); reflexivity.
Qed.

Lemma outputs_compactable (messages pushed : list Message) :
  Forall compactable messages ->
  Forall (fun m => exists t, m = assistant_message t) pushed ->
  exists history, processChatHistory (messages ++ pushed) = Ok history.
Proof.
  intros Hmessages Hpushed. apply mapR_total. apply Forall_app. split.
  - eapply Forall_impl; [|exact Hmessages]. apply compact_message_total.
  - eapply Forall_impl; [|exact Hpushed]. intros m [t ->]. eexists. reflexivity.
Qed.

(** X9. A streamed turn that succeeds, on a response that has sent nothing:
    the four streaming headers are set; the frames are the text deltas in
    the order of arrival, then one [final_response] frame, then the
    terminal marker; the stream is ended; the value returned is the one
    the final frame carries, and its history holds every assembled message
    and every output. *)
Theorem streamed_turn_frames (history : list Message) (newText : option string)
    (files : list (option File)) (cellType : option string) (w : World)
    (r : Res) (messages : list Message) (found : bool) (events : list Event) :
  res w = Some r -> chunks r = [] ->
  assemble base64 utf8 history newText files = Ok messages ->
  hasImages files messages = Ok found ->
  provider (request messages cellType true) = Ok (StreamResponse events) ->
  Forall compactable messages ->
  exists fr,
    tutor history newText files cellType true w
    = (Ok fr,
       {| res := Some {| headers := headers r ++ stream_headers;
                         chunks := map MessageDelta (streamed_deltas events)
                                   ++ [FinalChunk fr; DoneChunk];
                         ended := true |};
          calls := calls w ++ [request messages cellType true] |})
    /\ processChatHistory (messages ++ response fr) = Ok (newChatHistory fr)
    /\ List.length (newChatHistory fr)
       = List.length messages + List.length (response fr).
Proof.
  intros Hres Hfresh Hasm Himg Hprov Hmessages.
  rewrite (promptTutor_from_call history newText files cellType true w r
             messages found Hres Hfresh Hasm Himg), Hprov.
  cbv zeta. unfold handle_response. cbn [andb]. unfold bind at 1.
  destruct (stream_loop_run events loop0
              {| res := Some (with_stream_headers r);
                 calls := calls w ++ [request messages cellType true] |}
              (with_stream_headers r) eq_refl eq_refl)
    as (pushed & Hrun & Hpushed).
  rewrite Hrun. cbn [fullOutput loop0 app].
  destruct (outputs_compactable messages pushed Hmessages) as [compacted Hcompact].
  { eapply Forall_impl; [|exact Hpushed]. intros m (t & -> & _). now exists t. }
  unfold bind, lift, final_response, res_write, res_end, with_res, ret.
  rewrite Hcompact. cbn.
  eexists. split; [|split].
  - rewrite Hfresh. cbn [app]. rewrite <- app_assoc. reflexivity.
  - exact Hcompact.
  - cbn [newChatHistory response].
    rewrite (mapR_length _ _ _ Hcompact), length_app. reflexivity.
Qed.

(** X10. A turn that is not streamed and succeeds, on a response that has sent
    nothing: no header is set, the only thing sent is the JSON body with the
    value returned, whose [response] is the provider's output and whose
    history is the compaction of the assembled messages and that output. *)
Theorem plain_turn_reply (history : list Message) (newText : option string)
    (files : list (option File)) (cellType : option string) (w : World)
    (r : Res) (messages : list Message) (found : bool) (output : list Message)
    (compacted : list Message) :
  res w = Some r -> chunks r = [] ->
  assemble base64 utf8 history newText files = Ok messages ->
  hasImages files messages = Ok found ->
  provider (request messages cellType false) = Ok (SyncResponse output) ->
  processChatHistory (messages ++ output) = Ok compacted ->
  let fr := {| response := output; newChatHistory := compacted;
               promptSuggestions := [] |} in
  tutor history newText files cellType false w
  = (Ok fr,
     {| res := Some {| headers := headers r; chunks := [JsonBody fr];
                       ended := true |};
        calls := calls w ++ [request messages cellType false] |}).
Proof.
  intros Hres Hfresh Hasm Himg Hprov Hcompact fr.
  rewrite (promptTutor_from_call history newText files cellType false w r
             messages found Hres Hfresh Hasm Himg), Hprov.
  cbv zeta. unfold handle_response. cbn [andb].
  unfold bind, lift, final_response, res_json, with_res, ret, headersSent.
  rewrite Hcompact. cbn. rewrite Hfresh. reflexivity.
Qed.

Lemma provider_failure_world (history : list Message)
    (newText : option string) (files : list (option File))
    (cellType : option string) (stream : bool) (w : World) (r : Res)
    (messages : list Message) (found : bool) (e : JsError) :
  res w = Some r -> chunks r = [] ->
  assemble base64 utf8 history newText files = Ok messages ->
  hasImages files messages = Ok found ->
  provider (request messages cellType stream) = Throw e ->
  tutor history newText files cellType stream w
  = (Throw e,
     {| res := Some (if stream
                     then {| headers := headers r ++ stream_headers;
                             chunks := [ErrorChunk (error_message e); DoneChunk];
                             ended := true |}
                     else r);
        calls := calls w ++ [request messages cellType stream] |}).
Proof.
  intros Hres Hfresh Hasm Himg Hprov.
  rewrite (promptTutor_from_call history newText files cellType stream w r
             messages found Hres Hfresh Hasm Himg), Hprov.
  cbv zeta. unfold promptTutor_catch. cbn [res].
  destruct stream; cbn [andb].
  - unfold headersSent, with_stream_headers. cbn [chunks]. rewrite Hfresh.
    cbn [negb]. unfold bind, res_write, res_end, with_res, throw. cbn.
    reflexivity.
  - reflexivity.
Qed.

(** X11. When the provider call throws, on a response that has sent nothing: a
    streamed turn answers with the streaming headers, one error frame with
    the error's message and the terminal marker, and ends the stream; a
    turn that is not streamed leaves the response untouched.  Both throw the
    provider's error again. *)
Theorem provider_failure_report (history : list Message)
    (newText : option string) (files : list (option File))
    (cellType : option string) (stream : bool) (w : World) (r : Res)
    (messages : list Message) (found : bool) (e : JsError) :
  res w = Some r -> chunks r = [] ->
  assemble base64 utf8 history newText files = Ok messages ->
  hasImages files messages = Ok found ->
  provider (request messages cellType stream) = Throw e ->
  tutor history newText files cellType stream w
  = (Throw e,
     {| res := Some (if stream
                     then {| headers := headers r ++ stream_headers;
                             chunks := [ErrorChunk (error_message e); DoneChunk];
                             ended := true |}
                     else r);
        calls := calls w ++ [request messages cellType stream] |}).
Proof. apply provider_failure_world. Qed.

(** X12. A streamed turn whose history cannot be compacted (a message without
    content that is no reasoning item) fails after the deltas went out: the
    frames written are the deltas alone, with no [final_response], no error
    frame and no terminal marker, and the stream is not ended. *)
Theorem stream_left_open_after_late_failure (history : list Message)
    (newText : option string) (files : list (option File))
    (cellType : option string) (w : World) (r : Res)
    (messages : list Message) (found : bool) (events : list Event)
    (m : Message) :
  res w = Some r -> chunks r = [] ->
  assemble base64 utf8 history newText files = Ok messages ->
  hasImages files messages = Ok found ->
  provider (request messages cellType true) = Ok (StreamResponse events) ->
  streamed_deltas events <> [] ->
  In m messages -> has_type "reasoning" (msg_type m) = false ->
  content m = None ->
  tutor history newText files cellType true w
  = (Throw (TypeError "Cannot read properties of undefined (reading 'filter')"),
     {| res := Some {| headers := headers r ++ stream_headers;
                       chunks := map MessageDelta (streamed_deltas events);
                       ended := ended r |};
        calls := calls w ++ [request messages cellType true] |}).
Proof.
  intros Hres Hfresh Hasm Himg Hprov Hdeltas Hin Hkind Hcontent.
  rewrite (promptTutor_from_call history newText files cellType true w r
             messages found Hres Hfresh Hasm Himg), Hprov.
  cbv zeta. unfold handle_response. cbn [andb]. unfold bind at 1.
  destruct (stream_loop_run events loop0
              {| res := Some (with_stream_headers r);
                 calls := calls w ++ [request messages cellType true] |}
              (with_stream_headers r) eq_refl eq_refl)
    as (pushed & Hrun & _).
  rewrite Hrun. cbn [fullOutput loop0 app].
  unfold bind at 1. unfold lift, final_response.
  rewrite (processChatHistory_throws (messages ++ pushed) m
             (in_or_app _ _ _ (or_introl Hin)) Hkind Hcontent).
  cbn [rbind]. unfold promptTutor_catch, headersSent, written, with_stream_headers.
  cbn [res chunks headers ended]. rewrite Hfresh. cbn [app andb].
  destruct (streamed_deltas events) as [|d rest]; [congruence|]. reflexivity.
Qed.

End WholeTurn.

(** ** What the history keeps of a turn with attachments *)

Section TurnInHistory.

Variable base64 : list byte -> string.
Variable utf8 : list byte -> string.

Lemma process_files_app (front back : list (option File))
    (a b : list ContentItem) :
  process_files base64 utf8 front = Ok a ->
  process_files base64 utf8 back = Ok b ->
  process_files base64 utf8 (front ++ back) = Ok (a ++ b).
Proof.
  revert a. induction front as [|file rest IH]; simpl; intros a.
  - intros [= <-] Hb. exact Hb.
  - destruct (processFile base64 utf8 file) as [block|]; simpl; [|discriminate].
    destruct (process_files base64 utf8 rest) as [blocks|]; simpl; [|discriminate].
    intros [= <-] Hb. rewrite (IH blocks eq_refl Hb). simpl.
    destruct block; reflexivity.
Qed.

Lemma image_uploads_blocks (files : list (option File)) :
  Forall image_upload files ->
  exists attached,
    process_files base64 utf8 files = Ok attached
    /\ filter is_not_image attached = [].
Proof.
  induction 1 as [|file rest Hfile _ (attached & Hrest & Hnone)].
  - exists []. auto.
  - destruct file as [f|]; cbn [process_files].
    + destruct Hfile as [Hbuf Himage].
      destruct (processFile_block base64 utf8 f Hbuf) as (block & -> & Htag & _).
      rewrite Hrest. cbn [rbind]. exists (block :: attached). split; [reflexivity|].
      cbn [filter]. unfold is_not_image at 1. rewrite Htag, Himage. exact Hnone.
    + cbn [processFile rbind]. rewrite Hrest. cbn [rbind]. eauto.
Qed.

Lemma processFile_text_nonempty (f : File) :
  buffer f <> None ->
  is_image_file f = false ->
  exists text,
    processFile base64 utf8 (Some f) = Ok (Some (text_item text (Some true)))
    /\ text <> "".
Proof.
  intros Hbuf Himage. unfold is_image_file in Himage.
  apply orb_false_elim in Himage as [Hext Hsniff].
  apply negb_false_iff in Hsniff.
  destruct (buffer f) as [bytes|] eqn:Eb; [|congruence].
  assert (Hnone : isImageByContent (Some bytes) = None)
    by (destruct (isImageByContent (Some bytes)); [discriminate|reflexivity]).
  unfold processFile.
  rewrite Hext, call_in_processFile, Eb, Hnone. cbn [rbind buffer_toString].
  destruct (String.eqb (file_extension f) ".py");
    [eexists; split; [reflexivity|discriminate]|].
  destruct (String.eqb (file_extension f) ".csv");
    [eexists; split; [reflexivity|discriminate]|].
  destruct (JS.includes text_extensions (file_extension f));
    [|eexists; split; [reflexivity|discriminate]].
  eexists. split; [reflexivity|].
  destruct (JS.substring1 (JS.toUpperCase (file_extension f))); discriminate.
Qed.

(** X13. With a non-empty text and attachments that are all images, the user
    message comes back from compaction as the plain text typed: the images
    are gone and nothing else is. *)
Theorem image_turn_compacts_to_question (files : list (option File))
    (newText : string) :
  newText <> "" ->
  Forall image_upload files ->
  exists userMessage,
    build_userMessage base64 utf8 (Some newText) files = Ok userMessage
    /\ compact_message userMessage = Ok (shown_user_message newText).
Proof.
  intros Htext Hfiles.
  destruct (image_uploads_blocks files Hfiles) as (attached & Hrun & Hnone).
  apply truthy_true_iff in Htext.
  exists (user_message (attached ++ new_text_items (Some newText))).
  unfold build_userMessage. rewrite Hrun. split; [reflexivity|].
  unfold compact_message, user_message, shown_user_message. cbn.
  rewrite Htext. unfold display_content. rewrite filter_app, Hnone. cbn.
  now rewrite Htext.
Qed.

(** X14. With a text attachment -- a file that is no image -- preceded by images
    only, the user message comes back from compaction as that attachment's
    block text (header and file body): what the user typed, and every
    later attachment, is not in the history returned. *)
Theorem text_attachment_replaces_question (images rest : list (option File))
    (f : File) (newText : option string) :
  Forall image_upload images ->
  buffer f <> None ->
  is_image_file f = false ->
  Forall carries_buffer rest ->
  exists userMessage text,
    build_userMessage base64 utf8 newText (images ++ Some f :: rest)
    = Ok userMessage
    /\ processFile base64 utf8 (Some f) = Ok (Some (text_item text (Some true)))
    /\ compact_message userMessage = Ok (shown_user_message text).
Proof.
  intros Himages Hbuf Hkind Hrest.
  destruct (image_uploads_blocks images Himages) as (front & Hfront & Hnone).
  destruct (processFile_text_nonempty f Hbuf Hkind) as (text & Hblock & Htext).
  destruct (process_files_blocks base64 utf8 rest Hrest) as (back & Hback & _).
  assert (Htail : process_files base64 utf8 (Some f :: rest)
                  = Ok (text_item text (Some true) :: back)).
  { cbn [process_files]. rewrite Hblock, Hback. reflexivity. }
  pose proof (process_files_app _ _ _ _ Hfront Htail) as Hall.
  exists (user_message ((front ++ text_item text (Some true) :: back)
                        ++ new_text_items newText)), text.
  unfold build_userMessage. rewrite Hall. split; [reflexivity|].
  split; [exact Hblock|].
  unfold compact_message, user_message, shown_user_message. cbn.
  unfold display_content. rewrite !filter_app, Hnone. cbn.
  apply truthy_true_iff in Htext. now rewrite Htext.
Qed.

End TurnInHistory.

(* ------------------------------------------------------------------ *)
(** * Properties of the interaction store *)

(** ** The schema validator *)

Lemma includes_In (l : list string) (s : string) :
  JS.includes l s = true <-> In s l.
Proof.
  unfold JS.includes. rewrite existsb_exists. split.
  - intros (x & Hx & Heq). apply String.eqb_eq in Heq. now subst.
  - intros H. exists s. split; [exact H|apply String.eqb_refl].
Qed.

Lemma item_errors_nil (field expected : string) (items : list Cosmos.Value) :
  forall idx,
    Cosmos.item_errors field expected idx items = []
    <-> Forall (fun item => Cosmos.typeof item = expected) items.
Proof.
  induction items as [|item rest IH]; intros idx; simpl.
  - split; auto.
  - destruct (String.eqb_spec (Cosmos.typeof item) expected) as [Heq|Hneq]; simpl.
    + rewrite IH. split; [now constructor|intros H; now inversion H].
    + split; [discriminate|]. intros H. inversion H. contradiction.
Qed.

Lemma field_errors_nil (allowPartial : bool) (data : Cosmos.Object)
    (entry : string * Cosmos.Rules) :
  Cosmos.field_errors allowPartial data entry = []
  <-> Cosmos.field_accepts allowPartial data entry.
Proof.
  destruct entry as [field rules]. unfold Cosmos.field_errors, Cosmos.field_accepts.
  assert (Hmissing :
            (if Cosmos.required rules && negb allowPartial
             then [Cosmos.missing_message field] else []) = []
            <-> Cosmos.required rules = false \/ allowPartial = true).
  { destruct (Cosmos.required rules), allowPartial; simpl;
      split; auto; try discriminate; intros [H|H]; discriminate. }
  assert (Hpresent :
            forall value,
              (if JS.includes (Cosmos.allowedTypes rules) (Cosmos.jsType value)
               then []
               else [Cosmos.type_message field (Cosmos.jsType value)
                       (Cosmos.allowedTypes rules)])
                ++ match value, Cosmos.itemType rules with
                   | Cosmos.VArray items, Some expected =>
                       if JS.truthy expected
                       then Cosmos.item_errors field expected 0 items else []
                   | _, _ => []
                   end = []
              <-> In (Cosmos.jsType value) (Cosmos.allowedTypes rules)
                  /\ forall items expected,
                       value = Cosmos.VArray items ->
                       Cosmos.itemType rules = Some expected ->
                       expected <> "" ->
                       Forall (fun item => Cosmos.typeof item = expected) items).
  { intros value. rewrite <- includes_In.
    destruct (JS.includes (Cosmos.allowedTypes rules) (Cosmos.jsType value));
      simpl; [|split; [discriminate|intros [H _]; discriminate]].
    split.
    - intros H. split; [reflexivity|]. intros items expected -> Hitem Hexp.
      rewrite Hitem in H. apply truthy_true_iff in Hexp. rewrite Hexp in H.
      now apply item_errors_nil in H.
    - intros [_ H].
      destruct value as [| | | | |items|]; try reflexivity.
      destruct (Cosmos.itemType rules) as [expected|]; [|reflexivity].
      destruct (JS.truthy expected) eqn:Hexp; [|reflexivity].
      apply item_errors_nil. apply (H items expected); auto.
      now apply truthy_true_iff. }
  destruct (Cosmos.get data field) eqn:Hvalue;
    first [exact Hmissing | exact (Hpresent _)].
Qed.

Lemma flat_map_nil {A B} (f : A -> list B) (l : list A) :
  flat_map f l = [] <-> Forall (fun a => f a = []) l.
Proof.
  induction l as [|a rest IH]; simpl.
  - split; auto.
  - split.
    + intros H. apply app_eq_nil in H as [Ha Hrest]. constructor; [exact Ha|].
      now apply IH.
    + intros H. inversion H as [|? ? Ha Hrest]. subst.
      rewrite Ha. now apply IH.
Qed.

Lemma validate_done_iff (schema : Cosmos.Schema) (data : Cosmos.Object)
    (allowPartial : bool) :
  Cosmos.validateAgainstSchema schema data allowPartial = Cosmos.Done tt
  <-> Forall (Cosmos.field_accepts allowPartial data) schema.
Proof.
  unfold Cosmos.validateAgainstSchema, Cosmos.validation_errors.
  transitivity (flat_map (Cosmos.field_errors allowPartial data) schema = []).
  - destruct (flat_map (Cosmos.field_errors allowPartial data) schema);
      split; try reflexivity; discriminate.
  - rewrite flat_map_nil. split; intros H; eapply Forall_impl; try exact H;
      intros entry; apply field_errors_nil.
Qed.

(** X15. The validator accepts exactly the objects that satisfy every entry of
    the schema: each field absent where it may be (not required, or partial
    validation), or present with one of the allowed types and, for arrays
    under an item type, with items of that type only. *)
Theorem validator_accepts_iff (schema : Cosmos.Schema) (data : Cosmos.Object)
    (allowPartial : bool) :
  Cosmos.validateAgainstSchema schema data allowPartial = Cosmos.Done tt
  <-> Forall (Cosmos.field_accepts allowPartial data) schema.
Proof. apply validate_done_iff. Qed.

(** X16. In full validation every required field that is absent is named in the
    error's details, wherever it stands in the schema and whatever else is
    wrong with the object. *)
Theorem missing_required_field_is_reported (schema : Cosmos.Schema)
    (data : Cosmos.Object) (field : string) (rules : Cosmos.Rules) :
  In (field, rules) schema ->
  Cosmos.required rules = true ->
  Cosmos.get data field = Cosmos.VUndefined ->
  exists message details,
    Cosmos.validateAgainstSchema schema data false
    = Cosmos.Failed (Cosmos.SchemaFailure message details)
    /\ In (Cosmos.missing_message field) details.
Proof.
  intros Hin Hreq Hget.
  assert (Herr : In (Cosmos.missing_message field)
                   (Cosmos.validation_errors schema data false)).
  { unfold Cosmos.validation_errors. apply in_flat_map.
    exists (field, rules). split; [exact Hin|].
    unfold Cosmos.field_errors. rewrite Hget, Hreq. simpl. auto. }
  unfold Cosmos.validateAgainstSchema.
  destruct (Cosmos.validation_errors schema data false) as [|e errors];
    [contradiction|].
  eexists. eexists. split; [reflexivity|exact Herr].
Qed.


(** ** The store wrapper *)

Lemma upsert_cases (schema : Cosmos.Schema) (pk : string)
    (container_upsert : Cosmos.Object -> Cosmos.Value -> Cosmos.Attempt Cosmos.Value)
    (interaction : Cosmos.Object) (sent : Cosmos.Requests) :
  (Cosmos.truthy (Cosmos.get interaction pk) = true
   /\ Forall (Cosmos.field_accepts false interaction) schema
   /\ Cosmos.upsert schema pk container_upsert interaction sent
      = (container_upsert interaction (Cosmos.get interaction pk),
         sent ++ [(interaction, Cosmos.get interaction pk)]))
  \/ ((Cosmos.truthy (Cosmos.get interaction pk) = false
       \/ ~ Forall (Cosmos.field_accepts false interaction) schema)
      /\ exists failure,
           Cosmos.upsert schema pk container_upsert interaction sent
           = (Cosmos.Failed failure, sent)).
Proof.
  unfold Cosmos.upsert.
  destruct (Cosmos.truthy (Cosmos.get interaction pk)) eqn:Hpk; simpl.
  - destruct (Cosmos.validateAgainstSchema schema interaction false) as [[]|e] eqn:Hv.
    + left. apply validate_done_iff in Hv. auto.
    + right. split; [|eauto]. right. intros H.
      apply validate_done_iff in H. congruence.
  - right. split; [auto|eauto].
Qed.

(** X18. [upsert] sends at most one request to the container, and only for an
    interaction whose partition key is truthy and which passes full
    validation; the request carries that interaction and that key.  In every
    other case it fails and nothing is sent. *)
Theorem upsert_sends_only_valid (schema : Cosmos.Schema) (pk : string)
    (container_upsert : Cosmos.Object -> Cosmos.Value -> Cosmos.Attempt Cosmos.Value)
    (interaction : Cosmos.Object) (sent : Cosmos.Requests) :
  (Cosmos.truthy (Cosmos.get interaction pk) = true
   /\ Forall (Cosmos.field_accepts false interaction) schema
   /\ Cosmos.upsert schema pk container_upsert interaction sent
      = (container_upsert interaction (Cosmos.get interaction pk),
         sent ++ [(interaction, Cosmos.get interaction pk)]))
  \/ ((Cosmos.truthy (Cosmos.get interaction pk) = false
       \/ ~ Forall (Cosmos.field_accepts false interaction) schema)
      /\ exists failure,
           Cosmos.upsert schema pk container_upsert interaction sent
           = (Cosmos.Failed failure, sent)).
Proof. apply upsert_cases. Qed.

(** ** The pseudonymous identifier *)

Lemma isWhiteSpace_lower (c : ascii) :
  JS.isWhiteSpace (JS.lower_char c) = JS.isWhiteSpace c.
Proof. destruct c as [[] [] [] [] [] [] [] []]; reflexivity. Qed.

Lemma lower_char_idem (c : ascii) :
  JS.lower_char (JS.lower_char c) = JS.lower_char c.
Proof. destruct c as [[] [] [] [] [] [] [] []]; reflexivity. Qed.

Lemma toLowerCase_idem (s : string) :
  JS.toLowerCase (JS.toLowerCase s) = JS.toLowerCase s.
Proof.
  induction s as [|c s IH]; [reflexivity|].
  cbn. rewrite lower_char_idem. f_equal. exact IH.
Qed.

Lemma toLowerCase_cons (c : ascii) (s : string) :
  JS.toLowerCase (String c s) = String (JS.lower_char c) (JS.toLowerCase s).
Proof. reflexivity. Qed.

Lemma trimStart_lower (s : string) :
  JS.trimStart (JS.toLowerCase s) = JS.toLowerCase (JS.trimStart s).
Proof.
  induction s as [|c s IH]; [reflexivity|].
  rewrite toLowerCase_cons. cbn [JS.trimStart]. rewrite isWhiteSpace_lower.
  destruct (JS.isWhiteSpace c); [exact IH|reflexivity].
Qed.

Lemma trimEnd_lower (s : string) :
  JS.trimEnd (JS.toLowerCase s) = JS.toLowerCase (JS.trimEnd s).
Proof.
  induction s as [|c s IH]; [reflexivity|].
  rewrite toLowerCase_cons. cbn [JS.trimEnd]. rewrite IH, isWhiteSpace_lower.
  destruct (JS.trimEnd s) as [|d kept]; cbn.
  - destruct (JS.isWhiteSpace c); reflexivity.
  - reflexivity.
Qed.

Lemma trimStart_clean (s : string) : starts_clean (JS.trimStart s).
Proof.
  induction s as [|c s IH]; simpl; [exact I|].
  destruct (JS.isWhiteSpace c) eqn:Hc; [exact IH|exact Hc].
Qed.

Lemma trimStart_of_clean (s : string) : starts_clean s -> JS.trimStart s = s.
Proof. destruct s as [|c s]; simpl; [reflexivity|]. now intros ->. Qed.

Lemma trimEnd_clean (s : string) : starts_clean s -> starts_clean (JS.trimEnd s).
Proof.
  destruct s as [|c s]; simpl; [auto|]. intros Hc.
  destruct (JS.trimEnd s); [rewrite Hc|]; exact Hc.
Qed.

Lemma trimEnd_idem (s : string) : JS.trimEnd (JS.trimEnd s) = JS.trimEnd s.
Proof.
  induction s as [|c s IH]; [reflexivity|].
  cbn [JS.trimEnd]. destruct (JS.trimEnd s) as [|d kept] eqn:Hkept.
  - destruct (JS.isWhiteSpace c) eqn:Hc; cbn; [reflexivity|now rewrite Hc].
  - cbn [JS.trimEnd] in *. now rewrite IH.
Qed.

Lemma trim_idem (s : string) : JS.trim (JS.trim s) = JS.trim s.
Proof.
  unfold JS.trim.
  rewrite (trimStart_of_clean (JS.trimEnd (JS.trimStart s)))
    by (apply trimEnd_clean, trimStart_clean).
  apply trimEnd_idem.
Qed.

(** X19. The pseudonym is that of the normalized identifier: identifiers that
    differ by letter case or by surrounding white space get the same
    pseudonym, and normalizing twice changes nothing.  It is produced exactly
    when the secret key is present with at least 32 characters. *)
Theorem pseudonym_of_normalized_identifier
    (hmac_sha256_hex : string -> string -> string)
    (rawIdentifier : string) (secretKey : option string) :
  Cosmos.generatePseudoID hmac_sha256_hex
    (JS.toLowerCase (JS.trim rawIdentifier)) secretKey
  = Cosmos.generatePseudoID hmac_sha256_hex rawIdentifier secretKey
  /\ ((exists id,
         Cosmos.generatePseudoID hmac_sha256_hex rawIdentifier secretKey
         = Cosmos.Done id)
      <-> exists key, secretKey = Some key /\ 32 <= String.length key).
Proof.
  split.
  - unfold Cosmos.generatePseudoID.
    assert (Hnorm : JS.toLowerCase (JS.trim (JS.toLowerCase (JS.trim rawIdentifier)))
                    = JS.toLowerCase (JS.trim rawIdentifier)).
    { unfold JS.trim at 1. rewrite trimStart_lower, trimEnd_lower.
      fold (JS.trim (JS.trim rawIdentifier)).
      now rewrite trim_idem, toLowerCase_idem. }
    now rewrite Hnorm.
  - unfold Cosmos.generatePseudoID. destruct secretKey as [key|].
    + destruct (Nat.ltb_spec (String.length key) 32) as [Hshort|Hlong].
      * rewrite andb_false_r. split; [intros [id H]; discriminate|].
        intros (k & [= <-] & Hk). lia.
      * assert (Htruthy : JS.truthy key = true)
          by (destruct key; [simpl in Hlong; lia|reflexivity]).
        rewrite Htruthy. simpl. split; eauto.
    + split; [intros [id H]; discriminate|intros (k & H & _); discriminate].
Qed.

(** ** [logResponse] *)

Section LogResponse.

Variable hmac_sha256_hex : string -> string -> string.
Variable HMAC : option string.
Variable MODEL_CHOICE : string.
Variable now : N.
Variable container_upsert : Cosmos.Object -> Cosmos.Value -> Cosmos.Attempt Cosmos.Value.

Local Abbreviation record := (Cosmos.interaction_of MODEL_CHOICE now).
Local Abbreviation log :=
  (Cosmos.logResponse hmac_sha256_hex HMAC MODEL_CHOICE now container_upsert).

Lemma record_accepted_iff (student_id : string)
    (userMessage response : Cosmos.Value) (messages : list Cosmos.Value) :
  Forall (Cosmos.field_accepts false
            (record student_id userMessage response messages))
    Cosmos.JUPYTUTOR_INTERACTION_SCHEMA
  <-> Cosmos.loggable userMessage response (Cosmos.context_of messages).
Proof.
  unfold Cosmos.loggable. split.
  - intros H. unfold Cosmos.JUPYTUTOR_INTERACTION_SCHEMA in H.
    repeat match goal with
           | Hall : Forall _ (_ :: _) |- _ =>
               let Hd := fresh "Hfield" in
               let Tl := fresh "Hrest" in
               apply Forall_cons_iff in Hall as [Hd Tl]
           end.
    cbn in *.
    split; [|split].
    + destruct userMessage as [| | | |text| |];
        [destruct Hfield4 as [Hno|Hno]; discriminate | | | |eauto| |];
        destruct Hfield4 as [[Hno|[]] _]; discriminate.
    + destruct response as [| | | |text| |];
        [left; reflexivity|right; left; reflexivity| | |right; right; eauto| |];
        destruct Hfield5 as [[Hno|[Hno|[]]] _]; discriminate.
    + destruct Hfield3 as [_ Hitems]. apply (Hitems _ "object"); auto.
      discriminate.
  - intros ((text & ->) & Hresponse & Hcontext).
    unfold Cosmos.JUPYTUTOR_INTERACTION_SCHEMA.
    destruct Hresponse as [-> | [-> | [t ->]]];
      repeat (apply Forall_cons || apply Forall_nil); cbn;
      first [ left; reflexivity
            | split;
              [ auto 6
              | intros items expected Heq Hitem Hexp;
                first [ discriminate Heq | discriminate Hitem
                      | injection Heq as <-; injection Hitem as <-;
                        exact Hcontext ] ] ].
Qed.

Lemma logResponse_cases (username : option string)
    (userMessage response : Cosmos.Value) (messages : list Cosmos.Value)
    (before : Cosmos.Logged) (student_id : string) :
  Cosmos.student_id_of hmac_sha256_hex HMAC username = Cosmos.Done student_id ->
  student_id <> "" ->
  exists after,
    log username userMessage response messages before = (Cosmos.Done tt, after)
    /\ ((Cosmos.loggable userMessage response (Cosmos.context_of messages)
         /\ Cosmos.requests after
            = Cosmos.requests before
              ++ [(record student_id userMessage response messages,
                   Cosmos.VString student_id)])
        \/ (~ Cosmos.loggable userMessage response (Cosmos.context_of messages)
            /\ Cosmos.requests after = Cosmos.requests before
            /\ exists message details,
                 Cosmos.upload_failures after
                 = Cosmos.upload_failures before
                   ++ [Cosmos.SchemaFailure message details])).
Proof.
  intros Hstudent Hid. unfold Cosmos.logResponse. rewrite Hstudent.
  unfold Cosmos.upsert.
  change (Cosmos.get (record student_id userMessage response messages)
            Cosmos.partition_key)
    with (Cosmos.VString student_id).
  cbn [Cosmos.truthy]. apply truthy_true_iff in Hid. rewrite Hid. cbn [negb].
  destruct (Cosmos.validateAgainstSchema Cosmos.JUPYTUTOR_INTERACTION_SCHEMA
              (record student_id userMessage response messages) false)
    as [[]|failure] eqn:Hvalid.
  - apply validate_done_iff, record_accepted_iff in Hvalid.
    destruct (container_upsert _ _); eexists; (split; [reflexivity|]); left;
      split; auto.
  - eexists. split; [reflexivity|]. right. split.
    + intros H. apply (record_accepted_iff student_id) in H.
      apply validate_done_iff in H. congruence.
    + split; [reflexivity|]. cbn [Cosmos.upload_failures].
      unfold Cosmos.validateAgainstSchema in Hvalid.
      destruct (Cosmos.validation_errors _ _ _); [discriminate|].
      injection Hvalid as <-. eauto.
Qed.

(** X20. With a student identifier resolved and non-empty, [logResponse]
    returns normally, and it sends the record to the container exactly when
    the request is a string, the response is a string, [null] or absent, and
    the logged context holds objects only; the request is then keyed by the
    student identifier.  Otherwise nothing is sent and the schema failure is
    printed by the [catch] handler. *)
Theorem logResponse_stores_iff (username : option string)
    (userMessage response : Cosmos.Value) (messages : list Cosmos.Value)
    (before : Cosmos.Logged) (student_id : string) :
  Cosmos.student_id_of hmac_sha256_hex HMAC username = Cosmos.Done student_id ->
  student_id <> "" ->
  exists after,
    log username userMessage response messages before = (Cosmos.Done tt, after)
    /\ ((Cosmos.loggable userMessage response (Cosmos.context_of messages)
         /\ Cosmos.requests after
            = Cosmos.requests before
              ++ [(record student_id userMessage response messages,
                   Cosmos.VString student_id)])
        \/ (~ Cosmos.loggable userMessage response (Cosmos.context_of messages)
            /\ Cosmos.requests after = Cosmos.requests before
            /\ exists message details,
                 Cosmos.upload_failures after
                 = Cosmos.upload_failures before
                   ++ [Cosmos.SchemaFailure message details])).
Proof. apply logResponse_cases. Qed.

(** X21. A user name sent while the secret key is missing or shorter than 32
    characters makes [logResponse] throw to its caller: nothing is sent to
    the container and nothing is printed. *)
Theorem logResponse_throws_on_short_key (username : string)
    (userMessage response : Cosmos.Value) (messages : list Cosmos.Value)
    (before : Cosmos.Logged) :
  username <> "" ->
  (HMAC = None \/ exists key, HMAC = Some key /\ String.length key < 32) ->
  log (Some username) userMessage response messages before
  = (Cosmos.Failed
       (Cosmos.PlainFailure "Secret key must be at least 32 characters long."),
     before).
Proof.
  intros Huser Hkey. apply truthy_true_iff in Huser.
  unfold Cosmos.logResponse, Cosmos.student_id_of, Cosmos.generatePseudoID.
  rewrite Huser. destruct Hkey as [-> | (key & -> & Hshort)]; [reflexivity|].
  apply Nat.ltb_lt in Hshort. rewrite Hshort, andb_false_r. reflexivity.
Qed.

End LogResponse.

(* ------------------------------------------------------------------ *)
(** * Properties of the route *)

Lemma headersSent_after (cs : list Chunk) (c : Chunk) (hs : list (string * string))
    (e : bool) :
  headersSent {| headers := hs; chunks := cs ++ [c]; ended := e |} = true.
Proof. unfold headersSent. simpl. destruct cs; reflexivity. Qed.

(** A response handled without exception, on a response object, has sent
    something. *)
Lemma handle_response_ok_sent (messages : list Message) (streaming : bool)
    (answer : Response) (w w' : World) (r : Res) (fr : FinalResponse) :
  res w = Some r ->
  handle_response messages streaming true answer w = (Ok fr, w') ->
  exists r', res w' = Some r' /\ headersSent r' = true.
Proof.
  intros Hres. unfold handle_response. rewrite andb_true_r.
  destruct streaming, answer as [output|events]; try (unfold throw; discriminate).
  - unfold bind at 1.
    destruct (stream_loop_run events loop0 w r Hres eq_refl) as (pushed & -> & _).
    unfold bind at 1, lift.
    destruct (final_response _ _) as [final|]; [|discriminate].
    unfold bind, res_write, res_end, with_res, ret. cbn.
    intros [= <- <-]. eexists. split; [reflexivity|]. apply headersSent_after.
  - unfold bind at 1, lift.
    destruct (final_response _ _) as [final|]; [|discriminate].
    unfold bind, res_json, with_res, ret. rewrite Hres.
    destruct (headersSent r); [discriminate|].
    intros [= <- <-]. eexists. split; [reflexivity|]. apply headersSent_after.
Qed.

Lemma headers_keep_res (stream : bool) (w w1 : World) (r : Res) (u : unit) :
  res w = Some r ->
  (if stream && negb (Path.isNone (res w)) then streaming_headers else ret tt) w
  = (Ok u, w1) ->
  exists r1, res w1 = Some r1.
Proof.
  intros Hres. rewrite Hres. cbn [Path.isNone negb]. rewrite andb_true_r.
  destruct stream.
  - destruct (chunks r) as [|c cs] eqn:Hchunks.
    + rewrite (headers_set w r Hres Hchunks). intros [= _ <-]. simpl. eauto.
    + unfold streaming_headers, bind, res_setHeader, headersSent.
      rewrite Hres, Hchunks. discriminate.
  - unfold ret. intros [= _ <-]. eauto.
Qed.

Section RouteProperties.

Variable JSON_parse : string -> Router.Parsed.
Variable base64 : list byte -> string.
Variable utf8 : list byte -> string.
Variable graderInstructions freeResponseInstructions successInstructions : string.
Variable provider : Request -> Result Response.
Variable hmac_sha256_hex : string -> string -> string.
Variable HMAC : option string.
Variable MODEL_CHOICE : string.
Variable now : N.
Variable container_upsert : Cosmos.Object -> Cosmos.Value -> Cosmos.Attempt Cosmos.Value.

Local Abbreviation tutor :=
  (promptTutor base64 utf8 graderInstructions freeResponseInstructions
     successInstructions provider).
Local Abbreviation request :=
  (make_request graderInstructions freeResponseInstructions successInstructions).
Local Abbreviation route :=
  (Router.interaction_stream JSON_parse base64 utf8 graderInstructions
     freeResponseInstructions successInstructions provider hmac_sha256_hex HMAC
     MODEL_CHOICE now container_upsert).
Local Abbreviation files_of :=
  (fun files : option (list (option File)) =>
     match files with Some fs => fs | None => [] end).

(** A call that returns, on a response object, has sent something. *)
Lemma promptTutor_ok_sent (history : list Message) (newText : option string)
    (files : list (option File)) (cellType : option string) (stream : bool)
    (w w' : World) (r : Res) (fr : FinalResponse) :
  res w = Some r ->
  tutor history newText files cellType stream w = (Ok fr, w') ->
  exists r', res w' = Some r' /\ headersSent r' = true.
Proof.
  intros Hres. unfold promptTutor.
  destruct (promptTutor_try _ _ _ _ _ _ _ _ _ _ _ w) as [[fr'|e] w1] eqn:Htry.
  - intros [= <- <-]. rewrite promptTutor_try_steps in Htry.
    destruct (assemble base64 utf8 history newText files) as [messages|];
      [|discriminate].
    destruct (hasImages files messages) as [found|]; [|discriminate].
    cbv zeta in Htry.
    destruct ((if stream && _ then streaming_headers else ret tt) w)
      as [[u|] w2] eqn:Hhead; [|discriminate].
    destruct (headers_keep_res stream w w2 r u Hres Hhead) as [r2 Hr2].
    destruct (provider (request messages cellType stream)) as [answer|];
      [|discriminate].
    rewrite Hres in Htry. cbn [Path.isNone negb] in Htry.
    eapply handle_response_ok_sent; [|exact Htry]. exact Hr2.
  - intros H. pose proof (promptTutor_catch_throws stream e w1) as Hthrow.
    rewrite H in Hthrow. discriminate.
Qed.

Lemma route_catch_reply (message : string) (w : World) (l : Cosmos.Logged)
    (error : string) :
  Router.reply (Router.route_catch message w l) <> Router.Reply400 error.
Proof.
  unfold Router.route_catch. simpl.
  destruct (res w) as [r'|]; [destruct (headersSent r')|]; discriminate.
Qed.

(** A history that was read never ends in a 400. *)
Lemma read_history_no_400 (body : Router.Body)
    (files : option (list (option File))) (r : Res) (l : Cosmos.Logged)
    (history : list Message) (error : string) :
  Router.read_chatHistory JSON_parse (Router.body_chatHistory body) = inr history ->
  Router.reply (route body files r l) <> Router.Reply400 error.
Proof.
  intros Hread. unfold Router.interaction_stream. rewrite Hread.
  destruct (tutor _ _ _ _ _ _) as [[result|e] w'];
    [|apply route_catch_reply].
  destruct (response result) as [|first rest]; [apply route_catch_reply|].
  destruct (Cosmos.logResponse _ _ _ _ _ _ _ _ _ _) as [[u|f] l'];
    [discriminate|apply route_catch_reply].
Qed.

(** X22. The history field is refused exactly when it is a truthy value that is
    neither an array nor a string holding a JSON array; the reply is then a
    400, the provider is not called, the response object is left as it was
    and nothing is logged. *)
Theorem malformed_history_is_refused (body : Router.Body)
    (files : option (list (option File))) (r : Res) (l : Cosmos.Logged) :
  ((exists error, Router.reply (route body files r l) = Router.Reply400 error)
   <-> (Router.body_chatHistory body = Router.HistoryOther
        \/ exists text,
             Router.body_chatHistory body = Router.HistoryString text
             /\ text <> ""
             /\ forall messages, JSON_parse text <> Router.ParsedArray messages))
  /\ (forall error,
        Router.reply (route body files r l) = Router.Reply400 error ->
        Router.world (route body files r l) = {| res := Some r; calls := [] |}
        /\ Router.logged (route body files r l) = l).
Proof.
  destruct (Router.read_chatHistory JSON_parse (Router.body_chatHistory body))
    as [error|chatHistory] eqn:Hread.
  - split.
    + split; [intros _|intros _; unfold Router.interaction_stream;
                        rewrite Hread; simpl; eauto].
      unfold Router.read_chatHistory in Hread.
      destruct (Router.body_chatHistory body) as [|messages|text|];
        try discriminate; [|auto].
      right. exists text. split; [reflexivity|].
      destruct (JS.truthy text) eqn:Htext; [|discriminate].
      split; [now apply truthy_true_iff|].
      intros messages Hparse. rewrite Hparse in Hread. discriminate.
    + intros error' _. unfold Router.interaction_stream. rewrite Hread. auto.
  - split.
    + split.
      * intros [error Hreply]. exfalso.
        exact (read_history_no_400 body files r l chatHistory error Hread Hreply).
      * intros H. exfalso. unfold Router.read_chatHistory in Hread.
        destruct H as [H|(text & H & Htext & Hparse)]; rewrite H in Hread;
          [discriminate|].
        apply truthy_true_iff in Htext. rewrite Htext in Hread.
        destruct (JSON_parse text) as [messages| |] eqn:Hp; try discriminate.
        exact (Hparse messages eq_refl).
    + intros error Hreply. exfalso.
      exact (read_history_no_400 body files r l chatHistory error Hread Hreply).
Qed.

(** X23. Once [promptTutor] has returned, the route adds nothing to what the
    client received: it sends no reply of its own and leaves the response
    object as [promptTutor] left it, whether logging succeeds, is refused,
    or throws. *)
Theorem logging_never_alters_the_response (body : Router.Body)
    (files : option (list (option File))) (r : Res) (l : Cosmos.Logged)
    (history : list Message) (fr : FinalResponse) (w' : World) :
  Router.read_chatHistory JSON_parse (Router.body_chatHistory body) = inr history ->
  tutor history (Router.body_newMessage body) (files_of files)
    (Router.body_cellType body)
    (Router.enableStreaming (Router.body_stream body))
    {| res := Some r; calls := [] |} = (Ok fr, w') ->
  Router.reply (route body files r l) = Router.NoReply
  /\ Router.world (route body files r l) = w'.
Proof.
  intros Hread Hrun.
  destruct (promptTutor_ok_sent _ _ _ _ _ {| res := Some r; calls := [] |} _ r fr
              eq_refl Hrun) as (r' & Hr' & Hsent).
  unfold Router.interaction_stream. rewrite Hread, Hrun.
  assert (Hcatch : forall message l0,
            Router.reply (Router.route_catch message w' l0) = Router.NoReply
            /\ Router.world (Router.route_catch message w' l0) = w').
  { intros message l0. unfold Router.route_catch. simpl. now rewrite Hr', Hsent. }
  destruct (response fr) as [|first rest]; [apply Hcatch|].
  destruct (Cosmos.logResponse _ _ _ _ _ _ _ _ _ _) as [[u|f] l'];
    [split; reflexivity|apply Hcatch].
Qed.

(** X24. A provider failure reaches the client exactly once, on a response that
    has sent nothing: when streaming is enabled, as the error frame and the
    terminal marker inside the stream, with no reply from the route; when it
    is disabled, as the route's 500 reply carrying the error's message, the
    response object being otherwise untouched.  Nothing is logged. *)
Theorem provider_failure_reaches_client_once (body : Router.Body)
    (files : option (list (option File))) (r : Res) (l : Cosmos.Logged)
    (history messages : list Message) (found : bool) (e : JsError) :
  chunks r = [] ->
  Router.read_chatHistory JSON_parse (Router.body_chatHistory body) = inr history ->
  assemble base64 utf8 history (Router.body_newMessage body) (files_of files)
  = Ok messages ->
  hasImages (files_of files) messages = Ok found ->
  provider (request messages (Router.body_cellType body)
              (Router.enableStreaming (Router.body_stream body))) = Throw e ->
  Router.logged (route body files r l) = l
  /\ if Router.enableStreaming (Router.body_stream body)
     then Router.reply (route body files r l) = Router.NoReply
          /\ option_map chunks (res (Router.world (route body files r l)))
             = Some [ErrorChunk (error_message e); DoneChunk]
     else Router.reply (route body files r l) = Router.Reply500 (error_message e)
          /\ res (Router.world (route body files r l)) = Some r.
Proof.
  intros Hfresh Hread Hasm Himg Hprov.
  unfold Router.interaction_stream. rewrite Hread.
  rewrite (provider_failure_world base64 utf8 graderInstructions
             freeResponseInstructions successInstructions provider history
             (Router.body_newMessage body) (files_of files)
             (Router.body_cellType body)
             (Router.enableStreaming (Router.body_stream body))
             {| res := Some r; calls := [] |} r messages found e
             eq_refl Hfresh Hasm Himg Hprov).
  unfold Router.route_catch. cbn [Router.logged Router.reply Router.world res].
  split; [reflexivity|].
  destruct (Router.enableStreaming (Router.body_stream body)).
  - split; reflexivity.
  - unfold headersSent. rewrite Hfresh. split; reflexivity.
Qed.

(** What the context of a logged turn holds is objects only. *)
Lemma context_holds_objects (messages : list Message) :
  Forall (fun item => Cosmos.typeof item = "object")
    (Cosmos.context_of (map Router.message_value messages)).
Proof.
  unfold Cosmos.context_of. apply Forall_forall. intros item Hin.
  assert (Hall : In item (map Router.message_value messages)).
  { rewrite <- (firstn_skipn (List.length (map Router.message_value messages) - 2)).
    apply in_or_app. now left. }
  apply in_map_iff in Hall as (m & <- & _). reflexivity.
Qed.

(** X25. A completed turn is sent to the store exactly when the request carried
    a text, the provider returned at least one output item, and the first
    item's content is no block array; the student identifier being resolved
    and non-empty.  In every other case nothing is sent to the store. *)
Theorem turn_is_stored_iff (body : Router.Body)
    (files : option (list (option File))) (r : Res) (l : Cosmos.Logged)
    (history : list Message) (fr : FinalResponse) (w' : World)
    (student_id : string) :
  Router.read_chatHistory JSON_parse (Router.body_chatHistory body) = inr history ->
  tutor history (Router.body_newMessage body) (files_of files)
    (Router.body_cellType body)
    (Router.enableStreaming (Router.body_stream body))
    {| res := Some r; calls := [] |} = (Ok fr, w') ->
  Cosmos.student_id_of hmac_sha256_hex HMAC (Router.body_username body)
  = Cosmos.Done student_id ->
  student_id <> "" ->
  ((exists text first rest,
      Router.body_newMessage body = Some text
      /\ response fr = first :: rest
      /\ (forall items, content first <> Some (Arr items))
      /\ Cosmos.requests (Router.logged (route body files r l))
         = Cosmos.requests l
           ++ [(Cosmos.interaction_of MODEL_CHOICE now student_id
                  (Cosmos.VString text) (Router.content_value (content first))
                  (map Router.message_value (history ++ response fr)),
                Cosmos.VString student_id)])
   \/ ((Router.body_newMessage body = None
        \/ response fr = []
        \/ exists first rest items,
             response fr = first :: rest /\ content first = Some (Arr items))
       /\ Cosmos.requests (Router.logged (route body files r l))
          = Cosmos.requests l)).
Proof.
  intros Hread Hrun Hstudent Hid.
  unfold Router.interaction_stream. rewrite Hread, Hrun.
  destruct (response fr) as [|first rest] eqn:Hresponse;
    [right; split; [auto|reflexivity]|].
  destruct (logResponse_cases hmac_sha256_hex HMAC MODEL_CHOICE now
              container_upsert (Router.body_username body)
              (Router.text_value (Router.body_newMessage body))
              (Router.content_value (content first))
              (map Router.message_value (history ++ first :: rest))
              l student_id Hstudent Hid)
    as (after & -> & [[Hok Hsent]|[Hno [Hsame _]]]).
  - left. destruct Hok as ((text & Htext) & Hresp & _).
    destruct (Router.body_newMessage body) as [typed|]; [|discriminate].
    injection Htext as <-.
    exists typed, first, rest. repeat split; auto.
    intros items Hitems. rewrite Hitems in Hresp.
    destruct Hresp as [H|[H|[t H]]]; discriminate.
  - right. split; [|exact Hsame].
    destruct (Router.body_newMessage body) as [typed|] eqn:Htyped; [|auto].
    right. right.
    destruct (content first) as [[text|items]|] eqn:Hcontent; [| |].
    + exfalso. apply Hno. repeat split; simpl; eauto.
      apply context_holds_objects.
    + eauto.
    + exfalso. apply Hno. repeat split; simpl; eauto.
      apply context_holds_objects.
Qed.

End RouteProperties.

(* ------------------------------------------------------------------ *)
(** * Instances of the further properties *)


(** The outputs of the same stream are prefixes of "AB". *)
Lemma stream_outputs_AB :
  res Sample.world = Some Sample.fresh_res
  /\ exists st,
       fst (stream_loop Sample.two_messages loop0 Sample.world) = Ok st
       /\ currentMessage st = "AB"
       /\ currentReasoning st = ""
       /\ Forall (fun m =>
                    exists t, m = assistant_message t /\ t <> ""
                              /\ is_prefix t "AB")
            (fullOutput st).
Proof.
  split; [reflexivity|].
  exact (stream_outputs_are_cumulative Sample.two_messages Sample.world
           Sample.fresh_res eq_refl).
Defined.

(** A delta that arrives after [response.done] is not read. *)
Lemma late_delta_ignored :
  ev_type (Sample.event "response.done" None) = "response.done"
  /\ stream_loop
       ([Sample.event "response.output_text.delta" (Some "A")]
          ++ Sample.event "response.done" None
          :: [Sample.event "response.output_text.delta" (Some "late")])
       loop0 Sample.world
     = stream_loop
         ([Sample.event "response.output_text.delta" (Some "A")]
            ++ [Sample.event "response.done" None])
         loop0 Sample.world.
Proof.
  split; [reflexivity|].
  apply (events_after_done_are_ignored
           [Sample.event "response.output_text.delta" (Some "A")]
           [Sample.event "response.output_text.delta" (Some "late")]
           (Sample.event "response.done" None) loop0 Sample.world).
  reflexivity.
Defined.

(** Compaction of an attachment turn and its answer keeps both messages. *)
Lemma compaction_keeps_two_messages :
  let c := [ user_message [ image_item "data:image/png;base64,iVBORw0KGgo=";
                            text_item "see the plot" None ];
             Sample.answer ] in
  let c' := [ Sample.user_text "see the plot";
              {| msg_type := Some "message"; role := Some "assistant";
                 content := Some (Str "4"); noShow := None |} ] in
  processChatHistory c = Ok c'
  /\ List.length c' = List.length c
  /\ map role c' = map role c
  /\ map msg_type c' = map msg_type c.
Proof.
  split; [reflexivity|].
  apply (compaction_keeps_every_message
           [ user_message [ image_item "data:image/png;base64,iVBORw0KGgo=";
                            text_item "see the plot" None ];
             Sample.answer ]).
  reflexivity.
Defined.

(** One message without content is enough to lose the history. *)
Lemma compaction_fails_on_broken_message :
  (In Fixture.broken_message [Sample.user_text "hi"; Fixture.broken_message]
   /\ has_type "reasoning" (msg_type Fixture.broken_message) = false
   /\ content Fixture.broken_message = None)
  /\ processChatHistory [Sample.user_text "hi"; Fixture.broken_message]
     = Throw (TypeError "Cannot read properties of undefined (reading 'filter')").
Proof.
  assert (Hin : In Fixture.broken_message
                  [Sample.user_text "hi"; Fixture.broken_message])
    by (right; left; reflexivity).
  split; [split; [exact Hin|split; reflexivity]|].
  exact (compaction_fails_on_missing_content _ _ Hin eq_refl eq_refl).
Defined.

(** A streamed turn "hi" answered by the stream [A, done, B, done]. *)
Lemma streamed_turn_hi :
  exists fr,
    Sample.run [] (Some "hi") [] None true Sample.world
    = (Ok fr,
       {| res := Some {| headers := stream_headers;
                         chunks := [MessageDelta "A"; MessageDelta "B";
                                    FinalChunk fr; DoneChunk];
                         ended := true |};
          calls := [ {| req_model := "gpt-5-mini";
                        req_input := [user_message [text_item "hi" None]];
                        req_instructions := "success";
                        req_stream := true |} ] |})
    /\ List.length (newChatHistory fr) = 1 + List.length (response fr).
Proof.
  assert (Hcompactable : Forall compactable [user_message [text_item "hi" None]]).
  { constructor; [right; discriminate|constructor]. }
  destruct (streamed_turn_frames Sample.base64 Sample.utf8 "grader" "free"
              "success" Sample.provider [] (Some "hi") [] None Sample.world
              Sample.fresh_res [user_message [text_item "hi" None]] false
              Sample.two_messages eq_refl eq_refl eq_refl eq_refl eq_refl
              Hcompactable)
    as (fr & Hrun & _ & Hlen).
  exists fr. split; [exact Hrun|exact Hlen].
Defined.

(** The same turn, not streamed: one JSON body. *)
Lemma plain_turn_hi :
  let fr := {| response := [Sample.answer];
               newChatHistory :=
                 [ Sample.user_text "hi";
                   {| msg_type := Some "message"; role := Some "assistant";
                      content := Some (Str "4"); noShow := None |} ];
               promptSuggestions := [] |} in
  Sample.run [] (Some "hi") [] None false Sample.world
  = (Ok fr,
     {| res := Some {| headers := []; chunks := [JsonBody fr]; ended := true |};
        calls := [ {| req_model := "gpt-5-mini";
                      req_input := [user_message [text_item "hi" None]];
                      req_instructions := "success";
                      req_stream := false |} ] |}).
Proof.
  exact (plain_turn_reply Sample.base64 Sample.utf8 "grader" "free" "success"
           Sample.provider [] (Some "hi") [] None Sample.world Sample.fresh_res
           [user_message [text_item "hi" None]] false [Sample.answer]
           [ Sample.user_text "hi";
             {| msg_type := Some "message"; role := Some "assistant";
                content := Some (Str "4"); noShow := None |} ]
           eq_refl eq_refl eq_refl eq_refl eq_refl eq_refl).
Defined.

(** A provider out of service, streamed and not. *)
Lemma provider_failure_both_modes :
  Fixture.run_failing [] (Some "hi") [] None true Sample.world
  = (Throw (ProviderError "429 Too Many Requests"),
     {| res := Some {| headers := stream_headers;
                       chunks := [ErrorChunk "429 Too Many Requests"; DoneChunk];
                       ended := true |};
        calls := [ {| req_model := "gpt-5-mini";
                      req_input := [user_message [text_item "hi" None]];
                      req_instructions := "success";
                      req_stream := true |} ] |})
  /\ fst (Fixture.run_failing [] (Some "hi") [] None false Sample.world)
     = Throw (ProviderError "429 Too Many Requests").
Proof.
  split.
  - exact (provider_failure_report Sample.base64 Sample.utf8 "grader" "free"
             "success" Fixture.failing_provider [] (Some "hi") [] None true
             Sample.world Sample.fresh_res [user_message [text_item "hi" None]]
             false (ProviderError "429 Too Many Requests")
             eq_refl eq_refl eq_refl eq_refl eq_refl).
  - exact (f_equal fst
             (provider_failure_report Sample.base64 Sample.utf8 "grader" "free"
                "success" Fixture.failing_provider [] (Some "hi") [] None false
                Sample.world Sample.fresh_res [user_message [text_item "hi" None]]
                false (ProviderError "429 Too Many Requests")
                eq_refl eq_refl eq_refl eq_refl eq_refl)).
Defined.

(** A history with a message without content, streamed: the deltas go out
    and the stream is left open. *)
Lemma stream_left_open_sample :
  Sample.run [Fixture.broken_message] (Some "hi") [] None true Sample.world
  = (Throw (TypeError "Cannot read properties of undefined (reading 'filter')"),
     {| res := Some {| headers := stream_headers;
                       chunks := [MessageDelta "A"; MessageDelta "B"];
                       ended := false |};
        calls := [ {| req_model := "gpt-5-mini";
                      req_input := [ Fixture.broken_message;
                                     user_message [text_item "hi" None] ];
                      req_instructions := "success";
                      req_stream := true |} ] |}).
Proof.
  exact (stream_left_open_after_late_failure Sample.base64 Sample.utf8 "grader"
           "free" "success" Sample.provider [Fixture.broken_message] (Some "hi")
           [] None Sample.world Sample.fresh_res
           [Fixture.broken_message; user_message [text_item "hi" None]] false
           Sample.two_messages Fixture.broken_message
           eq_refl eq_refl eq_refl eq_refl eq_refl
           ltac:(discriminate) (or_introl eq_refl) eq_refl eq_refl).
Defined.

(** A question with a PNG attached: the history shows the question. *)
Lemma image_turn_sample :
  ("What does the plot show?" <> "" /\ Forall image_upload [Sample.a_png])
  /\ exists userMessage,
       build_userMessage Sample.base64 Sample.utf8
         (Some "What does the plot show?") [Sample.a_png] = Ok userMessage
       /\ compact_message userMessage
          = Ok (shown_user_message "What does the plot show?").
Proof.
  assert (Htext : "What does the plot show?" <> "") by discriminate.
  assert (Hfiles : Forall image_upload [Sample.a_png]).
  { constructor; [split; [discriminate|reflexivity]|constructor]. }
  split; [split; assumption|].
  exact (image_turn_compacts_to_question Sample.base64 Sample.utf8
           [Sample.a_png] "What does the plot show?" Htext Hfiles).
Defined.

(** A question with a PNG and a CSV attached: the history shows the CSV. *)
Lemma csv_turn_sample :
  exists userMessage,
    build_userMessage Sample.base64 Sample.utf8 (Some "What does the plot show?")
      [Sample.a_png; Sample.b_csv] = Ok userMessage
    /\ compact_message userMessage
       = Ok (shown_user_message
               ("CSV Data File (b.csv):" ++ newline2 ++ "x,y")%string).
Proof.
  assert (Himages : Forall image_upload [Sample.a_png]).
  { constructor; [split; [discriminate|reflexivity]|constructor]. }
  destruct (text_attachment_replaces_question Sample.base64 Sample.utf8
              [Sample.a_png] []
              {| originalname := Some "b.csv"; name := None;
                 buffer := Some [x78; x2c; x79] |}
              (Some "What does the plot show?") Himages
              ltac:(discriminate) eq_refl (Forall_nil _))
    as (userMessage & text & Hbuild & Hblock & Hcompact).
  exists userMessage. split; [exact Hbuild|].
  vm_compute in Hblock. injection Hblock as <-. exact Hcompact.
Defined.

(** A record without [student_id] is refused, and the field is named. *)
Lemma missing_student_id_is_reported :
  exists message details,
    Cosmos.validateAgainstSchema Cosmos.JUPYTUTOR_INTERACTION_SCHEMA
      Fixture.record_without_student false
    = Cosmos.Failed (Cosmos.SchemaFailure message details)
    /\ In "Missing required field 'student_id'" details.
Proof.
  apply (missing_required_field_is_reported Cosmos.JUPYTUTOR_INTERACTION_SCHEMA
           Fixture.record_without_student "student_id"
           {| Cosmos.rule_type := Cosmos.OneType "string";
              Cosmos.itemType := None; Cosmos.required := true |}).
  - do 9 right. left. reflexivity.
  - reflexivity.
  - reflexivity.
Defined.

(** An anonymous turn with a text request and a text response is sent to
    the container under the key "UNIDENTIFIED". *)
Lemma anonymous_turn_is_logged :
  exists after,
    Fixture.log None (Cosmos.VString "What is 2+2?") (Cosmos.VString "4") []
      Fixture.nothing_logged = (Cosmos.Done tt, after)
    /\ map snd (Cosmos.requests after) = [Cosmos.VString "UNIDENTIFIED"].
Proof.
  destruct (logResponse_stores_iff Fixture.hmac (Some Fixture.long_key)
              "gpt-5-mini" 1700000000000%N Fixture.container None
              (Cosmos.VString "What is 2+2?") (Cosmos.VString "4") []
              Fixture.nothing_logged "UNIDENTIFIED" eq_refl ltac:(discriminate))
    as (after & Hrun & [[_ Hsent]|[Hno _]]).
  - exists after. split; [exact Hrun|]. rewrite Hsent. reflexivity.
  - exfalso. apply Hno. repeat split; eauto.
Defined.

(** A named turn with a key of five characters throws. *)
Lemma short_key_throws :
  Cosmos.logResponse Fixture.hmac (Some "short") "gpt-5-mini" 1700000000000%N
    Fixture.container (Some "ada") (Cosmos.VString "What is 2+2?")
    (Cosmos.VString "4") [] Fixture.nothing_logged
  = (Cosmos.Failed
       (Cosmos.PlainFailure "Secret key must be at least 32 characters long."),
     Fixture.nothing_logged).
Proof.
  apply (logResponse_throws_on_short_key Fixture.hmac (Some "short")
           "gpt-5-mini" 1700000000000%N Fixture.container "ada").
  - discriminate.
  - right. exists "short". split; [reflexivity|]. simpl. lia.
Defined.

(** A streamed turn through the route: no reply of the route's own. *)
Lemma streamed_route_sample :
  exists fr w',
    Sample.run [] (Some "hi") [] (Some "grader") true
      {| res := Some Sample.fresh_res; calls := [] |} = (Ok fr, w')
    /\ Router.reply (Fixture.route Sample.provider
                       (Fixture.body (Some "hi") Cosmos.VUndefined) None
                       Sample.fresh_res Fixture.nothing_logged)
       = Router.NoReply
    /\ Router.world (Fixture.route Sample.provider
                       (Fixture.body (Some "hi") Cosmos.VUndefined) None
                       Sample.fresh_res Fixture.nothing_logged)
       = w'.
Proof.
  destruct (Sample.run [] (Some "hi") [] (Some "grader") true
              {| res := Some Sample.fresh_res; calls := [] |})
    as [[fr|e] w'] eqn:Hrun; [|vm_compute in Hrun; discriminate].
  exists fr, w'. split; [reflexivity|].
  exact (logging_never_alters_the_response Fixture.parse Sample.base64
           Sample.utf8 "grader" "free" "success" Sample.provider Fixture.hmac
           (Some Fixture.long_key) "gpt-5-mini" 1700000000000%N
           Fixture.container (Fixture.body (Some "hi") Cosmos.VUndefined) None
           Sample.fresh_res Fixture.nothing_logged [] fr w' eq_refl Hrun).
Defined.

(** A provider out of service behind the route, with streaming disabled by
    the string "false": a 500 reply. *)
Lemma route_reports_provider_failure :
  Router.reply (Fixture.route Fixture.failing_provider
                  (Fixture.body (Some "hi") (Cosmos.VString "false")) None
                  Sample.fresh_res Fixture.nothing_logged)
  = Router.Reply500 "429 Too Many Requests".
Proof.
  destruct (provider_failure_reaches_client_once Fixture.parse Sample.base64
              Sample.utf8 "grader" "free" "success" Fixture.failing_provider
              Fixture.hmac (Some Fixture.long_key) "gpt-5-mini"
              1700000000000%N Fixture.container
              (Fixture.body (Some "hi") (Cosmos.VString "false")) None
              Sample.fresh_res Fixture.nothing_logged []
              [user_message [text_item "hi" None]] false
              (ProviderError "429 Too Many Requests")
              eq_refl eq_refl eq_refl eq_refl eq_refl)
    as [_ [Hreply _]].
  exact Hreply.
Defined.

(** A turn that is not streamed, answered by a message with a block array:
    nothing is sent to the store. *)
Lemma plain_turn_is_not_stored :
  Cosmos.requests
    (Router.logged (Fixture.route Sample.provider
                      (Fixture.body (Some "hi") (Cosmos.VBool false)) None
                      Sample.fresh_res Fixture.nothing_logged))
  = [].
Proof.
  destruct (Sample.run [] (Some "hi") [] (Some "grader") false
              {| res := Some Sample.fresh_res; calls := [] |})
    as [[fr|e] w'] eqn:Hrun; [|vm_compute in Hrun; discriminate].
  destruct (turn_is_stored_iff Fixture.parse Sample.base64 Sample.utf8 "grader"
              "free" "success" Sample.provider Fixture.hmac
              (Some Fixture.long_key) "gpt-5-mini" 1700000000000%N
              Fixture.container (Fixture.body (Some "hi") (Cosmos.VBool false))
              None Sample.fresh_res Fixture.nothing_logged [] fr w'
              "UNIDENTIFIED" eq_refl Hrun eq_refl ltac:(discriminate))
    as [(text & first & rest & _ & Hresponse & Hcontent & _)|[_ Hsame]];
    [|exact Hsame].
  exfalso. vm_compute in Hrun. injection Hrun as <- _.
  injection Hresponse as <- _. exact (Hcontent _ eq_refl).
Defined.
